(** * healthtracker: date ranges, log forms, dashboard and chart aggregation

    A shallow embedding of [app.py].  The Flask handlers become functions
    from a request (the posted form) and the record store to a new store
    and a response; the SQL statements become list comprehensions over
    the rows of the store; [datetime.date] is embedded with its calendar
    arithmetic and its range check.

    Conventions.
    - A Python exception is the [Raise] branch of [result].
    - [date.today()] and SQLite's ['now'] read the clock; they are
      arguments here.
    - Python [float] and SQLite REAL are embedded as exact rationals
      ([Qc]); [round(x, 2)] rounds to the nearest hundredth, ties to
      even.  Overflow, NaN and binary rounding are outside the model,
      and so is the 64-bit range of SQLite's INTEGER for the numbers of
      the log forms; it is modelled ([Sqlite.bind_int]) where an
      integer goes to SQLite unchecked: the targets of the goals form
      and the key of a delete URL.
    - Python [str] is [string], read as a sequence of Latin-1 code
      points.
    - SQLite's reading of a time string is a parameter [sqlite_date] of
      the queries that call [DATE] or [strftime].
    - The logged-in user is the argument [uid] of a view.  For the
      application as a whole ([handle]) the session of each browser is
      a cookie jar from browsers to user ids; a step is a request that
      reached its view, so routing and the CSRF check are outside the
      model.
    - bcrypt is a pair of parameters, [generate_password_hash] (of the
      salt and the password) and [check_password_hash]. *)

From Stdlib Require Import ZArith QArith Qcanon Ascii String.
From Stdlib Require OrderedTypeEx PrimFloat.
From stdpp Require Import base tactics option list numbers strings pretty gmap sorting.

Local Open Scope Z_scope.

(** ** Exceptions *)

Inductive exn : Set :=
  | ValueError
  | OverflowError
  | ZeroDivisionError.

Inductive result (A : Type) : Type :=
  | Ok (a : A)
  | Raise (e : exn).
Arguments Ok {A} a.
Arguments Raise {A} e.

Global Instance result_ret : MRet result := @Ok.
Global Instance result_bind : MBind result := fun A B k r =>
  match r with
  | Ok a => k a
  | Raise e => Raise e
  end.

(** ** The proleptic Gregorian calendar of [datetime] *)

Module Calendar.

Definition MINYEAR : Z := 1.
Definition MAXYEAR : Z := 9999.

Definition DAYS_IN_MONTH : list Z :=
  [-1; 31; 28; 31; 30; 31; 30; 31; 31; 30; 31; 30; 31].
Definition DAYS_BEFORE_MONTH : list Z :=
  [-1; 0; 31; 59; 90; 120; 151; 181; 212; 243; 273; 304; 334].

(** Python list indexing at an index known to be in range. *)
Definition at_index (l : list Z) (i : Z) : Z := default 0 (l !! Z.to_nat i).

Definition is_leap (year : Z) : bool :=
  (year mod 4 =? 0) && (negb (year mod 100 =? 0) || (year mod 400 =? 0)).

Definition days_before_year (year : Z) : Z :=
  let y := year - 1 in
  y * 365 + y / 4 - y / 100 + y / 400.

Definition days_in_month (year month : Z) : Z :=
  if (month =? 2) && is_leap year then 29 else at_index DAYS_IN_MONTH month.

Definition days_before_month (year month : Z) : Z :=
  at_index DAYS_BEFORE_MONTH month
  + (if (2 <? month) && is_leap year then 1 else 0).

Definition ymd2ord (year month day : Z) : Z :=
  days_before_year year + days_before_month year month + day.

Definition DI400Y : Z := Eval cbv in days_before_year 401.
Definition DI100Y : Z := Eval cbv in days_before_year 101.
Definition DI4Y : Z := Eval cbv in days_before_year 5.

(** The day of the year (from 0) and the leap flag give month and day. *)
Definition month_day (n : Z) (leapyear : bool) : Z * Z :=
  let month := Z.shiftr (n + 50) 5 in
  let preceding :=
    at_index DAYS_BEFORE_MONTH month
    + (if (2 <? month) && leapyear then 1 else 0) in
  if n <? preceding
  then
    let month := month - 1 in
    let preceding :=
      preceding - (at_index DAYS_IN_MONTH month
                   + (if (month =? 2) && leapyear then 1 else 0)) in
    (month, n - preceding + 1)
  else (month, n - preceding + 1).

Definition ord2ymd (n : Z) : Z * Z * Z :=
  let n := n - 1 in
  let n400 := n / DI400Y in
  let n := n mod DI400Y in
  let year := n400 * 400 + 1 in
  let n100 := n / DI100Y in
  let n := n mod DI100Y in
  let n4 := n / DI4Y in
  let n := n mod DI4Y in
  let n1 := n / 365 in
  let n := n mod 365 in
  let year := year + n100 * 100 + n4 * 4 + n1 in
  if (n1 =? 4) || (n100 =? 4)
  then (year - 1, 12, 31)
  else
    let leapyear := (n1 =? 3) && (negb (n4 =? 24) || (n100 =? 3)) in
    let '(month, day) := month_day n leapyear in
    (year, month, day).

Definition MAXORDINAL : Z := Eval cbv in ymd2ord 9999 12 31.

End Calendar.

(** ** [datetime.date] *)

Record date : Set := Date { year : Z; month : Z; day : Z }.

Global Instance date_eq_dec : EqDecision date.
Proof. solve_decision. Defined.

Module PyDate.
Import Calendar.

(** The fields a [date] object can hold. *)
Definition valid (d : date) : Prop :=
  MINYEAR ≤ year d ≤ MAXYEAR ∧ 1 ≤ month d ≤ 12
  ∧ 1 ≤ day d ≤ days_in_month (year d) (month d).

Definition check_fields (y m d : Z) : bool :=
  (MINYEAR <=? y) && (y <=? MAXYEAR) && (1 <=? m) && (m <=? 12)
  && (1 <=? d) && (d <=? days_in_month y m).

(** [date(y, m, d)] *)
Definition make (y m d : Z) : result date :=
  if check_fields y m d then Ok (Date y m d) else Raise ValueError.

Definition toordinal (d : date) : Z := ymd2ord (year d) (month d) (day d).

Definition fromordinal (n : Z) : date :=
  let '(y, m, d) := ord2ymd n in Date y m d.

(** [d + timedelta(days=k)] *)
Definition add_days (d : date) (k : Z) : result date :=
  let o := toordinal d + k in
  if (0 <? o) && (o <=? MAXORDINAL) then Ok (fromordinal o)
  else Raise OverflowError.

(** [d - timedelta(days=k)] *)
Definition sub_days (d : date) (k : Z) : result date := add_days d (- k).

(** [d.weekday()]: Monday is 0. *)
Definition weekday (d : date) : Z := (toordinal d + 6) mod 7.

(** [d.replace(day=k)] *)
Definition replace_day (d : date) (k : Z) : result date :=
  make (year d) (month d) k.

(** [a <= b] *)
Definition le (a b : date) : Prop := toordinal a ≤ toordinal b.

End PyDate.

(** ** Python text *)

Module PyStr.

Definition code (c : ascii) : Z := Z.of_N (N_of_ascii c).

(** [c.isspace()] on Latin-1, also the class [\s] of [re]. *)
Definition is_space (c : ascii) : bool :=
  let n := code c in
  ((9 <=? n) && (n <=? 13)) || ((28 <=? n) && (n <=? 32))
  || (n =? 133) || (n =? 160).

(** The class [\d] of [re] on Latin-1. *)
Definition is_digit (c : ascii) : bool :=
  let n := code c in (48 <=? n) && (n <=? 57).

Definition digit_value (c : ascii) : Z := code c - 48.

Definition in_range (lo hi : ascii) (c : ascii) : bool :=
  (code lo <=? code c) && (code c <=? code hi).

Definition is_char (x : ascii) (c : ascii) : bool := code c =? code x.

(** [s.lower()] on one ASCII letter. *)
Definition lower (c : ascii) : ascii :=
  let n := code c in
  if (65 <=? n) && (n <=? 90) then ascii_of_N (Z.to_N (n + 32)) else c.

Definition chars (s : string) : list ascii := list_ascii_of_string s.
Definition text (l : list ascii) : string := string_of_list_ascii l.

Fixpoint lstrip (l : list ascii) : list ascii :=
  match l with
  | c :: l' => if is_space c then lstrip l' else l
  | [] => []
  end.

Definition rstrip (l : list ascii) : list ascii := rev (lstrip (rev l)).

(** [s.strip()] *)
Definition strip (s : string) : string := text (rstrip (lstrip (chars s))).

(** [c in s] for a single character [c]. *)
Definition contains (c : ascii) (s : string) : bool :=
  existsb (is_char c) (chars s).

(** The value of a run of decimal digits. *)
Definition decimal (ds : list ascii) : Z :=
  fold_left (fun acc c => 10 * acc + digit_value c) ds 0.

(** Truth value of [request.form.get(...)]: [None] and [""] are false. *)
Definition truthy (v : option string) : bool :=
  match v with
  | Some (String _ _) => true
  | _ => false
  end.

(** The string behind a value known to be truthy. *)
Definition str_of (v : option string) : string := default EmptyString v.

(** Digits with single underscores between them, as [int] and [float]
    read them: the digits, or [None] when the run is malformed. *)
Fixpoint digit_run (l : list ascii) (after_digit : bool) : option (list ascii) :=
  match l with
  | [] => if after_digit then Some [] else None
  | c :: l' =>
      if is_digit c then cons c <$> digit_run l' true
      else if is_char "_" c && after_digit then
        match l' with
        | d :: _ => if is_digit d then digit_run l' false else None
        | [] => None
        end
      else None
  end.

(** [int(s)] in base 10. *)
Definition py_int (s : string) : result Z :=
  let body := rstrip (lstrip (chars s)) in
  let '(neg, body) :=
    match body with
    | c :: rest =>
        if is_char "-" c then (true, rest)
        else if is_char "+" c then (false, rest)
        else (false, body)
    | [] => (false, body)
    end in
  match digit_run body false with
  | Some ds => Ok (if neg then - decimal ds else decimal ds)
  | None => Raise ValueError
  end.

End PyStr.

(** ** [_strptime]: the regular expression of a format and its match *)

Module Strptime.
Import PyStr.

(** A format compiles to a sequence of items: a literal character
    (matched ignoring case), [\s+] for white space in the format, and a
    named group of ordered alternatives, each a sequence of character
    classes. *)
Inductive item : Type :=
  | Lit (c : ascii)
  | Spaces
  | Group (name : ascii) (alts : list (list (ascii → bool))).

Definition captures : Type := list (ascii * list ascii).

Fixpoint match_classes (cs : list (ascii → bool)) (s : list ascii)
  : option (list ascii * list ascii) :=
  match cs with
  | [] => Some ([], s)
  | p :: cs' =>
      match s with
      | c :: s' =>
          if p c then
            '(m, rest) ← match_classes cs' s'; Some (c :: m, rest)
          else None
      | [] => None
      end
  end.

(** The alternatives are tried in order; a later one is tried when the
    rest of the expression fails after an earlier one. *)
Fixpoint first_alt {R} (alts : list (list (ascii → bool))) (s : list ascii)
  (k : list ascii → list ascii → option R) : option R :=
  match alts with
  | [] => None
  | a :: alts' =>
      match match_classes a s with
      | Some (m, rest) =>
          match k m rest with
          | Some r => Some r
          | None => first_alt alts' s k
          end
      | None => first_alt alts' s k
      end
  end.

(** Greedy repetition, giving characters back when the rest fails. *)
Fixpoint many {R} (p : ascii → bool) (s : list ascii)
  (k : list ascii → option R) : option R :=
  match s with
  | c :: s' =>
      if p c then
        match many p s' k with
        | Some r => Some r
        | None => k s
        end
      else k s
  | [] => k []
  end.

Definition many1 {R} (p : ascii → bool) (s : list ascii)
  (k : list ascii → option R) : option R :=
  match s with
  | c :: s' => if p c then many p s' k else None
  | [] => None
  end.

(** [re.match]: the groups and the unmatched rest of the first match. *)
Fixpoint run (r : list item) : list ascii → option (captures * list ascii) :=
  match r with
  | [] => fun s => Some ([], s)
  | Lit x :: r' => fun s =>
      match s with
      | c :: s' => if is_char (lower x) (lower c) then run r' s' else None
      | [] => None
      end
  | Spaces :: r' => fun s => many1 is_space s (run r')
  | Group n alts :: r' => fun s =>
      first_alt alts s (fun m rest =>
        '(caps, e) ← run r' rest; Some ((n, m) :: caps, e))
  end.

Definition d09 : ascii → bool := is_digit.

(** [%Y]: [\d\d\d\d] *)
Definition re_Y : item := Group "Y" [[d09; d09; d09; d09]].
(** [%m]: [1[0-2]|0[1-9]|[1-9]] *)
Definition re_m : item :=
  Group "m" [[is_char "1"; in_range "0" "2"]; [is_char "0"; in_range "1" "9"];
             [in_range "1" "9"]].
(** [%d]: [3[0-1]|[1-2]\d|0[1-9]|[1-9]| [1-9]] *)
Definition re_d : item :=
  Group "d" [[is_char "3"; in_range "0" "1"]; [in_range "1" "2"; d09];
             [is_char "0"; in_range "1" "9"]; [in_range "1" "9"];
             [is_char " "; in_range "1" "9"]].
(** [%H]: [2[0-3]|[0-1]\d|\d] *)
Definition re_H : item :=
  Group "H" [[is_char "2"; in_range "0" "3"]; [in_range "0" "1"; d09]; [d09]].
(** [%M]: [[0-5]\d|\d] *)
Definition re_M : item := Group "M" [[in_range "0" "5"; d09]; [d09]].

(** ["%Y-%m-%d"] *)
Definition fmt_date : list item := [re_Y; Lit "-"; re_m; Lit "-"; re_d].
(** ["%Y-%m-%dT%H:%M"] *)
Definition fmt_datetime_T : list item :=
  fmt_date ++ [Lit "T"; re_H; Lit ":"; re_M].
(** ["%Y-%m-%d %H:%M"] *)
Definition fmt_datetime_sp : list item :=
  fmt_date ++ [Spaces; re_H; Lit ":"; re_M].

(** The match must cover the whole string ("unconverted data remains"
    otherwise). *)
Definition match_format (fmt : list item) (data : string) : result captures :=
  match run fmt (chars data) with
  | Some (caps, []) => Ok caps
  | _ => Raise ValueError
  end.

Fixpoint group (caps : captures) (n : ascii) : option (list ascii) :=
  match caps with
  | (k, m) :: caps' => if is_char n k then Some m else group caps' n
  | [] => None
  end.

(** [int(found_dict[n])]; a group that did not take part reads as 0. *)
Definition field (caps : captures) (n : ascii) : Z :=
  match group caps n with
  | Some m => decimal (lstrip m)
  | None => 0
  end.

End Strptime.

(** ** [datetime.datetime] at minute resolution *)

Record datetime : Set := DateTime { on : date; hour : Z; minute : Z }.

Module PyDateTime.

(** Minutes since the start of day 0; orders datetimes as Python does. *)
Definition minutes (t : datetime) : Z :=
  PyDate.toordinal (on t) * 1440 + hour t * 60 + minute t.

(** [a < b] *)
Definition ltb (a b : datetime) : bool := minutes a <? minutes b.

(** [t + timedelta(days=k)] *)
Definition add_days (t : datetime) (k : Z) : result datetime :=
  d ← PyDate.add_days (on t) k; Ok (DateTime d (hour t) (minute t)).

(** [(a - b).total_seconds()] *)
Definition seconds_between (a b : datetime) : Z := (minutes a - minutes b) * 60.

End PyDateTime.

(** ** Formatting *)

Module Fmt.

Definition digit (n : Z) : ascii := ascii_of_N (Z.to_N (48 + n mod 10)).

(** [%02d] and [%04d] of a number that fits the width. *)
Definition pad2 (n : Z) : string :=
  String (digit (n / 10)) (String (digit n) EmptyString).
Definition pad4 (n : Z) : string :=
  String (digit (n / 1000)) (String (digit (n / 100)) (pad2 n)).

(** [%Y-%m-%d] *)
Definition ymd (d : date) : string :=
  pad4 (year d) +:+ "-" +:+ pad2 (month d) +:+ "-" +:+ pad2 (day d).

(** [t.isoformat(sep=" ")] of a datetime with zero seconds. *)
Definition iso_datetime (t : datetime) : string :=
  ymd (on t) +:+ " " +:+ pad2 (hour t) +:+ ":" +:+ pad2 (minute t) +:+ ":00".

End Fmt.

(** ** Helpers of [app.py] *)

(** [parse_date]: [datetime.strptime(s, "%Y-%m-%d").date()] *)
Definition parse_date (s : string) : result date :=
  caps ← Strptime.match_format Strptime.fmt_date s;
  PyDate.make (Strptime.field caps "Y") (Strptime.field caps "m")
              (Strptime.field caps "d").

(** [start_end_from_range], with [date.today()] as the argument [today].
    The two components of the result are dates, or [None] for no bound. *)
Definition start_end_from_range (today : date) (range_key : string)
    (start_str end_str : option string) : result (option date * option date) :=
  if String.eqb range_key "today" then Ok (Some today, Some today)
  else if String.eqb range_key "week" then
    start ← PyDate.sub_days today (PyDate.weekday today);
    end_ ← PyDate.add_days start 6;
    Ok (Some start, Some end_)
  else if String.eqb range_key "month" then
    start ← PyDate.replace_day today 1;
    next_start ← (if month start =? 12
                  then PyDate.make (year start + 1) 1 1
                  else PyDate.make (year start) (month start + 1) 1);
    end_ ← PyDate.sub_days next_start 1;
    Ok (Some start, Some end_)
  else if String.eqb range_key "custom"
          && PyStr.truthy start_str && PyStr.truthy end_str then
    s ← parse_date (PyStr.str_of start_str);
    e ← parse_date (PyStr.str_of end_str);
    Ok (Some s, Some e)
  else Ok (None, None).

(** [to_dt]: ['YYYY-MM-DDTHH:MM'] or ['YYYY-MM-DD HH:MM'] *)
Definition to_dt (dt_str : string) : result datetime :=
  let dt_str := PyStr.strip dt_str in
  caps ← (if PyStr.contains "T" dt_str
          then Strptime.match_format Strptime.fmt_datetime_T dt_str
          else Strptime.match_format Strptime.fmt_datetime_sp dt_str);
  d ← PyDate.make (Strptime.field caps "Y") (Strptime.field caps "m")
                  (Strptime.field caps "d");
  Ok (DateTime d (Strptime.field caps "H") (Strptime.field caps "M")).

(** [fmt_day]: [d.strftime("%Y-%m-%d")], the year written with four
    digits (what the C library gives from year 1000 on). *)
Definition fmt_day (d : date) : string := Fmt.ymd d.

(** ** The date-range resolver *)

Module RangeSpec.
Import Calendar PyDate.

(** The "week" range as the specification words it: a pair of dates,
    the first a Monday, [today] between them, six days apart. *)
Definition week_range (today : date) (r : result (option date * option date))
  : Prop :=
  ∃ s e, r = Ok (Some s, Some e)
         ∧ valid s ∧ valid e
         ∧ weekday s = 0
         ∧ le s today ∧ le today e
         ∧ toordinal e - toordinal s = 6.

(** The "month" range as the specification words it: the first and the
    last day of the month of [today], and so exactly the dates of that
    month between them. *)
Definition month_range (today : date) (r : result (option date * option date))
  : Prop :=
  ∃ s e, r = Ok (Some s, Some e)
         ∧ s = Date (year today) (month today) 1
         ∧ e = Date (year today) (month today)
                    (days_in_month (year today) (month today))
         ∧ ∀ d, valid d →
             (le s d ∧ le d e ↔ year d = year today ∧ month d = month today).

(** The unbounded sentinel [(None, None)]. *)
Definition unbounded : result (option date * option date) := Ok (None, None).

(** A custom bound that is missing or empty. *)
Definition missing_or_empty (v : option string) : Prop :=
  v = None ∨ v = Some EmptyString.

(** A valid ISO date string: [YYYY-MM-DD] of a calendar date. *)
Definition iso_date_string (s : string) : Prop :=
  ∃ d, valid d ∧ s = Fmt.ymd d.

(** A custom bound that is given and is a valid ISO date string. *)
Definition iso_bound (v : option string) : Prop :=
  ∃ s, v = Some s ∧ iso_date_string s.

(** The strings [strptime] reads as a date with ["%Y-%m-%d"]: a
    four-digit year, then month and day with or without a leading zero
    (the day also with a leading blank), of a calendar date. *)
Definition month_texts (m : Z) : list string :=
  if m <? 10 then [String (Fmt.digit m) EmptyString; Fmt.pad2 m]
  else [Fmt.pad2 m].

Definition day_texts (d : Z) : list string :=
  if d <? 10
  then [String (Fmt.digit d) EmptyString; Fmt.pad2 d;
        String " " (String (Fmt.digit d) EmptyString)]
  else [Fmt.pad2 d].

Definition strptime_date_string (s : string) : Prop :=
  ∃ d ms ds, valid d ∧ ms ∈ month_texts (month d) ∧ ds ∈ day_texts (day d)
             ∧ s = Fmt.pad4 (year d) +:+ "-" +:+ ms +:+ "-" +:+ ds.

End RangeSpec.

(** ** Numbers: [float] as exact rationals *)

Module PyNum.
Import PyStr.

Local Open Scope Qc_scope.

Definition of_Z (n : Z) : Qc := Q2Qc (inject_Z n).

(** [n / d] rounded to the nearest integer, ties to the even one. *)
Definition round_half_even (n d : Z) : Z :=
  let q := (n / d)%Z in
  let r := (n mod d)%Z in
  if (2 * r <? d)%Z then q
  else if (d <? 2 * r)%Z then (q + 1)%Z
  else if Z.even q then q else (q + 1)%Z.

(** The nearest multiple of 1/100, as a count of hundredths. *)
Definition hundredths (x : Qc) : Z :=
  round_half_even (Qnum x * 100) (Z.pos (Qden x)).

(** [round(x, 2)] *)
Definition round2 (x : Qc) : Qc := Q2Qc (hundredths x # 100).

(** [x / y] on floats: division by zero raises. *)
Definition div (x y : Qc) : result Qc :=
  if decide (y = 0) then Raise ZeroDivisionError else Ok (x / y).

(** [x ** 2] *)
Definition square (x : Qc) : Qc := x * x.

Definition leb (x y : Qc) : bool := bool_decide (x ≤ y).
Definition ltb (x y : Qc) : bool := bool_decide (x < y).

Fixpoint split_at (p : ascii → bool) (l : list ascii)
  : list ascii * option (list ascii) :=
  match l with
  | [] => ([], None)
  | c :: l' =>
      if p c then ([], Some l')
      else let '(a, b) := split_at p l' in (c :: a, b)
  end.

Definition signed (l : list ascii) : bool * list ascii :=
  match l with
  | c :: rest =>
      if is_char "-" c then (true, rest)
      else if is_char "+" c then (false, rest)
      else (false, l)
  | [] => (false, l)
  end.

(** A run of digits that may be absent. *)
Definition digits_opt (l : list ascii) : option (list ascii) :=
  match l with
  | [] => Some []
  | _ => digit_run l false
  end.

(** [float(s)] on a decimal numeral.  The spellings of infinity and
    NaN have no rational value and are left out of the embedding: they
    read as an error here. *)
Definition py_float (s : string) : result Qc :=
  let '(neg, body) := signed (rstrip (lstrip (chars s))) in
  let '(mant, expo) := split_at (fun c => is_char "e" (lower c)) body in
  let '(ip, fp) := split_at (is_char ".") mant in
  let parts :=
    i ← digits_opt ip;
    f ← digits_opt (default [] fp);
    e ← match expo with
        | None => Some 0%Z
        | Some ex =>
            let '(eneg, eds) := signed ex in
            ds ← digit_run eds false;
            Some (if eneg then (- decimal ds)%Z else decimal ds)
        end;
    match i, f with
    | [], [] => None
    | _, _ => Some (decimal (i ++ f), (e - Z.of_nat (length f))%Z)
    end in
  match parts with
  | Some (m, e) =>
      let m := if neg then (- m)%Z else m in
      Ok (if (0 <=? e)%Z then of_Z (m * 10 ^ e)
          else Q2Qc (m # Z.to_pos (10 ^ (- e))))
  | None => Raise ValueError
  end.

End PyNum.

(** ** The record store *)

Module MealLog.
Record t : Type := Row {
  id : Z; user_id : Z; date : string; meal_type : string; food : string;
  calories : Z; created_at : string }.
End MealLog.

Module FitnessLog.
Record t : Type := Row {
  id : Z; user_id : Z; date : string; activity_type : string;
  duration_min : Z; calories_burned : Z; created_at : string }.
End FitnessLog.

Module SleepLog.
Record t : Type := Row {
  id : Z; user_id : Z; sleep_start : string; sleep_end : string;
  duration_hours : Qc; created_at : string }.
End SleepLog.

Module WeightLog.
Record t : Type := Row {
  id : Z; user_id : Z; date : string; weight_kg : Qc; height_cm : Qc;
  bmi : Qc; created_at : string }.
End WeightLog.

Module Goal.
Record t : Type := Row {
  id : Z; user_id : Z; target_weight_kg : option Qc;
  daily_calorie_intake_target : option Z;
  daily_exercise_minutes_target : option Z; updated_at : string }.
End Goal.

(** A table with an AUTOINCREMENT key: its rows in insertion order and
    the largest key given out so far. *)
Record table (A : Type) : Type := Table { rows : list A; seq : Z }.
Arguments Table {A} rows seq.
Arguments rows {A} t.
Arguments seq {A} t.

(** [INSERT INTO t(...) VALUES (...)]: the row gets the next key. *)
Definition insert {A} (mk : Z → A) (t : table A) : table A :=
  let rowid := seq t + 1 in
  Table (rows t ++ [mk rowid]) rowid.

Record store : Type := Store {
  meal_logs : table MealLog.t;
  fitness_logs : table FitnessLog.t;
  sleep_logs : table SleepLog.t;
  weight_logs : table WeightLog.t;
  goals : table Goal.t }.

Definition with_meal_logs (st : store) (t : table MealLog.t) : store :=
  Store t (fitness_logs st) (sleep_logs st) (weight_logs st) (goals st).
Definition with_fitness_logs (st : store) (t : table FitnessLog.t) : store :=
  Store (meal_logs st) t (sleep_logs st) (weight_logs st) (goals st).
Definition with_sleep_logs (st : store) (t : table SleepLog.t) : store :=
  Store (meal_logs st) (fitness_logs st) t (weight_logs st) (goals st).
Definition with_weight_logs (st : store) (t : table WeightLog.t) : store :=
  Store (meal_logs st) (fitness_logs st) (sleep_logs st) t (goals st).
Definition with_goals (st : store) (t : table Goal.t) : store :=
  Store (meal_logs st) (fitness_logs st) (sleep_logs st) (weight_logs st) t.

(** ** Requests and responses *)

Inductive request : Type :=
  | GET
  | POST (form : gmap string string).

Inductive page : Type :=
  | MealPage (listing : list MealLog.t)
  | FitnessPage (listing : list FitnessLog.t)
  | SleepPage (listing : list SleepLog.t)
  | WeightPage (listing : list WeightLog.t).

Inductive reply : Type :=
  | Redirect (endpoint : string)
  | Render (p : page).

(** What a handler hands back: the messages it flashed, as
    [(message, category)], and its reply. *)
Record response : Type := Response {
  flashes : list (string * string);
  answer : reply }.

(** [flash(msg, cat); return redirect(url_for(endpoint))] *)
Definition flash_redirect (msg cat endpoint : string) : response :=
  Response [(msg, cat)] (Redirect endpoint).

Module Form.
Import PyStr.

(** [request.form.get(k) or d] *)
Definition get_or (form : gmap string string) (k d : string) : string :=
  if truthy (form !! k) then str_of (form !! k) else d.

(** [request.form.get(k, "")] *)
Definition get_str (form : gmap string string) (k : string) : string :=
  default EmptyString (form !! k).

(** [int(request.form.get(k) or 0)] *)
Definition get_int (form : gmap string string) (k : string) : result Z :=
  if truthy (form !! k) then py_int (str_of (form !! k)) else Ok 0.

(** [float(request.form.get(k) or 0)] *)
Definition get_float (form : gmap string string) (k : string) : result Qc :=
  if truthy (form !! k) then PyNum.py_float (str_of (form !! k))
  else Ok (PyNum.of_Z 0).

(** [not s] for a string. *)
Definition blank (s : string) : bool :=
  match s with
  | EmptyString => true
  | _ => false
  end.

End Form.

(** ** SQL clauses *)

Module Sql.

(** [ORDER BY k DESC, id DESC] on a text column [k]. *)
Definition newer_first {A} (k : A → string) (id : A → Z) (a b : A) : Prop :=
  String.ltb (k b) (k a) = true
  ∨ (k a = k b ∧ id b ≤ id a).

Global Instance newer_first_dec {A} (k : A → string) (id : A → Z) :
  RelDecision (newer_first k id).
Proof. intros a b. unfold newer_first. apply _. Defined.

Definition order_by_desc {A} (k : A → string) (id : A → Z) (l : list A)
  : list A :=
  merge_sort (newer_first k id) l.

(** [WHERE user_id = ?] *)
Definition of_user {A} (user : A → Z) (uid : Z) (l : list A) : list A :=
  filter (λ r, user r = uid) l.

End Sql.

(** ** The log forms *)

(** [meals]: the "/meals" view for the logged-in user [uid]; [now] is
    [datetime.utcnow().isoformat()]. *)
Definition meals (st : store) (uid : Z) (now : string) (req : request)
  : result (store * response) :=
  match req with
  | POST form =>
      let dt := form !! "date" in
      let meal_type := Form.get_or form "meal_type" "Breakfast" in
      let food := PyStr.strip (Form.get_str form "food") in
      calories ← Form.get_int form "calories";
      if negb (PyStr.truthy dt) || Form.blank food || (calories <=? 0) then
        Ok (st, flash_redirect "Please provide a valid meal entry." "error" "meals")
      else
        let row id :=
          MealLog.Row id uid (PyStr.str_of dt) meal_type food calories now in
        Ok (with_meal_logs st (insert row (meal_logs st)),
            flash_redirect "Meal log added." "success" "meals")
  | GET =>
      Ok (st, Response []
                (Render (MealPage
                   (Sql.order_by_desc MealLog.date MealLog.id
                      (Sql.of_user MealLog.user_id uid (rows (meal_logs st)))))))
  end.

(** [fitness]: the "/fitness" view. *)
Definition fitness (st : store) (uid : Z) (now : string) (req : request)
  : result (store * response) :=
  match req with
  | POST form =>
      let dt := form !! "date" in
      let activity := PyStr.strip (Form.get_str form "activity_type") in
      duration ← Form.get_int form "duration_min";
      burned ← Form.get_int form "calories_burned";
      if negb (PyStr.truthy dt) || Form.blank activity || (duration <=? 0)
         || (burned <? 0) then
        Ok (st, flash_redirect "Please provide a valid fitness entry." "error"
                  "fitness")
      else
        let row id :=
          FitnessLog.Row id uid (PyStr.str_of dt) activity duration burned now in
        Ok (with_fitness_logs st (insert row (fitness_logs st)),
            flash_redirect "Fitness log added." "success" "fitness")
  | GET =>
      Ok (st, Response []
                (Render (FitnessPage
                   (Sql.order_by_desc FitnessLog.date FitnessLog.id
                      (Sql.of_user FitnessLog.user_id uid
                         (rows (fitness_logs st)))))))
  end.

(** The [try] block of [sleep]: both datetimes, the end moved to the
    next day when it is before the start, and the duration in hours. *)
Definition sleep_times (s e : string) : result (datetime * datetime * Qc) :=
  s_dt ← to_dt s;
  e_dt ← to_dt e;
  e_dt ← (if PyDateTime.ltb e_dt s_dt then PyDateTime.add_days e_dt 1
          else Ok e_dt);
  let duration_h :=
    PyNum.round2 (PyNum.of_Z (PyDateTime.seconds_between e_dt s_dt)
                  / PyNum.of_Z 3600)%Qc in
  if PyNum.leb duration_h (PyNum.of_Z 0) then Raise ValueError
  else Ok (s_dt, e_dt, duration_h).

(** [sleep]: the "/sleep" view. *)
Definition sleep (st : store) (uid : Z) (now : string) (req : request)
  : result (store * response) :=
  match req with
  | POST form =>
      let s := form !! "sleep_start" in
      let e := form !! "sleep_end" in
      if negb (PyStr.truthy s) || negb (PyStr.truthy e) then
        Ok (st, flash_redirect "Please provide both sleep start and end."
                  "error" "sleep")
      else
        match sleep_times (PyStr.str_of s) (PyStr.str_of e) with
        | Raise _ =>
            Ok (st, flash_redirect "Invalid datetime format." "error" "sleep")
        | Ok (s_dt, e_dt, duration_h) =>
            let row id :=
              SleepLog.Row id uid (Fmt.iso_datetime s_dt) (Fmt.iso_datetime e_dt)
                duration_h now in
            Ok (with_sleep_logs st (insert row (sleep_logs st)),
                flash_redirect "Sleep log added." "success" "sleep")
        end
  | GET =>
      Ok (st, Response []
                (Render (SleepPage
                   (Sql.order_by_desc SleepLog.sleep_start SleepLog.id
                      (Sql.of_user SleepLog.user_id uid (rows (sleep_logs st)))))))
  end.

(** [round(weight_kg / ((height_cm / 100.0) ** 2), 2)] *)
Definition bmi_of (weight_kg height_cm : Qc) : result Qc :=
  q ← PyNum.div weight_kg (PyNum.square (height_cm / PyNum.of_Z 100)%Qc);
  Ok (PyNum.round2 q).

(** [weight]: the "/weight" view. *)
Definition weight (st : store) (uid : Z) (now : string) (req : request)
  : result (store * response) :=
  match req with
  | POST form =>
      let dt := form !! "date" in
      weight_kg ← Form.get_float form "weight_kg";
      height_cm ← Form.get_float form "height_cm";
      if negb (PyStr.truthy dt) || PyNum.leb weight_kg (PyNum.of_Z 0)
         || PyNum.leb height_cm (PyNum.of_Z 0) then
        Ok (st, flash_redirect "Please provide valid weight/height." "error"
                  "weight")
      else
        bmi ← bmi_of weight_kg height_cm;
        let row id :=
          WeightLog.Row id uid (PyStr.str_of dt) weight_kg height_cm bmi now in
        Ok (with_weight_logs st (insert row (weight_logs st)),
            flash_redirect "Weight log added." "success" "weight")
  | GET =>
      Ok (st, Response []
                (Render (WeightPage
                   (Sql.order_by_desc WeightLog.date WeightLog.id
                      (Sql.of_user WeightLog.user_id uid
                         (rows (weight_logs st)))))))
  end.

(** ** What the log forms are specified to do *)

Module FormSpec.

(** The store with no rows. *)
Definition empty_store : store :=
  Store (Table [] 0) (Table [] 0) (Table [] 0) (Table [] 0) (Table [] 0).

(** The request is rejected: an error message is flashed, the reply
    redirects to the form it came from, and the store is as before. *)
Definition rejected (st : store) (endpoint : string)
    (out : result (store * response)) : Prop :=
  ∃ msg, out = Ok (st, flash_redirect msg "error" endpoint).

(** The row of a log form is written: the store has one more row in
    that table, a success message is flashed, and the reply redirects
    to the form. *)
Definition meal_written (st : store) (r : Z → MealLog.t)
    (out : result (store * response)) : Prop :=
  ∃ msg, out = Ok (with_meal_logs st (insert r (meal_logs st)),
                   flash_redirect msg "success" "meals").

Definition fitness_written (st : store) (r : Z → FitnessLog.t)
    (out : result (store * response)) : Prop :=
  ∃ msg, out = Ok (with_fitness_logs st (insert r (fitness_logs st)),
                   flash_redirect msg "success" "fitness").

Definition sleep_written (st : store) (r : Z → SleepLog.t)
    (out : result (store * response)) : Prop :=
  ∃ msg, out = Ok (with_sleep_logs st (insert r (sleep_logs st)),
                   flash_redirect msg "success" "sleep").

Definition weight_written (st : store) (r : Z → WeightLog.t)
    (out : result (store * response)) : Prop :=
  ∃ msg, out = Ok (with_weight_logs st (insert r (weight_logs st)),
                   flash_redirect msg "success" "weight").

(** A form field that is absent or empty. *)
Definition missing (form : gmap string string) (k : string) : Prop :=
  form !! k = None ∨ form !! k = Some EmptyString.

(** A text field that is absent, empty or white space only. *)
Definition blank_text (form : gmap string string) (k : string) : Prop :=
  PyStr.strip (Form.get_str form k) = EmptyString.

(** The end of a sleep as the form handler takes it: the next day when
    it is before the start. *)
Definition sleep_end_taken (s_dt e_dt : datetime) : result datetime :=
  if PyDateTime.ltb e_dt s_dt then PyDateTime.add_days e_dt 1 else Ok e_dt.

(** [round((e - s) in hours, 2)] *)
Definition hours_between (s_dt e_dt : datetime) : Qc :=
  PyNum.round2 (PyNum.of_Z (PyDateTime.seconds_between e_dt s_dt)
                / PyNum.of_Z 3600)%Qc.

(** The BMI of the specification: weight over the square of the height
    in metres, rounded to 2 decimals. *)
Definition bmi_formula (weight_kg height_cm : Qc) : Qc :=
  PyNum.round2 (weight_kg / ((height_cm / PyNum.of_Z 100)
                             * (height_cm / PyNum.of_Z 100)))%Qc.

(** A decimal literal: [n] hundredths. *)
Definition cents (n : Z) : Qc := Q2Qc (n # 100).

End FormSpec.

(** ** The queries of the dashboard and of the charts *)

(** SQLite's date functions on the calendar. *)
Module SqliteDate.

(** The date [k] days before [d] (['-k day']). *)
Definition days_before (d : date) (k : Z) : date :=
  PyDate.fromordinal (PyDate.toordinal d - k).

(** [%W]: the week of the year, 00 to 53, week 01 starting on the first
    Monday. *)
Definition week_of_year (d : date) : Z :=
  let n_day := PyDate.toordinal d - PyDate.toordinal (Date (year d) 1 1) in
  let wd := PyDate.weekday d in
  (n_day + 7 - wd) / 7.

(** [strftime('%Y-%m-%d', _)], [strftime('%Y-%m', _)] and
    [strftime('%Y-W%W', _)] *)
Definition fmt_ymd (d : date) : string := Fmt.ymd d.
Definition fmt_ym (d : date) : string :=
  Fmt.pad4 (year d) +:+ "-" +:+ Fmt.pad2 (month d).
Definition fmt_yW (d : date) : string :=
  Fmt.pad4 (year d) +:+ "-W" +:+ Fmt.pad2 (week_of_year d).

(** A reading of the time strings the application itself writes:
    [YYYY-MM-DD], alone or followed by [ HH:MM:SS].  SQLite reads more
    shapes than these two; the queries below take the reading as a
    parameter, and this one serves on concrete stores. *)
Definition read_iso (s : string) : option date :=
  let l := PyStr.chars s in
  let day_part := take 10 l in
  let rest := drop 10 l in
  match Strptime.run [Strptime.re_Y; Strptime.Lit "-";
                      Strptime.Group "m" [[Strptime.d09; Strptime.d09]];
                      Strptime.Lit "-";
                      Strptime.Group "d" [[Strptime.d09; Strptime.d09]]]
          day_part with
  | Some (caps, []) =>
      let y := Strptime.field caps "Y" in
      let m := Strptime.field caps "m" in
      let d := Strptime.field caps "d" in
      let time_ok :=
        match rest with
        | [] => true
        | _ =>
            match Strptime.run [Strptime.Lit " "; Strptime.re_H; Strptime.Lit ":";
                                Strptime.re_M; Strptime.Lit ":"; Strptime.re_M]
                    rest with
            | Some (_, []) => (length rest =? 9)%nat
            | _ => false
            end
        end in
      if time_ok && (1 <=? m) && (m <=? 12) && (1 <=? d)
         && (d <=? Calendar.days_in_month y m)
      then Some (Date y m d) else None
  | _ => None
  end.

End SqliteDate.

(** The kinds of advice the dashboard gives, and their fixed texts. *)
Inductive advisory : Type :=
  | CalorieDeficit
  | CalorieSurplus
  | IntakeExceeded
  | ExerciseRemaining (minutes : Z).

Definition advisory_text (a : advisory) : string :=
  match a with
  | CalorieDeficit =>
      "Aim for a daily calorie deficit of 300–500 kcal and do 30–45 minutes of moderate cardio today."
  | CalorieSurplus =>
      "Aim for a small surplus of +200–300 kcal and focus on strength training."
  | IntakeExceeded =>
      "You've exceeded today's intake target; go light for dinner and add some walking."
  | ExerciseRemaining n =>
      "You still need " +:+ pretty n
      +:+ " minutes of exercise today (e.g., brisk walk/jog/cycle)."
  end.

(** The [diffs] dictionary of the dashboard. *)
Record diffs : Type := Diffs {
  diff_weight : option Qc;
  diff_calorie : option Z;
  diff_exercise : option Z }.

(** What the dashboard hands to its template. *)
Record dashboard_view : Type := DashboardView {
  total_in : Z;
  total_out : Z;
  avg_sleep : Qc;
  last_bmi : option Qc;
  view_diffs : diffs;
  view_goals : option Goal.t;
  suggestions : list advisory }.

(** One row as [aggregate_query] sees it: the user, the date column as
    text and the value column as a number. *)
Record cell : Type := Cell { cell_user : Z; cell_date : string; cell_value : Qc }.

Module Agg.

Definition sum_Z (l : list Z) : Z := foldr Z.add 0 l.
Definition sum_Q (l : list Qc) : Qc := foldr Qcplus (Q2Qc 0) l.

(** [ORDER BY g]: NULL first, then text in byte order. *)
Definition key_le (a b : option string) : Prop :=
  match a, b with
  | None, _ => True
  | Some _, None => False
  | Some x, Some y => String.leb x y = true
  end.

Global Instance key_le_dec : RelDecision key_le.
Proof. intros [x|] [y|]; simpl; apply _. Defined.

(** [x BETWEEN lo AND hi] on text; NULL is never between. *)
Definition between (x : option string) (lo hi : string) : bool :=
  match x with
  | Some t => String.leb lo t && String.leb t hi
  | None => false
  end.

(** [x >= lo] on text; NULL is never at least anything. *)
Definition at_least (x : option string) (lo : string) : bool :=
  match x with
  | Some t => String.leb lo t
  | None => false
  end.

(** The table, value column and date column of a call, which the
    source splices into the SQL text, as the cells they select.  These
    are the four selections of the chart API. *)
Definition meal_calories (st : store) : list cell :=
  map (λ r, Cell (MealLog.user_id r) (MealLog.date r)
              (PyNum.of_Z (MealLog.calories r)))
      (rows (meal_logs st)).

Definition fitness_calories (st : store) : list cell :=
  map (λ r, Cell (FitnessLog.user_id r) (FitnessLog.date r)
              (PyNum.of_Z (FitnessLog.calories_burned r)))
      (rows (fitness_logs st)).

Definition fitness_duration (st : store) : list cell :=
  map (λ r, Cell (FitnessLog.user_id r) (FitnessLog.date r)
              (PyNum.of_Z (FitnessLog.duration_min r)))
      (rows (fitness_logs st)).

Definition sleep_hours (st : store) : list cell :=
  map (λ r, Cell (SleepLog.user_id r) (SleepLog.sleep_end r)
              (SleepLog.duration_hours r))
      (rows (sleep_logs st)).

End Agg.

Section Queries.

(** SQLite's reading of a time string as a calendar date; [None] is
    the NULL its date functions give for a string they cannot read. *)
Variable sqlite_date : string → option date.

(** [DATE(x)] *)
Definition sql_DATE (x : string) : option string :=
  SqliteDate.fmt_ymd <$> sqlite_date x.

(** The group key of [aggregate_query]: [strftime(fmt, x)] with the
    format chosen by [group_by]. *)
Definition group_key (group_by : string) (x : string) : option string :=
  if String.eqb group_by "month" then SqliteDate.fmt_ym <$> sqlite_date x
  else if String.eqb group_by "week" then SqliteDate.fmt_yW <$> sqlite_date x
  else SqliteDate.fmt_ymd <$> sqlite_date x.

(** The rows the [WHERE] clause of [aggregate_query] keeps. *)
Definition agg_keeps (uid : Z) (bounds : option date * option date)
    (c : cell) : bool :=
  bool_decide (cell_user c = uid)
  && match bounds with
     | (Some s, Some e) =>
         Agg.between (sql_DATE (cell_date c)) (fmt_day s) (fmt_day e)
     | _ => true
     end.

Definition agg_where (uid : Z) (bounds : option date * option date)
    (l : list cell) : list cell :=
  filter (λ c, agg_keeps uid bounds c = true) l.

(** [aggregate_query]: labels and values, one pair per group, in the
    order of the group key.  [all] stands for the table and the two
    columns: the cells of every row of the table. *)
Definition aggregate_query (all : list cell) (uid : Z)
    (start end_ : option date) (group_by : string)
  : list (option string) * list Qc :=
  let kept := agg_where uid (start, end_) all in
  let key c := group_key group_by (cell_date c) in
  let labels := merge_sort Agg.key_le (remove_dups (map key kept)) in
  let values :=
    map (λ g, Agg.sum_Q (map cell_value (filter (λ c, key c = g) kept)))
        labels in
  (labels, values).

(** [ensure_goals_row] *)
Definition ensure_goals_row (st : store) (uid : Z) (now : string) : store :=
  match list_find (λ g, Goal.user_id g = uid) (rows (goals st)) with
  | Some _ => st
  | None =>
      with_goals st (insert (λ id, Goal.Row id uid None None None now) (goals st))
  end.

(** [... ORDER BY date DESC, id DESC LIMIT 1] on [weight_logs] *)
Definition latest_weight (st : store) (uid : Z) : option WeightLog.t :=
  head (Sql.order_by_desc WeightLog.date WeightLog.id
          (Sql.of_user WeightLog.user_id uid (rows (weight_logs st)))).

(** [dashboard]: the "/" view for the logged-in user [uid].  [today] is
    [date.today()], [utc_today] the date of SQLite's ['now'], [now] is
    [datetime.utcnow().isoformat()]. *)
Definition dashboard (st : store) (uid : Z) (today utc_today : date)
    (now : string) : store * dashboard_view :=
  let start_str := fmt_day today in
  let meals_today :=
    filter (λ r, MealLog.user_id r = uid ∧ MealLog.date r = start_str)
           (rows (meal_logs st)) in
  let total_in := Agg.sum_Z (map MealLog.calories meals_today) in
  let fitness_today :=
    filter (λ r, FitnessLog.user_id r = uid ∧ FitnessLog.date r = start_str)
           (rows (fitness_logs st)) in
  let total_out := Agg.sum_Z (map FitnessLog.calories_burned fitness_today) in
  let total_mins := Agg.sum_Z (map FitnessLog.duration_min fitness_today) in
  let since := SqliteDate.fmt_ymd (SqliteDate.days_before utc_today 6) in
  let recent_sleep :=
    filter (λ r, SleepLog.user_id r = uid
                 ∧ Agg.at_least (sql_DATE (SleepLog.sleep_end r)) since = true)
           (rows (sleep_logs st)) in
  let avg_h :=
    match recent_sleep with
    | [] => PyNum.of_Z 0
    | _ => (Agg.sum_Q (map SleepLog.duration_hours recent_sleep)
            / PyNum.of_Z (Z.of_nat (length recent_sleep)))%Qc
    end in
  let avg_sleep := PyNum.round2 avg_h in
  let last_bmi := WeightLog.bmi <$> latest_weight st uid in
  let st := ensure_goals_row st uid now in
  let goals := list_find (λ g, Goal.user_id g = uid) (rows (goals st)) in
  let goals := snd <$> goals in
  let wrow := latest_weight st uid in
  let d_weight :=
    match goals ≫= Goal.target_weight_kg, wrow with
    | Some target, Some w =>
        Some (PyNum.round2 (WeightLog.weight_kg w - target)%Qc)
    | _, _ => None
    end in
  let sug_w :=
    match d_weight with
    | Some d =>
        if PyNum.ltb (PyNum.of_Z 0) d then [CalorieDeficit]
        else if PyNum.ltb d (PyNum.of_Z 0) then [CalorieSurplus]
        else []
    | None => []
    end in
  let d_calorie :=
    target ← goals ≫= Goal.daily_calorie_intake_target;
    Some (target - total_in) in
  let sug_c :=
    match d_calorie with
    | Some d => if d <? 0 then [IntakeExceeded] else []
    | None => []
    end in
  let d_exercise :=
    target ← goals ≫= Goal.daily_exercise_minutes_target;
    Some (target - total_mins) in
  let sug_e :=
    match d_exercise with
    | Some d => if 0 <? d then [ExerciseRemaining d] else []
    | None => []
    end in
  (st, DashboardView total_in total_out avg_sleep last_bmi
         (Diffs d_weight d_calorie d_exercise) goals
         (sug_w ++ sug_c ++ sug_e)).

End Queries.

(** ** What the aggregation is specified to return *)

Module AggSpec.

(** The row's date lies within the date filter: always, when the
    filter is open; otherwise SQLite reads a date from it and that date
    is between the two bounds. *)
Definition in_filter (sqlite_date : string → option date)
    (start end_ : option date) (c : cell) : Prop :=
  match start, end_ with
  | Some s, Some e =>
      Agg.between (sql_DATE sqlite_date (cell_date c)) (fmt_day s) (fmt_day e)
      = true
  | _, _ => True
  end.

Global Instance in_filter_dec sqlite_date start end_ c :
  Decision (in_filter sqlite_date start end_ c).
Proof. unfold in_filter. destruct start, end_; apply _. Defined.

(** The user's rows that match the filter. *)
Definition matching (sqlite_date : string → option date) (uid : Z)
    (start end_ : option date) (all : list cell) : list cell :=
  filter (λ c, cell_user c = uid ∧ in_filter sqlite_date start end_ c) all.

(** The sum of the value column over the rows of a list. *)
Definition total (l : list cell) : Qc := Agg.sum_Q (map cell_value l).

(** All the user's rows, filter or no filter. *)
Definition of_user (uid : Z) (all : list cell) : list cell :=
  filter (λ c, cell_user c = uid) all.

End AggSpec.

(** ** What the dashboard is specified to show *)

Module DashSpec.

(** Today's summed intake: the calories of the user's meals dated
    today. *)
Definition intake_today (st : store) (uid : Z) (today : date) : Z :=
  Agg.sum_Z (map MealLog.calories
    (filter (λ r, MealLog.user_id r = uid ∧ MealLog.date r = fmt_day today)
            (rows (meal_logs st)))).

(** Today's summed exercise minutes. *)
Definition minutes_today (st : store) (uid : Z) (today : date) : Z :=
  Agg.sum_Z (map FitnessLog.duration_min
    (filter (λ r, FitnessLog.user_id r = uid ∧ FitnessLog.date r = fmt_day today)
            (rows (fitness_logs st)))).

(** The latest recorded weight of a user: one of the user's rows, no
    other row of the user being more recent by date and then by key. *)
Definition is_latest_weight (st : store) (uid : Z) (w : WeightLog.t) : Prop :=
  w ∈ rows (weight_logs st) ∧ WeightLog.user_id w = uid
  ∧ ∀ w', w' ∈ rows (weight_logs st) → WeightLog.user_id w' = uid →
          Sql.newer_first WeightLog.date WeightLog.id w w'.

(** The user's sleep records whose [sleep_end] date falls within the
    7-day window ending today: today and the 6 preceding days. *)
Definition sleep_in_trailing_week (sqlite_date : string → option date)
    (st : store) (uid : Z) (today : date) : list SleepLog.t :=
  filter (λ r, SleepLog.user_id r = uid
               ∧ Agg.between (sql_DATE sqlite_date (SleepLog.sleep_end r))
                   (SqliteDate.fmt_ymd (SqliteDate.days_before today 6))
                   (SqliteDate.fmt_ymd today) = true)
         (rows (sleep_logs st)).

(** Their mean duration rounded to 2 decimals, 0 when there is none. *)
Definition trailing_week_mean (sqlite_date : string → option date)
    (st : store) (uid : Z) (today : date) : Qc :=
  match sleep_in_trailing_week sqlite_date st uid today with
  | [] => PyNum.round2 (PyNum.of_Z 0)
  | l => PyNum.round2 (Agg.sum_Q (map SleepLog.duration_hours l)
                       / PyNum.of_Z (Z.of_nat (length l)))%Qc
  end.

End DashSpec.

(** ** Finite checks

    Tables over the days of a year and over the month and day texts of
    a date, evaluated in the proofs below. *)

Module Checks.
Import Calendar PyStr Strptime RangeSpec.

(** Month and day from the day of the year: a finite check. *)
Definition month_table_ok (leap : bool) : bool :=
  forallb (fun m =>
    let before := at_index DAYS_BEFORE_MONTH m
                  + (if (2 <? m) && leap then 1 else 0) in
    let len := if (m =? 2) && leap then 29 else at_index DAYS_IN_MONTH m in
    forallb (fun d =>
      let '(m', d') := month_day (before + d - 1) leap in
      (m' =? m) && (d' =? d)) (seqZ 1 len)) (seqZ 1 12).

(** Month and day of every day of the year. *)
Definition day_table_ok (leap : bool) : bool :=
  forallb (fun k =>
    let '(m, d) := month_day k leap in
    let before := at_index DAYS_BEFORE_MONTH m
                  + (if (2 <? m) && leap then 1 else 0) in
    let len := if (m =? 2) && leap then 29 else at_index DAYS_IN_MONTH m in
    (1 <=? m) && (m <=? 12) && (1 <=? d) && (d <=? len)
    && (before + d - 1 =? k)) (seqZ 0 (365 + (if leap then 1 else 0))).

(** The month and day part of every accepted string: a finite check. *)
Definition tail_table_ok : bool :=
  forallb (fun m => forallb (fun d =>
    forallb (fun ms => forallb (fun ds =>
      match run [Lit "-"; re_m; Lit "-"; re_d]
                (chars ("-" +:+ ms +:+ "-" +:+ ds)) with
      | Some (caps, []) =>
          (field caps "m" =? m) && (field caps "d" =? d)
          && bool_decide (group caps "Y" = None)
      | _ => false
      end) (day_texts d)) (month_texts m)) (seqZ 1 31)) (seqZ 1 12).

End Checks.

(** ** Stores used as examples *)

Module Samples.
Import FormSpec.

(** Two meals in May, one in June, and another user's meal. *)
Definition may_and_june : store :=
  Store (Table [MealLog.Row 1 1 "2024-05-01" "Lunch" "rice" 100 "2024-05-01T12:00:00";
                MealLog.Row 2 1 "2024-06-01" "Lunch" "rice" 200 "2024-06-01T12:00:00";
                MealLog.Row 3 1 "2024-05-01" "Dinner" "soup" 50 "2024-05-01T19:00:00";
                MealLog.Row 4 2 "2024-05-02" "Dinner" "stew" 999 "2024-05-02T19:00:00"] 4)
        (Table [] 0) (Table [] 0) (Table [] 0) (Table [] 0).

(** A goal of 65 kg, 2000 kcal and 30 minutes for user 1, who weighs
    70.123 kg and has eaten 2300 kcal today; user 2 has goals and no
    weight on record. *)
Definition on_2024_05_15 : store :=
  Store (Table [MealLog.Row 1 1 "2024-05-15" "Lunch" "pasta" 1500 "2024-05-15T12:00:00";
                MealLog.Row 2 1 "2024-05-15" "Dinner" "pizza" 800 "2024-05-15T19:00:00"] 2)
        (Table [FitnessLog.Row 1 1 "2024-05-15" "walk" 10 40 "2024-05-15T07:00:00"] 1)
        (Table [] 0)
        (Table [WeightLog.Row 1 1 "2024-05-14" (Q2Qc (70123 # 1000)) (PyNum.of_Z 175)
                  (cents 2290) "2024-05-14T07:00:00"] 1)
        (Table [Goal.Row 1 1 (Some (PyNum.of_Z 65)) (Some 2000) (Some 30)
                  "2024-05-01T00:00:00";
                Goal.Row 2 2 (Some (PyNum.of_Z 60)) (Some 1800) (Some 20)
                  "2024-05-01T00:00:00"] 2).

(** Two nights posted by user 1 through the sleep form: one ending on
    2024-05-14, and one dated a month ahead. *)
Definition night_of (st : store) (s e : string) : store :=
  match sleep st 1 "2024-05-15T08:00:00"
          (POST {[ "sleep_start" := s; "sleep_end" := e ]}) with
  | Ok (st', _) => st'
  | Raise _ => st
  end.

Definition two_nights : store :=
  night_of (night_of empty_store "2024-05-13T23:00" "2024-05-14T07:00")
           "2024-06-13T23:00" "2024-06-14T01:00".

End Samples.

(** ** Statements that bind a number of the request *)

Module Sqlite.

(** A Python [int] bound to a statement has to fit SQLite's INTEGER, 64
    bits with sign; [sqlite3] raises [OverflowError] otherwise. *)
Definition bind_int (n : Z) : result Z :=
  if (- 2 ^ 63 <=? n) && (n <? 2 ^ 63) then Ok n else Raise OverflowError.

(** A bound value that may be [None] (NULL). *)
Definition bind_opt (v : option Z) : result (option Z) :=
  match v with
  | Some n => n ← bind_int n; Ok (Some n)
  | None => Ok None
  end.

(** [DELETE FROM t WHERE id=? AND user_id=?]: the AUTOINCREMENT counter
    of the table stays as it is. *)
Definition delete_where {A} (id user : A → Z) (rid uid : Z) (t : table A)
  : table A :=
  Table (filter (λ r, ¬ (id r = rid ∧ user r = uid)) (rows t)) (seq t).

End Sqlite.

(** ** Deleting a log row *)

(** [meals_delete]: "/meals/<int:rid>/delete" for the logged-in user
    [uid]. *)
Definition meals_delete (st : store) (uid rid : Z) : result (store * response) :=
  rid ← Sqlite.bind_int rid;
  Ok (with_meal_logs st
        (Sqlite.delete_where MealLog.id MealLog.user_id rid uid (meal_logs st)),
      flash_redirect "Meal log deleted." "success" "meals").

(** [fitness_delete] *)
Definition fitness_delete (st : store) (uid rid : Z) : result (store * response) :=
  rid ← Sqlite.bind_int rid;
  Ok (with_fitness_logs st
        (Sqlite.delete_where FitnessLog.id FitnessLog.user_id rid uid
           (fitness_logs st)),
      flash_redirect "Fitness log deleted." "success" "fitness").

(** [sleep_delete] *)
Definition sleep_delete (st : store) (uid rid : Z) : result (store * response) :=
  rid ← Sqlite.bind_int rid;
  Ok (with_sleep_logs st
        (Sqlite.delete_where SleepLog.id SleepLog.user_id rid uid (sleep_logs st)),
      flash_redirect "Sleep log deleted." "success" "sleep").

(** [weight_delete] *)
Definition weight_delete (st : store) (uid rid : Z) : result (store * response) :=
  rid ← Sqlite.bind_int rid;
  Ok (with_weight_logs st
        (Sqlite.delete_where WeightLog.id WeightLog.user_id rid uid
           (weight_logs st)),
      flash_redirect "Weight log deleted." "success" "weight").

(** ** The goals view *)

(** What a view other than a log form answers with: a flashed redirect
    or a log page as before, a template with its context, the JSON of a
    chart, or [abort(404)]. *)
Inductive html : Type :=
  | AuthHtml
  | DashboardHtml (v : dashboard_view)
  | GoalsHtml (row : option Goal.t)
  | ChartsHtml.

Record chart : Type := Chart {
  chart_labels : list (option string);
  chart_series : list (string * list Qc);
  chart_range : string;
  chart_group_by : string }.

Inductive outcome : Type :=
  | Answered (r : response)
  | Template (h : html)
  | Json (c : chart)
  | NotFound.

(** [conv] of the goals view: [t(v)] unless [v] is [None] or empty, and
    [None] on any exception. *)
Definition conv {A} (t : string → result A) (v : option string) : option A :=
  if PyStr.truthy v then
    match t (PyStr.str_of v) with
    | Ok a => Some a
    | Raise _ => None
    end
  else None.

(** [SELECT * FROM goals WHERE user_id=?], first row. *)
Definition goals_row (st : store) (uid : Z) : option Goal.t :=
  snd <$> list_find (λ g, Goal.user_id g = uid) (rows (goals st)).

(** [UPDATE goals SET ... WHERE user_id=?] *)
Definition update_goals (uid : Z) (w : option Qc) (c m : option Z)
    (now : string) (t : table Goal.t) : table Goal.t :=
  Table (map (λ g, if decide (Goal.user_id g = uid)
                   then Goal.Row (Goal.id g) uid w c m now else g) (rows t))
        (seq t).

(** [goals]: the "/goals" view for the logged-in user [uid]; [created]
    and [now] are the two readings of the clock, in [ensure_goals_row]
    and in the update.  The row made by [ensure_goals_row] is committed
    before the update runs, so the store is returned on failure too. *)
Definition goals_view (st : store) (uid : Z) (created now : string)
    (req : request) : store * result outcome :=
  let st := ensure_goals_row st uid created in
  match req with
  | POST form =>
      let tgt_w := conv PyNum.py_float (form !! "target_weight_kg") in
      let tgt_c := conv PyStr.py_int (form !! "daily_calorie_intake_target") in
      let tgt_m := conv PyStr.py_int (form !! "daily_exercise_minutes_target") in
      match (c ← Sqlite.bind_opt tgt_c; m ← Sqlite.bind_opt tgt_m; Ok (c, m)) with
      | Ok (c, m) =>
          (with_goals st (update_goals uid tgt_w c m now (goals st)),
           Ok (Answered (flash_redirect "Goals updated." "success" "goals")))
      | Raise e => (st, Raise e)
      end
  | GET => (st, Ok (Template (GoalsHtml (goals_row st uid))))
  end.

(** ** Accounts and sessions *)

Module User.
Record t : Type := Row {
  id : Z; username : string; email : string; password_hash : string;
  created_at : string }.
End User.

(** The Flask session, as far as the application reads it: the value
    under ["user_id"], or [None] when the key is absent. *)
Definition session : Type := option Z.

(** [login_required]: the view runs for the user of the session;
    without one the answer is a redirect to "auth". *)
Definition login_required {A} (to_auth : A) (view : Z → A) (s : session) : A :=
  match s with
  | Some uid => view uid
  | None => to_auth
  end.

(** [current_user]: the row of the session's user, if there is one. *)
Definition current_user (users : table User.t) (s : session) : option User.t :=
  uid ← s; snd <$> list_find (λ u, User.id u = uid) (rows users).

(** [index_redirect]: "/index" sends a visitor on. *)
Definition index_redirect (s : session) : response :=
  match s with
  | Some _ => Response [] (Redirect "dashboard")
  | None => Response [] (Redirect "auth")
  end.

(** [logout] *)
Definition logout (s : session) : session * response :=
  (None, flash_redirect "Logged out." "success" "auth").

Section Auth.

(** The two functions of [flask_bcrypt], which may raise: hashing draws
    a salt, an argument here like the readings of the clock. *)
Variable generate_password_hash : string → string → result string.
Variable check_password_hash : string → string → result bool.

(** The [INSERT] of a registration fails with [IntegrityError] when the
    username or the email is taken (both columns are UNIQUE). *)
Definition taken (users : table User.t) (username email : string) : bool :=
  existsb (λ u, String.eqb (User.username u) username
                || String.eqb (User.email u) email) (rows users).

(** The branch [action == "register"] of [auth]. *)
Definition register (users : table User.t) (salt now : string)
    (form : gmap string string) : result (table User.t * response) :=
  let username := PyStr.strip (Form.get_str form "username") in
  let email := PyStr.strip (Form.get_str form "email") in
  let password := PyStr.strip (Form.get_str form "password") in
  if Form.blank username || Form.blank email || Form.blank password then
    Ok (users, flash_redirect "All fields are required for registration."
                 "error" "auth")
  else if (String.length password <? 8)%nat then
    Ok (users, flash_redirect "Password must be at least 8 characters."
                 "error" "auth")
  else
    pw_hash ← generate_password_hash salt password;
    if taken users username email then
      Ok (users, flash_redirect "Username or email already exists." "error"
                   "auth")
    else
      Ok (insert (λ id, User.Row id username email pw_hash now) users,
          flash_redirect "Registration successful. Please log in." "success"
            "auth").

(** The branch [action == "login"] of [auth]. *)
Definition login (users : table User.t) (s : session)
    (form : gmap string string) : result (session * response) :=
  let email := PyStr.strip (Form.get_str form "email") in
  let password := PyStr.strip (Form.get_str form "password") in
  match list_find (λ u, User.email u = email) (rows users) with
  | Some (_, user) =>
      ok ← check_password_hash (User.password_hash user) password;
      if ok : bool then
        Ok (Some (User.id user),
            flash_redirect "Welcome back!" "success" "dashboard")
      else Ok (s, flash_redirect "Invalid email or password." "error" "auth")
  | None => Ok (s, flash_redirect "Invalid email or password." "error" "auth")
  end.

(** [auth]: the "/auth" view. *)
Definition auth (users : table User.t) (s : session) (salt now : string)
    (req : request) : result (table User.t * session * outcome) :=
  let visit :=
    match s with
    | Some _ => Answered (Response [] (Redirect "dashboard"))
    | None => Template AuthHtml
    end in
  match req with
  | POST form =>
      let action := form !! "action" in
      if bool_decide (action = Some "register") then
        '(users, r) ← register users salt now form;
        Ok (users, s, Answered r)
      else if bool_decide (action = Some "login") then
        '(s, r) ← login users s form;
        Ok (users, s, Answered r)
      else Ok (users, s, visit)
  | GET => Ok (users, s, visit)
  end.

End Auth.

(** ** The chart API *)

Section Charts.

Variable sqlite_date : string → option date.

(** [AVG] over the rows of a group, which is never empty. *)
Definition sql_AVG (l : list Qc) : Qc :=
  (Agg.sum_Q l / PyNum.of_Z (Z.of_nat (length l)))%Qc.

(** [x or 0] on a number. *)
Definition or_zero (x : Qc) : Qc :=
  if decide (x = PyNum.of_Z 0) then PyNum.of_Z 0 else x.

(** The query of the "weight" chart: the group key with the averages
    of [weight_kg] and of [bmi], in the order of the key. *)
Definition weight_query (st : store) (uid : Z) (start end_ : option date)
    (group_by : string) : list (option string * Qc * Qc) :=
  let kept :=
    filter (λ r, agg_keeps sqlite_date uid (start, end_)
                   (Cell (WeightLog.user_id r) (WeightLog.date r)
                         (WeightLog.weight_kg r)) = true)
           (rows (weight_logs st)) in
  let key r := group_key sqlite_date group_by (WeightLog.date r) in
  let groups := merge_sort Agg.key_le (remove_dups (map key kept)) in
  map (λ g, let members := filter (λ r, key r = g) kept in
            (g, sql_AVG (map WeightLog.weight_kg members),
                sql_AVG (map WeightLog.bmi members)))
      groups.

(** [api_charts]: "/api/charts/<kind>" for the logged-in user [uid],
    with the query string [args]; [today] is [date.today()]. *)
Definition api_charts (st : store) (uid : Z) (today : date) (kind : string)
    (args : gmap string string) : result outcome :=
  let range_key := default "all" (args !! "range") in
  let group_by := default "day" (args !! "group_by") in
  let start_str := args !! "start" in
  let end_str := args !! "end" in
  '(start, end_) ← start_end_from_range today range_key start_str end_str;
  if String.eqb kind "weight" then
    let rows := weight_query st uid start end_ group_by in
    Ok (Json (Chart (map (λ r, r.1.1) rows)
                [("Weight (kg)", map (λ r, PyNum.round2 (or_zero r.1.2)) rows);
                 ("BMI", map (λ r, PyNum.round2 (or_zero r.2)) rows)]
                range_key group_by))
  else if String.eqb kind "meals" then
    let '(labels, values) :=
      aggregate_query sqlite_date (Agg.meal_calories st) uid start end_
        group_by in
    Ok (Json (Chart labels [("Calories In", values)] range_key group_by))
  else if String.eqb kind "fitness" then
    let metric := default "calories" (args !! "metric") in
    let '(labels, values) :=
      aggregate_query sqlite_date
        (if String.eqb metric "calories" then Agg.fitness_calories st
         else Agg.fitness_duration st)
        uid start end_ group_by in
    Ok (Json (Chart labels
                [(if String.eqb metric "calories" then "Calories Burned"
                  else "Duration (min)", values)]
                range_key group_by))
  else if String.eqb kind "sleep" then
    let '(labels, values) :=
      aggregate_query sqlite_date (Agg.sleep_hours st) uid start end_ group_by in
    Ok (Json (Chart labels [("Sleep (h)", map PyNum.round2 values)]
                range_key group_by))
  else Ok NotFound.

End Charts.

(** ** The application: requests against the database and the sessions

    The database and the sessions of the browsers form the state; a
    request that reaches its view (routed, and past the CSRF check for
    a POST) is one step.  An exception that leaves a view is answered
    with status 500 by Flask and nothing of that view is committed. *)

Record world : Type := World {
  accounts : table User.t;
  records : store;
  cookies : gmap nat Z }.

(** What a step reads besides the state: the clock ([date.today()],
    the date of SQLite's ['now'], two readings of [datetime.utcnow()])
    and the salt drawn by bcrypt. *)
Record env : Type := Env {
  env_today : date;
  env_utc_today : date;
  env_now : string;
  env_later : string;
  env_salt : string }.

(** The routes of the application. *)
Inductive call : Type :=
  | CallAuth (req : request)
  | CallLogout
  | CallDashboard
  | CallGoals (req : request)
  | CallMeals (req : request)
  | CallMealsDelete (rid : Z)
  | CallFitness (req : request)
  | CallFitnessDelete (rid : Z)
  | CallSleep (req : request)
  | CallSleepDelete (rid : Z)
  | CallWeight (req : request)
  | CallWeightDelete (rid : Z)
  | CallCharts
  | CallApiCharts (kind : string) (args : gmap string string)
  | CallIndex.

(** An exception that leaves a view: one of [exn], or the [TypeError]
    of subscripting [None]. *)
Inductive uncaught : Type :=
  | Exn (e : exn)
  | TypeError.

Inductive http : Type :=
  | Served (o : outcome)
  | Failed (e : uncaught).

(** The database right after [init_db] on a new file, and no session. *)
Definition fresh : world :=
  World (Table [] 0) FormSpec.empty_store ∅.

(** The session a browser holds after a response. *)
Definition set_session (b : nat) (s : session) (c : gmap nat Z) : gmap nat Z :=
  match s with
  | Some uid => <[b := uid]> c
  | None => delete b c
  end.

Section Application.

Variable sqlite_date : string → option date.
Variable generate_password_hash : string → string → result string.
Variable check_password_hash : string → string → result bool.

(** The request [q] of browser [b]. *)
Definition handle (e : env) (w : world) (b : nat) (q : call) : world * http :=
  let s : session := cookies w !! b in
  let to_auth := (w, Served (Answered (Response [] (Redirect "auth")))) in
  let log_view (r : result (store * response)) :=
    match r with
    | Ok (st, a) => (World (accounts w) st (cookies w), Served (Answered a))
    | Raise x => (w, Failed (Exn x))
    end in
  match q with
  | CallAuth req =>
      match auth generate_password_hash check_password_hash (accounts w) s
              (env_salt e) (env_now e) req with
      | Ok (users, s', o) =>
          (World users (records w) (set_session b s' (cookies w)), Served o)
      | Raise x => (w, Failed (Exn x))
      end
  | CallLogout =>
      let '(s', r) := logout s in
      (World (accounts w) (records w) (set_session b s' (cookies w)),
       Served (Answered r))
  | CallDashboard =>
      login_required to_auth (λ _,
        match current_user (accounts w) s with
        | Some user =>
            let '(st, v) :=
              dashboard sqlite_date (records w) (User.id user) (env_today e)
                (env_utc_today e) (env_now e) in
            (World (accounts w) st (cookies w), Served (Template (DashboardHtml v)))
        | None => (w, Failed TypeError)
        end) s
  | CallGoals req =>
      login_required to_auth (λ _,
        match current_user (accounts w) s with
        | Some user =>
            let '(st, r) :=
              goals_view (records w) (User.id user) (env_now e) (env_later e)
                req in
            (World (accounts w) st (cookies w),
             match r with
             | Ok o => Served o
             | Raise x => Failed (Exn x)
             end)
        | None => (w, Failed TypeError)
        end) s
  | CallMeals req =>
      login_required to_auth
        (λ uid, log_view (meals (records w) uid (env_now e) req)) s
  | CallMealsDelete rid =>
      login_required to_auth
        (λ uid, log_view (meals_delete (records w) uid rid)) s
  | CallFitness req =>
      login_required to_auth
        (λ uid, log_view (fitness (records w) uid (env_now e) req)) s
  | CallFitnessDelete rid =>
      login_required to_auth
        (λ uid, log_view (fitness_delete (records w) uid rid)) s
  | CallSleep req =>
      login_required to_auth
        (λ uid, log_view (sleep (records w) uid (env_now e) req)) s
  | CallSleepDelete rid =>
      login_required to_auth
        (λ uid, log_view (sleep_delete (records w) uid rid)) s
  | CallWeight req =>
      login_required to_auth
        (λ uid, log_view (weight (records w) uid (env_now e) req)) s
  | CallWeightDelete rid =>
      login_required to_auth
        (λ uid, log_view (weight_delete (records w) uid rid)) s
  | CallCharts =>
      login_required to_auth (λ _, (w, Served (Template ChartsHtml))) s
  | CallApiCharts kind args =>
      login_required to_auth (λ uid,
        match api_charts sqlite_date (records w) uid (env_today e) kind args with
        | Ok o => (w, Served o)
        | Raise x => (w, Failed (Exn x))
        end) s
  | CallIndex => (w, Served (Answered (index_redirect s)))
  end.

(** The states the application gets to from a new database. *)
Inductive reachable : world → Prop :=
  | reachable_fresh : reachable fresh
  | reachable_step (e : env) (w : world) (b : nat) (q : call) :
      reachable w → reachable (handle e w b q).1.

End Application.

(** ** Finite checks on formatted numbers *)

Module TextChecks.

(** Two-digit texts compare as their numbers. *)
Definition pad2_table_ok : bool :=
  forallb (λ a, forallb (λ b,
    bool_decide (String.compare (Fmt.pad2 a) (Fmt.pad2 b) = (a ?= b)))
    (seqZ 0 100)) (seqZ 0 100).

End TextChecks.

(** ** Finite checks on the fields of a time *)

Module FieldChecks.
Import PyStr Strptime.

(** The first alternative that matches the text matches all of it. *)
Fixpoint first_full (alts : list (list (ascii → bool))) (p : list ascii) : bool :=
  match alts with
  | [] => false
  | a :: alts' =>
      match match_classes a p with
      | Some (_, []) => true
      | Some (_, _ :: _) => false
      | None => (length a <=? length p)%nat && first_full alts' p
      end
  end.

(** Every number from [lo] to [hi], written with two digits, is matched
    whole by the group and read back. *)
Definition padded_ok (alts : list (list (ascii → bool))) (lo hi : Z) : bool :=
  forallb (λ v, first_full alts (chars (Fmt.pad2 v))
                && (decimal (lstrip (chars (Fmt.pad2 v))) =? v))
          (seqZ lo (hi - lo + 1)).

End FieldChecks.

(** ** The times the sleep form is written for *)

Module SleepSpec.

(** A date with an hour and a minute of the day. *)
Definition valid_datetime (t : datetime) : Prop :=
  PyDate.valid (on t) ∧ 0 ≤ hour t < 24 ∧ 0 ≤ minute t < 60.

(** [YYYY-MM-DD], the separator, [HH:MM]. *)
Definition local_text (sep : string) (t : datetime) : string :=
  Fmt.ymd (on t) +:+ sep +:+ Fmt.pad2 (hour t) +:+ ":" +:+ Fmt.pad2 (minute t).

End SleepSpec.

(** ** What the database is specified to hold *)

Module StoreSpec.

(** The AUTOINCREMENT keys of a table: pairwise distinct, positive, and
    none above the counter. *)
Definition keys_ok {A} (id : A → Z) (t : table A) : Prop :=
  NoDup (map id (rows t)) ∧ Forall (λ r, 1 ≤ id r ≤ seq t) (rows t) ∧ 0 ≤ seq t.

(** The rows the log forms let through. *)
Definition meal_ok (r : MealLog.t) : Prop :=
  0 < MealLog.calories r ∧ MealLog.date r ≠ EmptyString
  ∧ MealLog.meal_type r ≠ EmptyString ∧ MealLog.food r ≠ EmptyString.

Definition fitness_ok (r : FitnessLog.t) : Prop :=
  0 < FitnessLog.duration_min r ∧ 0 ≤ FitnessLog.calories_burned r
  ∧ FitnessLog.date r ≠ EmptyString ∧ FitnessLog.activity_type r ≠ EmptyString.

Definition sleep_ok (r : SleepLog.t) : Prop :=
  (0 < SleepLog.duration_hours r)%Qc.

Definition weight_ok (r : WeightLog.t) : Prop :=
  (0 < WeightLog.weight_kg r)%Qc ∧ (0 < WeightLog.height_cm r)%Qc
  ∧ WeightLog.date r ≠ EmptyString
  ∧ WeightLog.bmi r
    = FormSpec.bmi_formula (WeightLog.weight_kg r) (WeightLog.height_cm r).

(** The rows of a user in a table. *)
Definition own {A} (user : A → Z) (uid : Z) (t : table A) : list A :=
  filter (λ r, user r = uid) (rows t).

(** A table gains one row of the user [uid], with the next key. *)
Definition gains {A} (id user : A → Z) (ok : A → Prop) (uid : Z)
    (t t' : table A) : Prop :=
  ∃ mk, t' = insert mk t ∧ ∀ k, id (mk k) = k ∧ user (mk k) = uid ∧ ok (mk k).

End StoreSpec.

(** ** What the goals form is specified on *)

Module GoalsSpec.
Import PyStr.

(** The spellings of infinity and of NaN that [float] reads: an
    optional sign, then [inf], [infinity] or [nan] in any case, with
    white space around.  They have no rational value. *)
Definition non_finite (s : string) : bool :=
  let '(_, body) := PyNum.signed (rstrip (lstrip (chars s))) in
  let low := text (map lower body) in
  bool_decide (low = "inf" ∨ low = "infinity" ∨ low = "nan").

(** The forms on which the embedding of [float] and [int] is exact: no
    spelling of infinity or NaN for the weight, and at most 4300
    characters for an integer (the default limit of [int] on the
    digits of a string). *)
Definition within_limits (form : gmap string string) : Prop :=
  (∀ s, form !! "target_weight_kg" = Some s → non_finite s = false)
  ∧ (∀ s, form !! "daily_calorie_intake_target" = Some s →
          Z.of_nat (String.length s) ≤ 4300)
  ∧ (∀ s, form !! "daily_exercise_minutes_target" = Some s →
          Z.of_nat (String.length s) ≤ 4300).

(** A number to bind, if any, fits 64 bits with sign. *)
Definition fits (v : option Z) : Prop :=
  ∀ n, v = Some n → - 2 ^ 63 ≤ n < 2 ^ 63.

Global Instance fits_dec (v : option Z) : Decision (fits v).
Proof.
  destruct v as [n|].
  - destruct (decide (- 2 ^ 63 ≤ n < 2 ^ 63)) as [H|H].
    + left. intros ? [= <-]. exact H.
    + right. intros F. apply H, F. reflexivity.
  - left. intros ? [=].
Defined.

End GoalsSpec.

(** ** What the charts are specified to show *)

Module ChartSpec.

(** Strictly before, in the order of the labels. *)
Definition key_lt (a b : option string) : Prop := Agg.key_le a b ∧ a ≠ b.

(** Two stores hold the same rows of a user in the four logs. *)
Definition same_logs_of (uid : Z) (st1 st2 : store) : Prop :=
  StoreSpec.own MealLog.user_id uid (meal_logs st1)
  = StoreSpec.own MealLog.user_id uid (meal_logs st2)
  ∧ StoreSpec.own FitnessLog.user_id uid (fitness_logs st1)
    = StoreSpec.own FitnessLog.user_id uid (fitness_logs st2)
  ∧ StoreSpec.own SleepLog.user_id uid (sleep_logs st1)
    = StoreSpec.own SleepLog.user_id uid (sleep_logs st2)
  ∧ StoreSpec.own WeightLog.user_id uid (weight_logs st1)
    = StoreSpec.own WeightLog.user_id uid (weight_logs st2).

(** The kinds of chart the API knows. *)
Definition kinds : list string := ["weight"; "meals"; "fitness"; "sleep"].

End ChartSpec.

(** ** A stand-in for bcrypt on examples *)

Module PlainHash.

(** The hash is the password itself, whatever the salt. *)
Definition generate (salt password : string) : result string := Ok password.

Definition check (pw_hash password : string) : result bool :=
  Ok (String.eqb pw_hash password).

End PlainHash.

(** ** What the application is specified to keep *)

Module WorldSpec.
Import StoreSpec.

(** What a request of the user [uid] may do to a log table: nothing,
    add a row of the user that passed the form, or delete by key among
    the rows of the user. *)
Inductive table_step {A} (id user : A → Z) (ok : A → Prop) (uid : Z)
    (t : table A) : table A → Prop :=
  | table_same : table_step id user ok uid t t
  | table_gain (t' : table A) :
      gains id user ok uid t t' → table_step id user ok uid t t'
  | table_lose (rid : Z) :
      table_step id user ok uid t (Sqlite.delete_where id user rid uid t).

(** The goals row of the user is made when missing ... *)
Definition goal_made (uid : Z) (t t0 : table Goal.t) : Prop :=
  t0 = t
  ∨ ((∀ g, g ∈ rows t → Goal.user_id g ≠ uid)
     ∧ ∃ now, t0 = insert (λ id, Goal.Row id uid None None None now) t).

(** ... and then left alone or updated. *)
Definition goals_step (uid : Z) (t t' : table Goal.t) : Prop :=
  ∃ t0, goal_made uid t t0
        ∧ (t' = t0 ∨ ∃ w c m now, t' = update_goals uid w c m now t0).

Definition store_step (uid : Z) (st st' : store) : Prop :=
  table_step MealLog.id MealLog.user_id meal_ok uid (meal_logs st) (meal_logs st')
  ∧ table_step FitnessLog.id FitnessLog.user_id fitness_ok uid
      (fitness_logs st) (fitness_logs st')
  ∧ table_step SleepLog.id SleepLog.user_id sleep_ok uid
      (sleep_logs st) (sleep_logs st')
  ∧ table_step WeightLog.id WeightLog.user_id weight_ok uid
      (weight_logs st) (weight_logs st')
  ∧ goals_step uid (goals st) (goals st').

(** An account as the registration lets it through. *)
Definition account_ok (u : User.t) : Prop :=
  User.username u ≠ EmptyString ∧ User.email u ≠ EmptyString.

(** What a request may do to the accounts: nothing, or add one with a
    username and an email that nobody has. *)
Definition accounts_step (t t' : table User.t) : Prop :=
  t' = t
  ∨ ∃ mk, t' = insert mk t
          ∧ (∀ k, User.id (mk k) = k ∧ account_ok (mk k))
          ∧ (∀ k u, u ∈ rows t → User.username u ≠ User.username (mk k)
                                 ∧ User.email u ≠ User.email (mk k)).

(** What a request of the browser [b] may do to the state: add an
    account; change the store by a step of the user of its session;
    leave its session, end it, or start one for an account. *)
Definition moves (b : nat) (w w' : world) : Prop :=
  accounts_step (accounts w) (accounts w')
  ∧ (records w' = records w
     ∨ ∃ uid, cookies w !! b = Some uid
              ∧ store_step uid (records w) (records w'))
  ∧ ∃ s' : session,
      (∀ b', cookies w' !! b' = if decide (b = b') then s' else cookies w !! b')
      ∧ (s' = cookies w !! b ∨ s' = None
         ∨ ∃ u, u ∈ rows (accounts w) ∧ s' = Some (User.id u)).

(** The keys of the six tables. *)
Definition keys_sound (w : world) : Prop :=
  keys_ok User.id (accounts w)
  ∧ keys_ok MealLog.id (meal_logs (records w))
  ∧ keys_ok FitnessLog.id (fitness_logs (records w))
  ∧ keys_ok SleepLog.id (sleep_logs (records w))
  ∧ keys_ok WeightLog.id (weight_logs (records w))
  ∧ keys_ok Goal.id (goals (records w)).

(** The UNIQUE columns: a username and an email name one account, a
    user has one goals row. *)
Definition unique_sound (w : world) : Prop :=
  NoDup (map User.username (rows (accounts w)))
  ∧ NoDup (map User.email (rows (accounts w)))
  ∧ NoDup (map Goal.user_id (rows (goals (records w)))).

(** The key of an account. *)
Definition registered (users : table User.t) (uid : Z) : Prop :=
  ∃ u, u ∈ rows users ∧ User.id u = uid.

(** The foreign keys: every session and every row belongs to an
    account. *)
Definition owners_sound (w : world) : Prop :=
  (∀ b uid, cookies w !! b = Some uid → registered (accounts w) uid)
  ∧ Forall (λ r, registered (accounts w) (MealLog.user_id r))
      (rows (meal_logs (records w)))
  ∧ Forall (λ r, registered (accounts w) (FitnessLog.user_id r))
      (rows (fitness_logs (records w)))
  ∧ Forall (λ r, registered (accounts w) (SleepLog.user_id r))
      (rows (sleep_logs (records w)))
  ∧ Forall (λ r, registered (accounts w) (WeightLog.user_id r))
      (rows (weight_logs (records w)))
  ∧ Forall (λ r, registered (accounts w) (Goal.user_id r))
      (rows (goals (records w))).

(** What is on record passed the checks of its form. *)
Definition rows_sound (w : world) : Prop :=
  Forall account_ok (rows (accounts w))
  ∧ Forall meal_ok (rows (meal_logs (records w)))
  ∧ Forall fitness_ok (rows (fitness_logs (records w)))
  ∧ Forall sleep_ok (rows (sleep_logs (records w)))
  ∧ Forall weight_ok (rows (weight_logs (records w))).

(** The routes behind [login_required]. *)
Definition protected (q : call) : bool :=
  match q with
  | CallAuth _ | CallLogout | CallIndex => false
  | _ => true
  end.

(** The rows of a user in the five tables that hold rows of users. *)
Definition rows_of (uid : Z) (st : store)
  : list MealLog.t * list FitnessLog.t * list SleepLog.t * list WeightLog.t
    * list Goal.t :=
  (own MealLog.user_id uid (meal_logs st),
   own FitnessLog.user_id uid (fitness_logs st),
   own SleepLog.user_id uid (sleep_logs st),
   own WeightLog.user_id uid (weight_logs st),
   own Goal.user_id uid (goals st)).

End WorldSpec.

(** ** A run used as an example *)

Module Journey.

Definition clock : env :=
  Env (Date 2024 5 15) (Date 2024 5 15) "2024-05-15T08:00:00"
    "2024-05-15T08:00:01" "salt".

Definition step : world → nat → call → world * http :=
  handle SqliteDate.read_iso PlainHash.generate PlainHash.check clock.

(** Ann registers, logs in and posts a meal, all from browser 0. *)
Definition signed_up : world :=
  (step fresh 0
     (CallAuth (POST {[ "action" := "register"; "username" := "ann";
                        "email" := "ann@example.org";
                        "password" := "correct horse" ]}))).1.

Definition logged_in : world :=
  (step signed_up 0
     (CallAuth (POST {[ "action" := "login"; "email" := "ann@example.org";
                        "password" := "correct horse" ]}))).1.

Definition with_meal : world :=
  (step logged_in 0
     (CallMeals (POST {[ "date" := "2024-05-15"; "meal_type" := "Dinner";
                         "food" := "rice"; "calories" := "250" ]}))).1.

End Journey.

(** * Properties *)

(** ** The error monad *)

Lemma bind_Ok {A B} (a : A) (k : A → result B) : (Ok a ≫= k) = k a.
Proof. reflexivity. Qed.

(** ** Calendar lemmas *)

Module CalendarFacts.
Import Calendar Checks.

(** A year count [Y = year - 1] splits into 400-, 100-, 4- and 1-year
    cycles, the way [ord2ymd] splits an ordinal. *)
Lemma year_cycles (Y : Z) :
  0 ≤ Y →
  ∃ a b c e,
    Y = 400 * a + 100 * b + 4 * c + e
    ∧ 0 ≤ a ∧ 0 ≤ b < 4 ∧ 0 ≤ c < 25 ∧ 0 ≤ e < 4
    ∧ days_before_year (Y + 1) = DI400Y * a + DI100Y * b + DI4Y * c + 365 * e
    ∧ is_leap (Y + 1) = (e =? 3) && (negb (c =? 24) || (b =? 3)).
Proof.
  intros HY.
  exists (Y / 400), (Y mod 400 / 100), (Y mod 100 / 4), (Y mod 4).
  unfold days_before_year, is_leap, DI400Y, DI100Y, DI4Y.
  replace (Y + 1 - 1) with Y by lia.
  repeat split; try (Z.div_mod_to_equations; lia).
Qed.

(** Table entries at a literal index evaluate. *)
Ltac table_values :=
  repeat match goal with
  | |- context [at_index ?l ?i] =>
      let v := eval vm_compute in (at_index l i) in
      change (at_index l i) with v
  | H : context [at_index ?l ?i] |- _ =>
      let v := eval vm_compute in (at_index l i) in
      change (at_index l i) with v in H
  end.

Lemma month_table_checked : ∀ leap, month_table_ok leap = true.
Proof. intros []; vm_compute; reflexivity. Qed.

Lemma month_day_spec (y m d : Z) :
  1 ≤ m ≤ 12 → 1 ≤ d ≤ days_in_month y m →
  month_day (days_before_month y m + d - 1) (is_leap y) = (m, d).
Proof.
  intros Hm Hd.
  pose proof (month_table_checked (is_leap y)) as H.
  unfold month_table_ok in H.
  rewrite forallb_forall in H.
  specialize (H m). rewrite <- list_elem_of_In, elem_of_seqZ in H.
  specialize (H ltac:(lia)).
  rewrite forallb_forall in H.
  specialize (H d). rewrite <- list_elem_of_In, elem_of_seqZ in H.
  unfold days_in_month in Hd.
  specialize (H ltac:(lia)).
  unfold days_before_month.
  destruct (month_day _ _) as [m' d'].
  apply andb_prop in H as [H1 H2].
  apply Z.eqb_eq in H1, H2. congruence.
Qed.

Lemma day_of_year_bounds (y m d : Z) :
  1 ≤ m ≤ 12 → 1 ≤ d ≤ days_in_month y m →
  0 ≤ days_before_month y m + d - 1 < 365 + (if is_leap y then 1 else 0).
Proof.
  intros Hm Hd. unfold days_before_month, days_in_month in *.
  assert (m = 1 ∨ m = 2 ∨ m = 3 ∨ m = 4 ∨ m = 5 ∨ m = 6 ∨ m = 7 ∨ m = 8
          ∨ m = 9 ∨ m = 10 ∨ m = 11 ∨ m = 12) as Hc by lia.
  destruct (is_leap y);
    repeat (destruct Hc as [-> | Hc]); try subst m; simpl in *;
    table_values; lia.
Qed.

Lemma div_mod_by (n d q r : Z) :
  0 ≤ r < d → n = d * q + r → n / d = q ∧ n mod d = r.
Proof.
  intros Hr Hn. split; symmetry.
  - apply (Z.div_unique n d q r); [left|]; assumption.
  - apply (Z.mod_unique n d q r); [left|]; assumption.
Qed.

(** [ord2ymd] inverts [ymd2ord] on every calendar date from year 1 on. *)
Lemma ord2ymd_ymd2ord (y m d : Z) :
  1 ≤ y → 1 ≤ m ≤ 12 → 1 ≤ d ≤ days_in_month y m →
  ord2ymd (ymd2ord y m d) = (y, m, d).
Proof.
  intros Hy Hm Hd.
  pose proof (month_day_spec y m d Hm Hd) as Hmd.
  pose proof (day_of_year_bounds y m d Hm Hd) as Hk.
  destruct (year_cycles (y - 1) ltac:(lia)) as (a & b & c & e & HY & Ha & Hb & Hc & He & Hdby & Hleap).
  replace (y - 1 + 1) with y in * by lia.
  unfold ymd2ord, ord2ymd.
  set (k := days_before_month y m + d - 1) in *.
  replace (days_before_year y + days_before_month y m + d - 1)
    with (days_before_year y + k) by (unfold k; lia).
  rewrite Hdby. unfold DI400Y, DI100Y, DI4Y in *.
  set (N := 146097 * a + 36524 * b + 1461 * c + 365 * e + k).
  destruct (div_mod_by N 146097 a (36524 * b + 1461 * c + 365 * e + k))
    as [-> ->]; [destruct (is_leap y); lia | unfold N; lia |].
  destruct (decide (k = 365)) as [Hk365|Hne].
  - (* the last day of a leap year *)
    assert (is_leap y = true) as Hl by (destruct (is_leap y); [done | lia]).
    rewrite Hk365, Hl in Hmd. vm_compute in Hmd.
    rewrite Hl in Hleap.
    assert (e = 3 ∧ (c ≠ 24 ∨ b = 3)) as [-> Hcb] by lia.
    injection Hmd as <- <-.
    destruct (decide (c = 24)) as [->|Hc24].
    + assert (b = 3) as -> by lia. rewrite Hk365.
      change (36524 * 3 + 1461 * 24 + 365 * 3 + 365) with (36524 * 4 + 0).
      destruct (div_mod_by (36524 * 4 + 0) 36524 4 0) as [-> ->];
        [lia | lia |].
      change (0 `mod` 1461) with 0. change (0 `div` 365) with 0.
      change ((0 =? 4) || (4 =? 4)) with true. cbv iota.
      change (0 `div` 1461) with 0.
      f_equal. f_equal. lia.
    + destruct (div_mod_by (36524 * b + 1461 * c + 365 * 3 + k) 36524 b
                  (1461 * c + 365 * 3 + k)) as [-> ->]; [lia | lia |].
      destruct (div_mod_by (1461 * c + 365 * 3 + k) 1461 c (365 * 3 + k))
        as [-> ->]; [lia | lia |].
      rewrite Hk365. change ((365 * 3 + 365) `div` 365) with 4.
      simpl. f_equal. f_equal. lia.
  - destruct (div_mod_by (36524 * b + 1461 * c + 365 * e + k) 36524 b
                (1461 * c + 365 * e + k)) as [-> ->];
      [destruct (is_leap y); lia | lia |].
    destruct (div_mod_by (1461 * c + 365 * e + k) 1461 c (365 * e + k))
      as [-> ->]; [destruct (is_leap y); lia | lia |].
    destruct (div_mod_by (365 * e + k) 365 e k) as [-> ->];
      [destruct (is_leap y); lia | lia |].
    replace ((e =? 4) || (b =? 4)) with false by lia.
    rewrite <- Hleap, Hmd. f_equal. f_equal. lia.
Qed.

Lemma day_table_checked : ∀ leap, day_table_ok leap = true.
Proof. intros []; vm_compute; reflexivity. Qed.

Lemma month_day_inv (y k : Z) :
  0 ≤ k < 365 + (if is_leap y then 1 else 0) →
  ∃ m d, month_day k (is_leap y) = (m, d)
         ∧ 1 ≤ m ≤ 12 ∧ 1 ≤ d ≤ days_in_month y m
         ∧ days_before_month y m + d - 1 = k.
Proof.
  intros Hk.
  pose proof (day_table_checked (is_leap y)) as H.
  unfold day_table_ok in H. rewrite forallb_forall in H.
  specialize (H k). rewrite <- list_elem_of_In, elem_of_seqZ in H.
  specialize (H ltac:(lia)).
  destruct (month_day k (is_leap y)) as [m d].
  exists m, d. unfold days_in_month, days_before_month.
  repeat (apply andb_prop in H as [H ?]).
  repeat match goal with
  | H : (_ <=? _) = true |- _ => apply Z.leb_le in H
  | H : (_ =? _) = true |- _ => apply Z.eqb_eq in H
  end.
  repeat split; assumption.
Qed.

Lemma cycles_year (a b c e : Z) :
  0 ≤ a → 0 ≤ b < 4 → 0 ≤ c < 25 → 0 ≤ e < 4 →
  days_before_year (400 * a + 100 * b + 4 * c + e + 1)
  = DI400Y * a + DI100Y * b + DI4Y * c + 365 * e
  ∧ is_leap (400 * a + 100 * b + 4 * c + e + 1)
    = (e =? 3) && (negb (c =? 24) || (b =? 3)).
Proof.
  intros Ha Hb Hc He.
  destruct (year_cycles (400 * a + 100 * b + 4 * c + e) ltac:(lia))
    as (a' & b' & c' & e' & HY & Ha' & Hb' & Hc' & He' & -> & ->).
  assert (a' = a ∧ b' = b ∧ c' = c ∧ e' = e) as (-> & -> & -> & ->) by lia.
  done.
Qed.

(** [ord2ymd] gives a calendar date, the one with that ordinal. *)
Lemma ymd2ord_ord2ymd (o : Z) :
  1 ≤ o →
  ∃ y m d, ord2ymd o = (y, m, d)
           ∧ 1 ≤ y ∧ 1 ≤ m ≤ 12 ∧ 1 ≤ d ≤ days_in_month y m
           ∧ ymd2ord y m d = o.
Proof.
  intros Ho. unfold ord2ymd, DI400Y, DI100Y, DI4Y.
  set (n := o - 1).
  set (a := n `div` 146097). set (r1 := n `mod` 146097).
  set (b := r1 `div` 36524). set (r2 := r1 `mod` 36524).
  set (c := r2 `div` 1461). set (r3 := r2 `mod` 1461).
  set (e := r3 `div` 365). set (k := r3 `mod` 365).
  assert (n = 146097 * a + r1 ∧ 0 ≤ r1 < 146097 ∧ 0 ≤ a) as (Hn & Hr1 & Ha)
    by (unfold a, r1; Z.div_mod_to_equations; lia).
  assert (r1 = 36524 * b + r2 ∧ 0 ≤ r2 < 36524 ∧ 0 ≤ b ≤ 4) as (Hr1' & Hr2 & Hb)
    by (unfold b, r2; Z.div_mod_to_equations; lia).
  assert (r2 = 1461 * c + r3 ∧ 0 ≤ r3 < 1461 ∧ 0 ≤ c < 25) as (Hr2' & Hr3 & Hc)
    by (unfold c, r3; Z.div_mod_to_equations; lia).
  assert (r3 = 365 * e + k ∧ 0 ≤ k < 365 ∧ 0 ≤ e ≤ 4) as (Hr3' & Hk & He)
    by (unfold e, k; Z.div_mod_to_equations; lia).
  clearbody a r1 b r2 c r3 e k.
  destruct (decide (b = 4)) as [->|Hb4].
  { assert (c = 0 ∧ e = 0 ∧ a * 400 + 1 + 4 * 100 + 0 * 4 + 0 - 1
                              = 400 * a + 100 * 3 + 4 * 24 + 3 + 1)
      as (-> & -> & ->) by lia.
    replace ((0 =? 4) || (4 =? 4)) with true by done.
    destruct (cycles_year a 3 24 3) as [Hd Hl]; try lia.
    eexists _, _, _. split; [reflexivity|].
    unfold ymd2ord, days_in_month, days_before_month.
    rewrite Hd, Hl. simpl. table_values.
    unfold DI400Y, DI100Y, DI4Y. lia. }
  destruct (decide (e = 4)) as [->|He4].
  { replace ((4 =? 4) || (b =? 4)) with true by done.
    replace (a * 400 + 1 + b * 100 + c * 4 + 4 - 1)
      with (400 * a + 100 * b + 4 * c + 3 + 1) by lia.
    destruct (cycles_year a b c 3) as [Hd Hl]; try lia.
    assert (c ≠ 24) by lia.
    eexists _, _, _. split; [reflexivity|].
    unfold ymd2ord, days_in_month, days_before_month.
    rewrite Hd, Hl. replace (c =? 24) with false by lia.
    simpl. table_values. unfold DI400Y, DI100Y, DI4Y. lia. }
  replace ((e =? 4) || (b =? 4)) with false by lia.
  replace (a * 400 + 1 + b * 100 + c * 4 + e)
    with (400 * a + 100 * b + 4 * c + e + 1) by lia.
  destruct (cycles_year a b c e) as [Hd Hl]; try lia.
  rewrite <- Hl.
  destruct (month_day_inv (400 * a + 100 * b + 4 * c + e + 1) k)
    as (m & d & -> & Hm & Hdd & Hkk); [destruct (is_leap _); lia|].
  exists (400 * a + 100 * b + 4 * c + e + 1), m, d.
  split; [reflexivity|]. repeat split; try lia.
  unfold ymd2ord. rewrite Hd. unfold DI400Y, DI100Y, DI4Y. lia.
Qed.

Lemma days_before_year_mono (y y' : Z) :
  y ≤ y' → days_before_year y ≤ days_before_year y'.
Proof. unfold days_before_year. intros. Z.div_mod_to_equations. lia. Qed.

Lemma days_before_year_succ (y : Z) :
  days_before_year (y + 1)
  = days_before_year y + 365 + (if is_leap y then 1 else 0).
Proof.
  unfold days_before_year, is_leap. replace (y + 1 - 1) with y by lia.
  destruct (Z.eqb_spec (y mod 4) 0), (Z.eqb_spec (y mod 100) 0),
    (Z.eqb_spec (y mod 400) 0); simpl; Z.div_mod_to_equations; lia.
Qed.

End CalendarFacts.

Module PyDateFacts.
Import Calendar CalendarFacts PyDate.

Lemma fromordinal_toordinal (d : date) :
  valid d → fromordinal (toordinal d) = d.
Proof.
  destruct d as [y m dd]. unfold valid, fromordinal, toordinal, MINYEAR.
  simpl. intros (Hy & Hm & Hd).
  rewrite ord2ymd_ymd2ord by lia. reflexivity.
Qed.

Lemma toordinal_range (d : date) :
  valid d → 1 ≤ toordinal d ≤ MAXORDINAL.
Proof.
  destruct d as [y m dd]. unfold valid, toordinal, MINYEAR, MAXYEAR.
  simpl. intros (Hy & Hm & Hd).
  pose proof (day_of_year_bounds y m dd Hm Hd) as Hk.
  pose proof (days_before_year_succ y) as Hs.
  pose proof (days_before_year_mono 1 y ltac:(lia)) as H1.
  pose proof (days_before_year_mono (y + 1) 10000 ltac:(lia)) as H2.
  change (days_before_year 1) with 0 in H1.
  change (days_before_year 10000) with MAXORDINAL in H2.
  unfold ymd2ord. lia.
Qed.

Lemma fromordinal_valid (o : Z) :
  1 ≤ o ≤ MAXORDINAL →
  valid (fromordinal o) ∧ toordinal (fromordinal o) = o.
Proof.
  intros Ho.
  destruct (ymd2ord_ord2ymd o ltac:(lia)) as (y & m & d & E & Hy & Hm & Hd & Hord).
  unfold fromordinal, toordinal, valid. rewrite E. simpl.
  split; [|assumption]. unfold MINYEAR, MAXYEAR. repeat split; try lia.
  destruct (Z_le_gt_dec y 9999) as [|Hbig]; [assumption|exfalso].
  pose proof (days_before_year_mono 10000 y ltac:(lia)) as H2.
  change (days_before_year 10000) with MAXORDINAL in H2.
  pose proof (day_of_year_bounds y m d Hm Hd) as Hk.
  unfold ymd2ord in Hord. lia.
Qed.

Lemma toordinal_inj (a b : date) :
  valid a → valid b → toordinal a = toordinal b → a = b.
Proof.
  intros Ha Hb E.
  rewrite <- (fromordinal_toordinal a Ha), <- (fromordinal_toordinal b Hb).
  congruence.
Qed.

Lemma add_days_ok (d : date) (k : Z) :
  1 ≤ toordinal d + k ≤ MAXORDINAL →
  add_days d k = Ok (fromordinal (toordinal d + k)).
Proof.
  intros H. unfold add_days.
  replace ((0 <? toordinal d + k) && (toordinal d + k <=? MAXORDINAL))
    with true by lia.
  reflexivity.
Qed.

Lemma make_ok (y m d : Z) :
  valid (Date y m d) → make y m d = Ok (Date y m d).
Proof.
  unfold valid, make, check_fields. simpl. intros (Hy & Hm & Hd).
  replace (_ && _) with true; [reflexivity|].
  symmetry. repeat (apply andb_true_intro; split); lia.
Qed.

Lemma make_valid (y m d : Z) (r : date) :
  make y m d = Ok r → r = Date y m d ∧ valid r.
Proof.
  unfold make, check_fields, valid.
  destruct (_ && _) eqn:E; [|discriminate].
  intros [= <-]. split; [reflexivity|]. simpl.
  repeat (apply andb_prop in E as [E ?]). lia.
Qed.

Lemma days_in_month_range (y m : Z) :
  1 ≤ m ≤ 12 → 28 ≤ days_in_month y m ≤ 31.
Proof.
  intros Hm. unfold days_in_month.
  assert (m = 1 ∨ m = 2 ∨ m = 3 ∨ m = 4 ∨ m = 5 ∨ m = 6 ∨ m = 7 ∨ m = 8
          ∨ m = 9 ∨ m = 10 ∨ m = 11 ∨ m = 12) as Hc by lia.
  destruct (is_leap y);
    repeat (destruct Hc as [-> | Hc]); try subst m; simpl;
    table_values; lia.
Qed.

(** The first of the next month is one day after the last of this one. *)
Lemma days_before_next_month (y m : Z) :
  1 ≤ m < 12 →
  days_before_month y (m + 1) = days_before_month y m + days_in_month y m.
Proof.
  intros Hm. unfold days_before_month, days_in_month.
  assert (m = 1 ∨ m = 2 ∨ m = 3 ∨ m = 4 ∨ m = 5 ∨ m = 6 ∨ m = 7 ∨ m = 8
          ∨ m = 9 ∨ m = 10 ∨ m = 11) as Hc by lia.
  destruct (is_leap y);
    repeat (destruct Hc as [-> | Hc]); try subst m; simpl;
    table_values; lia.
Qed.

End PyDateFacts.

(** ** The helpers on examples *)

Example parse_date_iso : parse_date "2024-02-29" = Ok (Date 2024 2 29).
Proof. reflexivity. Qed.
Example parse_date_short : parse_date "2024-1-5" = Ok (Date 2024 1 5).
Proof. reflexivity. Qed.
Example parse_date_bad_day : parse_date "2023-02-29" = Raise ValueError.
Proof. reflexivity. Qed.
Example parse_date_trailing : parse_date "2024-01-051" = Raise ValueError.
Proof. reflexivity. Qed.
Example to_dt_T : to_dt " 2024-03-01T07:30 " = Ok (DateTime (Date 2024 3 1) 7 30).
Proof. reflexivity. Qed.
Example to_dt_space : to_dt "2024-03-01   23:5" = Ok (DateTime (Date 2024 3 1) 23 5).
Proof. reflexivity. Qed.
Example to_dt_hour : to_dt "2024-03-01 24:00" = Raise ValueError.
Proof. reflexivity. Qed.
Example fmt_day_pads : fmt_day (Date 2024 3 1) = "2024-03-01".
Proof. reflexivity. Qed.
Example week_of_wednesday :
  start_end_from_range (Date 2024 5 15) "week" None None
  = Ok (Some (Date 2024 5 13), Some (Date 2024 5 19)).
Proof. reflexivity. Qed.
Example month_of_december :
  start_end_from_range (Date 2023 12 7) "month" None None
  = Ok (Some (Date 2023 12 1), Some (Date 2023 12 31)).
Proof. reflexivity. Qed.

(** ** What [parse_date] accepts *)

Module StrptimeFacts.
Import Calendar PyDate PyDateFacts PyStr Strptime RangeSpec Checks.

Lemma ascii_of_code (c : ascii) : c = ascii_of_N (Z.to_N (code c)).
Proof. unfold code. rewrite N2Z.id, ascii_N_embedding. reflexivity. Qed.

Lemma match_classes_inv (cs : list (ascii → bool)) (s m rest : list ascii) :
  match_classes cs s = Some (m, rest) →
  s = m ++ rest ∧ Forall2 (λ p c, p c = true) cs m.
Proof.
  revert s m rest. induction cs as [|p cs IH]; intros s m rest H; simpl in H.
  - injection H as <- <-. split; [reflexivity|constructor].
  - destruct s as [|c s]; [discriminate|].
    destruct (p c) eqn:Hp; [|discriminate].
    destruct (match_classes cs s) as [[m' rest']|] eqn:E; [|discriminate].
    injection H as <- <-.
    destruct (IH _ _ _ E) as [-> HF].
    split; [reflexivity|constructor; assumption].
Qed.

Lemma first_alt_inv {R} alts s (k : list ascii → list ascii → option R) r :
  first_alt alts s k = Some r →
  ∃ a m rest, a ∈ alts ∧ match_classes a s = Some (m, rest) ∧ k m rest = Some r.
Proof.
  induction alts as [|a alts IH]; simpl; [discriminate|].
  destruct (match_classes a s) as [[m rest]|] eqn:E.
  - destruct (k m rest) eqn:Ek.
    + intros [= <-]. exists a, m, rest. split; [left|split; assumption].
    + intros H. destruct (IH H) as (a' & m' & rest' & Hin & H1 & H2).
      exists a', m', rest'. split; [right; assumption|split; assumption].
  - intros H. destruct (IH H) as (a' & m' & rest' & Hin & H1 & H2).
    exists a', m', rest'. split; [right; assumption|split; assumption].
Qed.

Lemma run_group n alts r s :
  run (Group n alts :: r) s
  = first_alt alts s (fun m rest =>
      '(caps, e) ← run r rest; Some ((n, m) :: caps, e)).
Proof. reflexivity. Qed.

Lemma run_lit x r s :
  run (Lit x :: r) s
  = match s with
    | c :: s' => if is_char (lower x) (lower c) then run r s' else None
    | [] => None
    end.
Proof. reflexivity. Qed.

(** A group followed by the rest of the expression. *)
Lemma run_group_inv n alts r s caps e :
  run (Group n alts :: r) s = Some (caps, e) →
  ∃ a m rest caps', a ∈ alts ∧ Forall2 (λ p c, p c = true) a m
                    ∧ s = m ++ rest ∧ run r rest = Some (caps', e)
                    ∧ caps = (n, m) :: caps'.
Proof.
  rewrite run_group. intros H.
  apply first_alt_inv in H as (a & m & rest & Ha & Hm & Hk).
  apply match_classes_inv in Hm as [-> HF].
  destruct (run r rest) as [[caps' e']|] eqn:E; [|discriminate].
  injection Hk as <- <-. exists a, m, rest, caps'. done.
Qed.

Lemma run_dash_inv r s res :
  run (Lit "-" :: r) s = Some res →
  ∃ rest, s = "-"%char :: rest ∧ run r rest = Some res.
Proof.
  rewrite run_lit. destruct s as [|c rest]; [discriminate|].
  destruct (is_char _ _) eqn:E; [|discriminate].
  intros H. exists rest. split; [|assumption]. f_equal.
  destruct c as [[] [] [] [] [] [] [] []]; vm_compute in E;
    first [discriminate E | reflexivity].
Qed.

Lemma text_app (a b : list ascii) : text (a ++ b) = text a +:+ text b.
Proof. induction a as [|c a IH]; simpl; [reflexivity|]. unfold text in *. simpl. rewrite IH. reflexivity. Qed.

Lemma text_chars (s : string) : text (chars s) = s.
Proof. apply string_of_list_ascii_of_string. Qed.

Lemma digit_of_code (c : ascii) :
  is_digit c = true →
  0 ≤ digit_value c ≤ 9 ∧ c = Fmt.digit (digit_value c) ∧ is_space c = false.
Proof.
  intros H. unfold is_digit in H. unfold digit_value, Fmt.digit, is_space.
  split; [lia|]. split; [|lia].
  rewrite Z.mod_small by lia.
  replace (48 + (code c - 48)) with (code c) by lia.
  apply ascii_of_code.
Qed.

Lemma digit_eq (a b : Z) : a mod 10 = b mod 10 → Fmt.digit a = Fmt.digit b.
Proof. unfold Fmt.digit. intros ->. reflexivity. Qed.

(** The four digits of the year. *)
Lemma year_group (m : list ascii) :
  Forall2 (λ p c, p c = true) [d09; d09; d09; d09] m →
  0 ≤ decimal (lstrip m) ≤ 9999 ∧ text m = Fmt.pad4 (decimal (lstrip m)).
Proof.
  intros H.
  repeat match goal with
  | H : Forall2 _ _ _ |- _ => inversion H; subst; clear H
  end.
  repeat match goal with
  | H : d09 ?c = true |- _ =>
      apply digit_of_code in H as (? & ? & ?)
  end.
  unfold lstrip.
  repeat match goal with H : is_space _ = false |- _ => rewrite H; clear H end.
  unfold decimal. simpl fold_left.
  unfold text, Fmt.pad4, Fmt.pad2. simpl string_of_list_ascii.
  repeat match goal with
  | H : ?x = Fmt.digit (digit_value ?x) |- _ =>
      let n := fresh "n" in
      set (n := digit_value x) in *; clearbody n; subst x
  end.
  split; [lia|].
  repeat (f_equal; [apply digit_eq; Z.div_mod_to_equations; lia|]).
  f_equal. apply digit_eq. Z.div_mod_to_equations. lia.
Qed.

(** A character known by a class test becomes one of finitely many
    literals. *)
Ltac literal_char c :=
  let n := fresh "n" in
  let E := fresh "E" in
  let Hc := fresh "Hc" in
  pose proof (ascii_of_code c) as E;
  set (n := code c) in *; clearbody n; subst c;
  assert (n = 32 ∨ n = 48 ∨ n = 49 ∨ n = 50 ∨ n = 51 ∨ n = 52 ∨ n = 53
          ∨ n = 54 ∨ n = 55 ∨ n = 56 ∨ n = 57) as Hc by lia;
  repeat (destruct Hc as [Hc|Hc]; [subst n|]); try subst n.

Ltac class_facts :=
  repeat match goal with
  | H : Forall2 _ _ _ |- _ => inversion H; subst; clear H
  end;
  unfold is_char, in_range, d09, is_digit in *;
  repeat match goal with
  | H : context [code (Ascii ?a ?b ?c ?d ?e ?f ?g ?h)] |- _ =>
      let v := eval vm_compute in (code (Ascii a b c d e f g h)) in
      change (code (Ascii a b c d e f g h)) with v in H
  end.

Ltac closed_group :=
  match goal with
  | |- context [decimal ?l] =>
      let v := eval vm_compute in (decimal l) in
      change (decimal l) with v
  end;
  split; [lia | apply (bool_decide_unpack _); vm_compute; exact I].

Lemma month_group (a : list (ascii → bool)) (m : list ascii) :
  a ∈ [[is_char "1"; in_range "0" "2"]; [is_char "0"; in_range "1" "9"];
       [in_range "1" "9"]] →
  Forall2 (λ p c, p c = true) a m →
  1 ≤ decimal (lstrip m) ≤ 12 ∧ text m ∈ month_texts (decimal (lstrip m)).
Proof.
  intros Ha HF.
  repeat (apply elem_of_cons in Ha as [->|Ha]); [| | |inversion Ha];
    class_facts;
    repeat match goal with c : ascii |- _ => literal_char c; try lia end;
    closed_group.
Qed.

Lemma day_group (a : list (ascii → bool)) (m : list ascii) :
  a ∈ [[is_char "3"; in_range "0" "1"]; [in_range "1" "2"; d09];
       [is_char "0"; in_range "1" "9"]; [in_range "1" "9"];
       [is_char " "; in_range "1" "9"]] →
  Forall2 (λ p c, p c = true) a m →
  1 ≤ decimal (lstrip m) ≤ 31 ∧ text m ∈ day_texts (decimal (lstrip m)).
Proof.
  intros Ha HF.
  repeat (apply elem_of_cons in Ha as [->|Ha]); [| | | | |inversion Ha];
    class_facts;
    repeat match goal with c : ascii |- _ => literal_char c; try lia end;
    closed_group.
Qed.

Lemma text_cons (c : ascii) (l : list ascii) : text (c :: l) = String c (text l).
Proof. reflexivity. Qed.

(** Every string [parse_date] reads is one of the strings of its date. *)
Lemma parse_date_sound (s : string) (d : date) :
  parse_date s = Ok d →
  valid d ∧ ∃ ms ds, ms ∈ month_texts (month d) ∧ ds ∈ day_texts (day d)
                     ∧ s = Fmt.pad4 (year d) +:+ "-" +:+ ms +:+ "-" +:+ ds.
Proof.
  unfold parse_date, match_format, fmt_date, re_Y, re_m, re_d.
  destruct (run _ (chars s)) as [[caps [|? ?]]|] eqn:E;
    [|intros H; discriminate H..].
  apply run_group_inv in E as (ay & my & r1 & c1 & Hay & Hy & Hs1 & E & ->).
  apply run_dash_inv in E as (r2 & -> & E).
  apply run_group_inv in E as (am & mm & r3 & c2 & Ham & Hm & -> & E & ->).
  apply run_dash_inv in E as (r4 & -> & E).
  apply run_group_inv in E as (ad & md & r5 & c3 & Had & Hd & -> & E & ->).
  injection E as <- ->.
  apply list_elem_of_singleton in Hay as ->.
  apply year_group in Hy as [Hyr Hyt].
  destruct (month_group _ _ Ham Hm) as [Hmr Hmt].
  destruct (day_group _ _ Had Hd) as [Hdr Hdt].
  rewrite bind_Ok. unfold field, group.
  change (is_char "Y" "Y") with true. change (is_char "m" "Y") with false.
  change (is_char "m" "m") with true. change (is_char "d" "Y") with false.
  change (is_char "d" "m") with false. change (is_char "d" "d") with true.
  cbv iota. intros Hmk. apply make_valid in Hmk as [-> Hv].
  split; [assumption|]. cbn [year month day].
  exists (text mm), (text md). split; [assumption|]. split; [assumption|].
  rewrite <- (text_chars s), Hs1, text_app, text_cons, text_app, text_cons.
  rewrite app_nil_r, Hyt. reflexivity.
Qed.

Lemma parse_date_result (s : string) :
  parse_date s = Raise ValueError ∨ ∃ d, parse_date s = Ok d.
Proof.
  unfold parse_date, match_format, make.
  destruct (run _ _) as [[caps [|? ?]]|]; try (left; reflexivity).
  rewrite bind_Ok. destruct (check_fields _ _ _); [right; eexists; reflexivity|left; reflexivity].
Qed.

(** A string outside the accepted form makes [parse_date] raise. *)
Lemma parse_date_rejects (s : string) :
  ¬ strptime_date_string s → parse_date s = Raise ValueError.
Proof.
  intros Hn. destruct (parse_date_result s) as [E|[d E]]; [assumption|].
  exfalso. apply Hn. apply parse_date_sound in E as (Hv & ms & ds & H1 & H2 & H3).
  exists d, ms, ds. done.
Qed.

Lemma chars_app (a b : string) : chars (a +:+ b) = chars a ++ chars b.
Proof. induction a as [|c a IH]; simpl; [reflexivity|]. unfold chars in *. simpl. rewrite IH. reflexivity. Qed.

Lemma digit_is_digit (n : Z) :
  is_digit (Fmt.digit n) = true ∧ digit_value (Fmt.digit n) = n mod 10
  ∧ is_space (Fmt.digit n) = false.
Proof.
  assert (0 ≤ n mod 10 < 10) as Hn by (apply Z.mod_pos_bound; lia).
  unfold is_digit, digit_value, is_space, Fmt.digit, code.
  rewrite N_ascii_embedding by lia. rewrite Z2N.id by lia.
  generalize dependent (n mod 10). intros k Hk. lia.
Qed.

Lemma run_year (y : Z) (r : list item) (rest : list ascii) :
  0 ≤ y ≤ 9999 →
  run (re_Y :: r) (chars (Fmt.pad4 y) ++ rest)
  = ('(caps, e) ← run r rest; Some (("Y"%char, chars (Fmt.pad4 y)) :: caps, e))
  ∧ decimal (lstrip (chars (Fmt.pad4 y))) = y.
Proof.
  intros Hy. unfold re_Y. rewrite run_group.
  unfold Fmt.pad4, Fmt.pad2, chars. simpl list_ascii_of_string.
  cbn [app].
  unfold first_alt, match_classes, d09, lstrip, decimal.
  destruct (digit_is_digit (y / 1000)) as (D1 & V1 & S1).
  destruct (digit_is_digit (y / 100)) as (D2 & V2 & _).
  destruct (digit_is_digit (y / 10)) as (D3 & V3 & _).
  destruct (digit_is_digit y) as (D4 & V4 & _).
  rewrite D1, D2, D3, D4, S1. cbn [fold_left].
  rewrite V1, V2, V3, V4.
  split.
  - simpl. destruct (run r rest) as [[caps e]|]; reflexivity.
  - Z.div_mod_to_equations. lia.
Qed.

Lemma tail_table_checked : tail_table_ok = true.
Proof. vm_compute. reflexivity. Qed.

Lemma run_tail (m d : Z) (ms ds : string) :
  1 ≤ m ≤ 12 → 1 ≤ d ≤ 31 → ms ∈ month_texts m → ds ∈ day_texts d →
  ∃ caps, run [Lit "-"; re_m; Lit "-"; re_d]
              (chars ("-" +:+ ms +:+ "-" +:+ ds)) = Some (caps, [])
          ∧ field caps "m" = m ∧ field caps "d" = d ∧ group caps "Y" = None.
Proof.
  intros Hm Hd Hms Hds.
  pose proof tail_table_checked as H. unfold tail_table_ok in H.
  rewrite forallb_forall in H. specialize (H m).
  rewrite <- list_elem_of_In, elem_of_seqZ in H. specialize (H ltac:(lia)).
  rewrite forallb_forall in H. specialize (H d).
  rewrite <- list_elem_of_In, elem_of_seqZ in H. specialize (H ltac:(lia)).
  rewrite forallb_forall in H. specialize (H ms).
  rewrite <- list_elem_of_In in H. specialize (H Hms).
  rewrite forallb_forall in H. specialize (H ds).
  rewrite <- list_elem_of_In in H. specialize (H Hds).
  destruct (run _ _) as [[caps [|? ?]]|]; try discriminate H.
  exists caps. split; [reflexivity|].
  apply andb_prop in H as [H H3]. apply andb_prop in H as [H H2].
  apply bool_decide_eq_true in H3. apply Z.eqb_eq in H, H2. done.
Qed.

(** Every string of a date is read by [parse_date] as that date. *)
Lemma parse_date_complete (d : date) (ms ds : string) :
  valid d → ms ∈ month_texts (month d) → ds ∈ day_texts (day d) →
  parse_date (Fmt.pad4 (year d) +:+ "-" +:+ ms +:+ "-" +:+ ds) = Ok d.
Proof.
  intros Hv Hms Hds. destruct d as [y m dd].
  pose proof Hv as (Hy & Hm & Hd). cbn [year month day] in *.
  unfold MINYEAR, MAXYEAR in Hy.
  pose proof (days_in_month_range y m Hm) as Hdim.
  destruct (run_tail m dd ms ds) as (caps & E & Fm & Fd & FY); try assumption;
    [lia|].
  unfold parse_date, match_format, fmt_date.
  rewrite chars_app.
  destruct (run_year y [Lit "-"; re_m; Lit "-"; re_d]
              (chars ("-" +:+ ms +:+ "-" +:+ ds))) as [-> Hdec]; [lia|].
  rewrite E. cbn [mbind option_bind]. rewrite bind_Ok.
  assert (field (("Y"%char, chars (Fmt.pad4 y)) :: caps) "Y" = y) as ->
    by (unfold field, group; change (is_char "Y" "Y") with true; exact Hdec).
  assert (∀ n, is_char n "Y" = false →
            field (("Y"%char, chars (Fmt.pad4 y)) :: caps) n = field caps n) as Hskip
    by (intros n Hn; unfold field, group; rewrite Hn; reflexivity).
  rewrite !Hskip by reflexivity. rewrite Fm, Fd.
  apply make_ok. exact Hv.
Qed.

(** [parse_date] reads exactly the accepted strings. *)
Lemma parse_date_accepts (s : string) :
  strptime_date_string s ↔ ∃ d, parse_date s = Ok d.
Proof.
  split.
  - intros (d & ms & ds & Hv & Hms & Hds & ->). exists d.
    apply parse_date_complete; assumption.
  - intros [d E]. apply parse_date_sound in E as (Hv & ms & ds & H1 & H2 & H3).
    exists d, ms, ds. done.
Qed.

End StrptimeFacts.

(** ** Properties of the date-range resolver *)

Module RangeFacts.
Import Calendar CalendarFacts PyDate PyDateFacts RangeSpec StrptimeFacts.

(** C3 (as amended).  For every current date up to 9999-12-26,
    [start_end_from_range("week")] returns a pair [(start, end)] of dates
    where [start] is a Monday, [start <= today <= end] and
    [end - start] is 6 days. *)
Theorem week_range_monday_to_sunday (today : date) (start_str end_str : option string) :
  valid today → le today (Date 9999 12 26) →
  week_range today (start_end_from_range today "week" start_str end_str).
Proof.
  intros Hv Hle.
  pose proof (toordinal_range today Hv) as Ho.
  unfold le in Hle. change (toordinal (Date 9999 12 26)) with 3652054 in Hle.
  unfold MAXORDINAL in Ho.
  set (o := toordinal today) in *.
  set (w := (o + 6) mod 7).
  assert (0 ≤ w < 7 ∧ 1 ≤ o - w ∧ (o - w + 6) mod 7 = 0 ∧ o - w + 6 ≤ 3652054)
    as (Hw & Hs & Hmon & He) by (unfold w; Z.div_mod_to_equations; lia).
  unfold start_end_from_range, sub_days, weekday.
  change (String.eqb "week" "today") with false.
  change (String.eqb "week" "week") with true. cbv iota.
  fold o. fold w.
  rewrite add_days_ok by (fold o; unfold MAXORDINAL; lia).
  fold o. replace (o + - w) with (o - w) by lia.
  destruct (fromordinal_valid (o - w)) as [Hsv Hso]; [unfold MAXORDINAL; lia|].
  rewrite bind_Ok, add_days_ok by (rewrite Hso; unfold MAXORDINAL; lia).
  rewrite Hso, bind_Ok.
  destruct (fromordinal_valid (o - w + 6)) as [Hev Heo]; [unfold MAXORDINAL; lia|].
  eexists _, _. split; [reflexivity|].
  unfold weekday, le. rewrite Hso, Heo. fold o.
  refine (conj Hsv (conj Hev (conj Hmon _))). lia.
Qed.

Lemma week_range_monday_to_sunday_witness :
  week_range (Date 2024 5 15) (start_end_from_range (Date 2024 5 15) "week" None None).
Proof.
  apply (week_range_monday_to_sunday (Date 2024 5 15) None None).
  - unfold valid; simpl; vm_compute; intuition discriminate.
  - vm_compute; discriminate.
Defined.

(** C3 as stated fails in the last days of year 9999: on Monday
    9999-12-27 the Sunday of the week is past [date.max] and the
    resolver raises [OverflowError]. *)
Lemma week_range_fails_at_calendar_end :
  valid (Date 9999 12 27)
  ∧ start_end_from_range (Date 9999 12 27) "week" None None = Raise OverflowError
  ∧ ¬ week_range (Date 9999 12 27)
        (start_end_from_range (Date 9999 12 27) "week" None None).
Proof.
  assert (start_end_from_range (Date 9999 12 27) "week" None None
          = Raise OverflowError) as E by (vm_compute; reflexivity).
  split; [unfold valid; simpl; vm_compute; intuition discriminate|].
  split; [exact E|].
  rewrite E. intros (s & e & H & _). discriminate H.
Qed.

(** The dates between the first and the last day of a month are the
    dates of that month. *)
Lemma month_covered (y m : Z) (d : date) :
  valid (Date y m 1) → valid d →
  (le (Date y m 1) d ∧ le d (Date y m (days_in_month y m))
   ↔ year d = y ∧ month d = m).
Proof.
  intros Hs Hd. unfold le, toordinal. simpl.
  destruct Hs as (Hy & Hm & _). simpl in Hy, Hm.
  pose proof (days_in_month_range y m Hm) as Hdim.
  split.
  - intros [H1 H2].
    set (j := ymd2ord (year d) (month d) (day d) - ymd2ord y m 1 + 1).
    assert (valid (Date y m j)) as Hj.
    { unfold valid; simpl. unfold j, ymd2ord in *. lia. }
    assert (d = Date y m j) as E; [|rewrite E; split; reflexivity].
    apply toordinal_inj; try assumption.
    unfold toordinal; simpl. unfold j, ymd2ord. lia.
  - intros [<- <-]. destruct Hd as (_ & _ & Hdd). unfold ymd2ord. lia.
Qed.

(** C4 (as amended).  For every current date before December 9999
    (December of earlier years included), [start_end_from_range("month")]
    returns the first day of the current calendar month as start and the
    last day of that month as end, covering exactly that month. *)
Theorem month_range_first_to_last (today : date) (start_str end_str : option string) :
  valid today → ¬ (year today = 9999 ∧ month today = 12) →
  month_range today (start_end_from_range today "month" start_str end_str).
Proof.
  intros Hv Hnot. destruct today as [y m d].
  destruct Hv as (Hy & Hm & Hd). simpl in *. unfold MINYEAR, MAXYEAR in Hy.
  pose proof (days_in_month_range y m Hm) as Hdim.
  assert (valid (Date y m 1)) as Hs
    by (unfold valid, MINYEAR, MAXYEAR; simpl; lia).
  assert (valid (Date y m (days_in_month y m))) as He
    by (unfold valid, MINYEAR, MAXYEAR; simpl; lia).
  unfold start_end_from_range, replace_day, sub_days.
  change (String.eqb "month" "today") with false.
  change (String.eqb "month" "week") with false.
  change (String.eqb "month" "month") with true. cbv iota.
  cbn [year month day].
  rewrite (make_ok y m 1 Hs), bind_Ok. cbn [year month day].
  assert (∀ nx, valid nx → toordinal nx - 1 = ymd2ord y m (days_in_month y m) →
            (Ok nx ≫= λ next_start : date,
               add_days next_start (- (1)) ≫= λ end_ : date,
                 Ok (Some (Date y m 1), Some end_))
            = Ok (Some (Date y m 1), Some (Date y m (days_in_month y m)))) as Hstep.
  { intros nx Hnx Hord. rewrite bind_Ok.
    pose proof (toordinal_range _ He) as Hr. unfold toordinal in Hr. simpl in Hr.
    rewrite add_days_ok by lia.
    replace (toordinal nx + - (1)) with (toordinal (Date y m (days_in_month y m)))
      by (unfold toordinal at 1; simpl; lia).
    rewrite (fromordinal_toordinal _ He). reflexivity. }
  exists (Date y m 1), (Date y m (days_in_month y m)).
  split; [|split; [reflexivity|split; [reflexivity|]]].
  - destruct (Z.eqb_spec m 12) as [->|Hne].
    + assert (valid (Date (y + 1) 1 1)) as Hn
        by (unfold valid, MINYEAR, MAXYEAR; simpl; vm_compute days_in_month; lia).
      rewrite (make_ok _ _ _ Hn). apply Hstep; [assumption|].
      unfold toordinal, ymd2ord. simpl year. simpl month. simpl day.
      rewrite days_before_year_succ.
      unfold days_before_month, days_in_month. simpl. table_values.
      destruct (is_leap y); lia.
    + assert (valid (Date y (m + 1) 1)) as Hn.
      { unfold valid, MINYEAR, MAXYEAR; simpl.
        pose proof (days_in_month_range y (m + 1) ltac:(lia)). lia. }
      rewrite (make_ok _ _ _ Hn). apply Hstep; [assumption|].
      unfold toordinal, ymd2ord. simpl year. simpl month. simpl day.
      rewrite days_before_next_month by lia. lia.
  - intros d0 Hd0. apply month_covered; assumption.
Qed.

Lemma month_range_first_to_last_witness :
  month_range (Date 2023 12 7) (start_end_from_range (Date 2023 12 7) "month" None None).
Proof.
  apply (month_range_first_to_last (Date 2023 12 7) None None).
  - unfold valid; simpl; vm_compute; intuition discriminate.
  - simpl; lia.
Defined.

(** C4 as stated fails in December 9999: the first of the next month
    is in year 10000, which [date] refuses with [ValueError]. *)
Lemma month_range_fails_in_last_december :
  valid (Date 9999 12 15)
  ∧ start_end_from_range (Date 9999 12 15) "month" None None = Raise ValueError
  ∧ ¬ month_range (Date 9999 12 15)
        (start_end_from_range (Date 9999 12 15) "month" None None).
Proof.
  assert (start_end_from_range (Date 9999 12 15) "month" None None
          = Raise ValueError) as E by (vm_compute; reflexivity).
  split; [unfold valid; simpl; vm_compute; intuition discriminate|].
  split; [exact E|].
  rewrite E. intros (s & e & H & _). discriminate H.
Qed.

Lemma iso_date_string_length (s : string) :
  iso_date_string s → String.length s = 10%nat.
Proof. intros (d & _ & ->). reflexivity. Qed.




(** C10.  For every call
    [start_end_from_range("custom", start_str, end_str)] in which
    [start_str] or [end_str] is missing or empty, the resolver does not
    fail but returns the unbounded sentinel [(None, None)], the same
    result as range key ["all"]. *)
Theorem custom_missing_bound_unbounded (today : date) (start_str end_str : option string) :
  missing_or_empty start_str ∨ missing_or_empty end_str →
  start_end_from_range today "custom" start_str end_str = unbounded
  ∧ start_end_from_range today "all" start_str end_str = unbounded.
Proof.
  intros H. split; [|reflexivity].
  unfold start_end_from_range.
  change (String.eqb "custom" "today") with false.
  change (String.eqb "custom" "week") with false.
  change (String.eqb "custom" "month") with false.
  change (String.eqb "custom" "custom") with true. cbv iota.
  destruct H as [[->| ->]|[->| ->]]; cbn [PyStr.truthy andb];
    try reflexivity; destruct (PyStr.truthy start_str); reflexivity.
Qed.

Lemma custom_missing_bound_unbounded_witness :
  start_end_from_range (Date 2024 5 15) "custom" (Some "2024-05-01") (Some "")
  = unbounded
  ∧ start_end_from_range (Date 2024 5 15) "all" (Some "2024-05-01") (Some "")
    = unbounded.
Proof.
  apply (custom_missing_bound_unbounded (Date 2024 5 15) (Some "2024-05-01") (Some "")).
  right. right. reflexivity.
Defined.

End RangeFacts.

(** ** Rounding *)

Module PyNumFacts.
Import PyNum.

Lemma round_half_even_pos (n d : Z) :
  0 < d → (0 < round_half_even n d ↔ d < 2 * n).
Proof.
  intros Hd. unfold round_half_even.
  pose proof (Z.div_mod n d ltac:(lia)) as Hn.
  pose proof (Z.mod_pos_bound n d Hd) as Hr.
  set (q := n / d) in *. set (r := n mod d) in *. clearbody q r.
  assert (q ≤ -1 ∧ d * q ≤ - d ∨ q = 0 ∨ 1 ≤ q ∧ d ≤ d * q) as Hq by nia.
  destruct (Z.ltb_spec (2 * r) d); [|destruct (Z.ltb_spec d (2 * r))];
    [| |destruct (Z.even q) eqn:Ev];
    destruct Hq as [Hq|[Hq|Hq]]; try subst q; try lia.
  discriminate Ev.
Qed.

Lemma Q2Qc_pos (q : Q) : (0 < Q2Qc q)%Qc ↔ (0 < Qnum q)%Z.
Proof.
  unfold Qclt. simpl. rewrite !Qred_correct.
  unfold Qlt. simpl. lia.
Qed.

(** [round(x, 2)] is positive exactly above half a hundredth. *)
Lemma round2_pos (x : Qc) :
  (0 < round2 x)%Qc ↔ (Z.pos (Qden x) < 200 * Qnum x)%Z.
Proof.
  unfold round2. rewrite Q2Qc_pos. simpl Qnum. unfold hundredths.
  rewrite round_half_even_pos by lia. lia.
Qed.

(** A ratio of two integers, in lowest terms or not. *)
Lemma ratio_spec (a : Z) (b : positive) :
  (Qnum (of_Z a / of_Z (Z.pos b))%Qc * Z.pos b
   = a * Z.pos (Qden (of_Z a / of_Z (Z.pos b))%Qc))%Z.
Proof.
  assert (this (of_Z a / of_Z (Z.pos b))%Qc == a # b)%Q as H.
  { unfold Qcdiv, Qcmult, Qcinv, of_Z, Q2Qc. simpl this.
    rewrite !Qred_correct. unfold Qeq. simpl.
    rewrite Z.mul_1_r. destruct a; simpl; lia. }
  unfold Qeq in H. simpl in H. exact H.
Qed.

Lemma leb_false (x y : Qc) : leb x y = false ↔ (y < x)%Qc.
Proof.
  unfold leb. rewrite bool_decide_eq_false. split.
  - apply Qcnot_le_lt.
  - apply Qclt_not_le.
Qed.

End PyNumFacts.

(** ** Properties of the log forms *)

Module FormFacts.
Import PyStr Form FormSpec.

Lemma truthy_missing (form : gmap string string) (k : string) :
  missing form k ↔ truthy (form !! k) = false.
Proof.
  unfold missing. destruct (form !! k) as [[|c s]|]; simpl; split;
    intros H; try reflexivity; try discriminate; auto.
  destruct H as [H|H]; discriminate H.
Qed.

(** A disjunction of tests one of which is [true]. *)
Ltac orb_true := simpl; rewrite ?orb_true_r; simpl; rewrite ?orb_true_r; reflexivity.

Lemma meals_rejects (st : store) (uid : Z) (now : string)
    (form : gmap string string) (n : Z) :
  get_int form "calories" = Ok n →
  missing form "date" ∨ blank_text form "food" ∨ n ≤ 0 →
  rejected st "meals" (meals st uid now (POST form)).
Proof.
  intros Hn Hbad. unfold meals. rewrite Hn, bind_Ok.
  eexists. replace (_ || _ || _) with true; [reflexivity|].
  symmetry. destruct Hbad as [H|[H|H]].
  - apply truthy_missing in H. rewrite H. reflexivity.
  - unfold blank_text in H. rewrite H. orb_true.
  - replace (n <=? 0) with true by lia. orb_true.
Qed.

Lemma fitness_rejects (st : store) (uid : Z) (now : string)
    (form : gmap string string) (d b : Z) :
  get_int form "duration_min" = Ok d →
  get_int form "calories_burned" = Ok b →
  missing form "date" ∨ blank_text form "activity_type" ∨ d ≤ 0 ∨ b < 0 →
  rejected st "fitness" (fitness st uid now (POST form)).
Proof.
  intros Hd Hb Hbad. unfold fitness. rewrite Hd, bind_Ok, Hb, bind_Ok.
  eexists. replace (_ || _ || _ || _) with true; [reflexivity|].
  symmetry. destruct Hbad as [H|[H|[H|H]]].
  - apply truthy_missing in H. rewrite H. reflexivity.
  - unfold blank_text in H. rewrite H. orb_true.
  - replace (d <=? 0) with true by lia. orb_true.
  - replace (b <? 0) with true by lia. orb_true.
Qed.

Lemma sleep_rejects_missing (st : store) (uid : Z) (now : string)
    (form : gmap string string) :
  missing form "sleep_start" ∨ missing form "sleep_end" →
  rejected st "sleep" (sleep st uid now (POST form)).
Proof.
  intros Hbad. unfold sleep.
  eexists. replace (_ || _) with true; [reflexivity|].
  symmetry. destruct Hbad as [H|H]; apply truthy_missing in H; rewrite H;
    orb_true.
Qed.

Lemma sleep_rejects_failure (st : store) (uid : Z) (now : string)
    (form : gmap string string) (s e : string) (err : exn) :
  form !! "sleep_start" = Some s → form !! "sleep_end" = Some e →
  sleep_times s e = Raise err →
  rejected st "sleep" (sleep st uid now (POST form)).
Proof.
  intros Hs He Hf. unfold sleep. rewrite Hs, He.
  destruct (negb _ || negb _); [eexists; reflexivity|].
  change (str_of (Some s)) with s. change (str_of (Some e)) with e.
  rewrite Hf. eexists; reflexivity.
Qed.

Lemma weight_rejects (st : store) (uid : Z) (now : string)
    (form : gmap string string) (w h : Qc) :
  get_float form "weight_kg" = Ok w →
  get_float form "height_cm" = Ok h →
  missing form "date" ∨ (w ≤ 0)%Qc ∨ (h ≤ 0)%Qc →
  rejected st "weight" (weight st uid now (POST form)).
Proof.
  intros Hw Hh Hbad. unfold weight. rewrite Hw, bind_Ok, Hh, bind_Ok.
  eexists. replace (_ || _ || _) with true; [reflexivity|].
  symmetry. destruct Hbad as [H|[H|H]].
  - apply truthy_missing in H. rewrite H. reflexivity.
  - unfold PyNum.leb. rewrite (bool_decide_eq_true_2 _ H). orb_true.
  - unfold PyNum.leb. rewrite (bool_decide_eq_true_2 _ H). orb_true.
Qed.

(** A complete meal, and a complete workout, are written. *)
Lemma meals_accepts (st : store) (uid : Z) (now : string)
    (form : gmap string string) (dt : string) (n : Z) :
  form !! "date" = Some dt → dt ≠ EmptyString →
  ¬ blank_text form "food" → get_int form "calories" = Ok n → 0 < n →
  meal_written st
    (λ id, MealLog.Row id uid dt (get_or form "meal_type" "Breakfast")
             (strip (get_str form "food")) n now)
    (meals st uid now (POST form)).
Proof.
  intros Hdt Hne Hfood Hn Hpos. unfold meals. rewrite Hn, bind_Ok, Hdt.
  destruct dt as [|c dt]; [congruence|]. cbn [truthy negb orb].
  unfold blank_text in Hfood.
  destruct (strip (get_str form "food")) as [|c' f] eqn:Ef; [congruence|].
  cbn [blank orb]. replace (n <=? 0) with false by lia.
  eexists. reflexivity.
Qed.

Lemma fitness_accepts (st : store) (uid : Z) (now : string)
    (form : gmap string string) (dt : string) (d b : Z) :
  form !! "date" = Some dt → dt ≠ EmptyString →
  ¬ blank_text form "activity_type" →
  get_int form "duration_min" = Ok d → get_int form "calories_burned" = Ok b →
  0 < d → 0 ≤ b →
  fitness_written st
    (λ id, FitnessLog.Row id uid dt (strip (get_str form "activity_type"))
             d b now)
    (fitness st uid now (POST form)).
Proof.
  intros Hdt Hne Hact Hd Hb Hdpos Hbpos. unfold fitness.
  rewrite Hd, bind_Ok, Hb, bind_Ok, Hdt.
  destruct dt as [|c dt]; [congruence|]. cbn [truthy negb orb].
  unfold blank_text in Hact.
  destruct (strip (get_str form "activity_type")) as [|c' f] eqn:Ef;
    [congruence|].
  cbn [blank orb]. replace (d <=? 0) with false by lia.
  replace (b <? 0) with false by lia.
  eexists. reflexivity.
Qed.

(** The rounded duration is positive exactly when the end is after the
    start: a minute is a sixtieth of an hour, which rounds to 0.02. *)
Lemma hours_positive (a b : datetime) :
  (0 < hours_between a b)%Qc ↔ PyDateTime.minutes a < PyDateTime.minutes b.
Proof.
  unfold hours_between. rewrite PyNumFacts.round2_pos.
  unfold PyDateTime.seconds_between.
  set (m := PyDateTime.minutes b - PyDateTime.minutes a).
  pose proof (PyNumFacts.ratio_spec (m * 60) 3600) as H.
  change (Z.pos 3600) with 3600 in *.
  set (x := (PyNum.of_Z (m * 60) / PyNum.of_Z 3600)%Qc) in *.
  pose proof (Pos2Z.is_pos (Qden x)) as Hd.
  split; intros Hlt.
  - assert (0 < m); [nia|lia].
  - assert (1 ≤ m) as Hm by lia. nia.
Qed.

Lemma sleep_times_spec (s e : string) (s_dt e_dt e_taken : datetime) :
  to_dt s = Ok s_dt → to_dt e = Ok e_dt →
  sleep_end_taken s_dt e_dt = Ok e_taken →
  sleep_times s e
  = if PyNum.leb (hours_between s_dt e_taken) (PyNum.of_Z 0)
    then Raise ValueError
    else Ok (s_dt, e_taken, hours_between s_dt e_taken).
Proof.
  intros Hs He Ht. unfold sleep_times. rewrite Hs, bind_Ok, He, bind_Ok.
  unfold sleep_end_taken in Ht. rewrite Ht, bind_Ok. reflexivity.
Qed.

Lemma sleep_times_inv (s e : string) (s_dt e_taken : datetime) (d : Qc) :
  sleep_times s e = Ok (s_dt, e_taken, d) →
  ∃ e_dt, to_dt s = Ok s_dt ∧ to_dt e = Ok e_dt
          ∧ sleep_end_taken s_dt e_dt = Ok e_taken
          ∧ d = hours_between s_dt e_taken ∧ (0 < d)%Qc.
Proof.
  unfold sleep_times.
  destruct (to_dt s) as [a|]; [|discriminate]. rewrite bind_Ok.
  destruct (to_dt e) as [b|]; [|discriminate]. rewrite bind_Ok.
  fold (sleep_end_taken a b).
  destruct (sleep_end_taken a b) as [b'|] eqn:Ht; [|discriminate].
  rewrite bind_Ok. fold (hours_between a b').
  destruct (PyNum.leb _ _) eqn:Hle; [discriminate|].
  intros [= <- <- <-]. exists b.
  apply PyNumFacts.leb_false in Hle.
  repeat split; try reflexivity; assumption.
Qed.

Lemma truthy_some (v : option string) :
  truthy v = true → ∃ s, v = Some s ∧ s ≠ EmptyString.
Proof. destruct v as [[|c s]|]; try discriminate. intros _. eexists. done. Qed.



(** The night above lasts 8.00 hours. *)
Example night_across_midnight :
  hours_between (DateTime (Date 2024 5 13) 23 0) (DateTime (Date 2024 5 14) 7 0)
  = cents 800.
Proof. apply Qc_is_canon. vm_compute. reflexivity. Qed.

Lemma bmi_of_ok (w h : Qc) :
  (0 < h)%Qc → bmi_of w h = Ok (bmi_formula w h).
Proof.
  intros Hh. unfold bmi_of, PyNum.div, PyNum.square, bmi_formula.
  destruct (decide _) as [E|_]; [exfalso|reflexivity].
  apply Qcmult_integral in E.
  assert (h / PyNum.of_Z 100 = 0 → False)%Qc as Hne; [|tauto].
  intros E'. apply (f_equal (λ x, x * PyNum.of_Z 100)%Qc) in E'.
  unfold Qcdiv in E'. rewrite <- Qcmult_assoc in E'.
  rewrite (Qcmult_comm (/ _)), Qcmult_inv_r in E' by discriminate.
  rewrite Qcmult_1_r, Qcmult_0_l in E'. subst h.
  apply (Qclt_not_eq _ _ Hh). reflexivity.
Qed.



Lemma sleep_times_fails (s e : string) :
  (∃ err, to_dt s = Raise err)
  ∨ (∃ err, to_dt e = Raise err)
  ∨ (∃ a b, to_dt s = Ok a ∧ to_dt e = Ok b
            ∧ ((∃ err, sleep_end_taken a b = Raise err)
               ∨ ∃ b', sleep_end_taken a b = Ok b'
                       ∧ PyDateTime.minutes b' ≤ PyDateTime.minutes a)) →
  ∃ err, sleep_times s e = Raise err.
Proof.
  intros H. unfold sleep_times.
  destruct (to_dt s) as [a|err] eqn:Es; [|eexists; reflexivity].
  rewrite bind_Ok.
  destruct (to_dt e) as [b|err] eqn:Ee; [|eexists; reflexivity].
  rewrite bind_Ok. fold (sleep_end_taken a b).
  destruct H as [[err H]|[[err H]|(a' & b' & Ha & Hb & H)]];
    [discriminate H..|].
  injection Ha as <-. injection Hb as <-.
  destruct H as [[err H]|(b' & H & Hle)]; rewrite H.
  - eexists; reflexivity.
  - rewrite bind_Ok. fold (hours_between a b').
    assert (PyNum.leb (hours_between a b') (PyNum.of_Z 0) = true) as ->;
      [|eexists; reflexivity].
    unfold PyNum.leb. apply bool_decide_eq_true_2.
    apply Qcnot_lt_le. intros Hpos. apply hours_positive in Hpos. lia.
Qed.

Lemma iso_is_strptime (s : string) :
  RangeSpec.iso_date_string s → RangeSpec.strptime_date_string s.
Proof.
  intros (d & Hv & ->).
  exists d, (Fmt.pad2 (month d)), (Fmt.pad2 (day d)).
  split; [exact Hv|]. unfold RangeSpec.month_texts, RangeSpec.day_texts.
  split; [destruct (month d <? 10); set_solver|].
  split; [destruct (day d <? 10); set_solver|].
  reflexivity.
Qed.




End FormFacts.

(** ** The BMI example in binary64

    The quotient that Python computes for 70 kg and 175 cm, in the
    machine's own arithmetic: [175 / 100.0] is 1.75 and its square
    3.0625, both exact, and the quotient lies between two binary
    fractions that are themselves between 22.855 and 22.865, so that
    [round(_, 2)] gives 22.86 there as it does on the rationals. *)

Module Binary64.
Import PrimFloat.

Example height_squared_exact : ((175 / 100) * (175 / 100))%float = 3.0625%float.
Proof. vm_compute. reflexivity. Qed.

Example bmi_quotient_rounds_to_22_86 :
  let q := (70 / ((175 / 100) * (175 / 100)))%float in
  (PrimFloat.ltb 22.85546875 q && PrimFloat.ltb q 22.8642578125)%bool = true.
Proof. vm_compute. reflexivity. Qed.

End Binary64.

(** ** Properties of the chart aggregation *)

Module AggFacts.
Import Agg Samples.

Local Open Scope Qc_scope.

Lemma sum_Q_cons (x : Qc) (l : list Qc) : sum_Q (x :: l) = x + sum_Q l.
Proof. reflexivity. Qed.

Section Groups.
Context {K : Type} `{EqDecision K}.
Variable key : cell → K.

(** The sum of one group: [SUM(value)] over the rows with that key. *)
Definition group_sum (kept : list cell) (g : K) : Qc :=
  sum_Q (map cell_value (filter (λ c, key c = g) kept)).

Lemma group_sum_cons (c : cell) (kept : list cell) (g : K) :
  group_sum (c :: kept) g
  = (if decide (key c = g) then cell_value c else Q2Qc 0) + group_sum kept g.
Proof.
  unfold group_sum. rewrite filter_cons.
  destruct (decide (key c = g)); simpl; [reflexivity|ring].
Qed.

(** A value counted once, in the group of its key. *)
Lemma one_group (k : K) (x : Qc) (labels : list K) :
  NoDup labels → k ∈ labels →
  sum_Q (map (λ g, if decide (k = g) then x else Q2Qc 0) labels) = x.
Proof.
  induction labels as [|g labels IH]; intros Hnd Hin.
  - inversion Hin.
  - apply NoDup_cons in Hnd as [Hg Hnd]. simpl map. rewrite sum_Q_cons.
    destruct (decide (k = g)) as [->|Hne].
    + assert (sum_Q (map (λ g0, if decide (g = g0) then x else Q2Qc 0) labels)
              = Q2Qc 0) as ->; [|ring].
      clear IH Hin Hnd. induction labels as [|h labels IH]; [reflexivity|].
      simpl map. rewrite sum_Q_cons.
      destruct (decide (g = h)) as [->|_]; [exfalso; apply Hg; left|].
      rewrite IH; [ring|]. intros H. apply Hg. right. exact H.
    + apply elem_of_cons in Hin as [->|Hin]; [congruence|].
      rewrite (IH Hnd Hin). ring.
Qed.

(** Summing the groups sums every kept row once. *)
Lemma groups_partition (kept : list cell) (labels : list K) :
  NoDup labels → (∀ c, c ∈ kept → key c ∈ labels) →
  sum_Q (map (group_sum kept) labels) = sum_Q (map cell_value kept).
Proof.
  intros Hnd. induction kept as [|c kept IH]; intros Hall.
  - unfold group_sum. simpl. clear Hall Hnd.
    induction labels as [|g labels IHl]; [reflexivity|].
    simpl map. rewrite sum_Q_cons, IHl. ring.
  - simpl map. rewrite sum_Q_cons.
    rewrite <- IH by (intros c' Hc'; apply Hall; right; exact Hc').
    rewrite <- (one_group (key c) (cell_value c) labels Hnd)
      at 1 by (apply Hall; left).
    clear IH Hall Hnd. induction labels as [|g labels IHl]; [simpl; ring|].
    simpl map. rewrite !sum_Q_cons, group_sum_cons, IHl. ring.
Qed.

End Groups.

Section Aggregate.
Variable sqlite_date : string → option date.
Import AggSpec.

Lemma agg_where_matching (uid : Z) (start end_ : option date) (all : list cell) :
  agg_where sqlite_date uid (start, end_) all
  = matching sqlite_date uid start end_ all.
Proof.
  unfold agg_where, matching. apply list_filter_iff. intros c.
  unfold agg_keeps, in_filter. rewrite andb_true_iff, bool_decide_eq_true.
  destruct start, end_; tauto.
Qed.

Lemma matching_open (uid : Z) (start end_ : option date) (all : list cell) :
  start = None ∨ end_ = None →
  matching sqlite_date uid start end_ all = of_user uid all.
Proof.
  intros H. unfold matching, of_user. apply list_filter_iff. intros c.
  unfold in_filter. destruct H as [-> | ->]; [|destruct start]; tauto.
Qed.


End Aggregate.


(** Without the filter the same store gives all three of the user's
    meals, in two groups. *)
Example unfiltered_sum_is_total :
  ∃ values,
    aggregate_query SqliteDate.read_iso (meal_calories may_and_june) 1
      None None "month"
    = ([Some "2024-05"; Some "2024-06"], values)
    ∧ sum_Q values = PyNum.of_Z 350.
Proof.
  eexists. split; [vm_compute; reflexivity|].
  apply Qc_is_canon. vm_compute. reflexivity.
Qed.

End AggFacts.

(** ** Properties of the dashboard *)

Module DashFacts.
Import DashSpec FormSpec Samples.

(** [ORDER BY k DESC, id DESC] is a total preorder. *)
Lemma ltb_lt (a b : string) :
  String.ltb a b = true ↔ OrderedTypeEx.String_as_OT.lt a b.
Proof.
  rewrite <- OrderedTypeEx.String_as_OT.cmp_lt.
  unfold String.ltb, OrderedTypeEx.String_as_OT.cmp.
  destruct (String.compare a b); split; intros H; congruence.
Qed.

Global Instance newer_first_total {A} (k : A → string) (id : A → Z) :
  Total (Sql.newer_first k id).
Proof.
  intros a b. unfold Sql.newer_first, String.ltb.
  pose proof (String.compare_antisym (k a) (k b)) as Hanti.
  pose proof (String.compare_eq_iff (k a) (k b)) as Heq.
  destruct (String.compare (k a) (k b)) eqn:E1;
    destruct (String.compare (k b) (k a)) eqn:E2; simpl in Hanti;
    try discriminate Hanti.
  - assert (k a = k b) as Hk by (apply Heq; reflexivity).
    destruct (Z_le_gt_dec (id b) (id a)); [left|right]; right; split;
      auto; lia.
  - right. left. reflexivity.
  - left. left. reflexivity.
Qed.

Global Instance newer_first_trans {A} (k : A → string) (id : A → Z) :
  Transitive (Sql.newer_first k id).
Proof.
  intros a b c. unfold Sql.newer_first. rewrite !ltb_lt.
  intros [H1|[E1 H1]] [H2|[E2 H2]].
  - left. eapply OrderedTypeEx.String_as_OT.lt_trans; eassumption.
  - left. rewrite E2 in H1. exact H1.
  - left. rewrite E1. exact H2.
  - right. split; [congruence|lia].
Qed.

Lemma newer_first_refl {A} (k : A → string) (id : A → Z) (a : A) :
  Sql.newer_first k id a a.
Proof. right. split; [reflexivity|lia]. Qed.

(** [ORDER BY ... LIMIT 1] gives a row that none is newer than. *)
Lemma order_by_desc_head {A} (k : A → string) (id : A → Z) (l : list A) (x : A) :
  head (Sql.order_by_desc k id l) = Some x →
  x ∈ l ∧ ∀ y, y ∈ l → Sql.newer_first k id x y.
Proof.
  unfold Sql.order_by_desc. intros H.
  pose proof (StronglySorted_merge_sort (Sql.newer_first k id) l) as Hs.
  pose proof (merge_sort_Permutation (Sql.newer_first k id) l) as Hp.
  apply head_Some in H as [l' E]. rewrite E in Hs, Hp.
  inversion Hs as [|? ? _ Hall]; subst.
  split.
  - rewrite <- Hp. left.
  - intros y Hy. rewrite <- Hp in Hy. apply elem_of_cons in Hy as [->|Hy].
    + apply newer_first_refl.
    + rewrite Forall_forall in Hall. apply Hall. exact Hy.
Qed.

Lemma order_by_desc_nonempty {A} (k : A → string) (id : A → Z) (l : list A) (y : A) :
  y ∈ l → ∃ x, head (Sql.order_by_desc k id l) = Some x.
Proof.
  unfold Sql.order_by_desc. intros Hy.
  pose proof (merge_sort_Permutation (Sql.newer_first k id) l) as Hp.
  destruct (merge_sort (Sql.newer_first k id) l) as [|x l'] eqn:E.
  - rewrite <- Hp in Hy. inversion Hy.
  - exists x. reflexivity.
Qed.

Section Dashboard.
Variable sqlite_date : string → option date.

Lemma latest_weight_spec (st : store) (uid : Z) (w : WeightLog.t) :
  latest_weight st uid = Some w → is_latest_weight st uid w.
Proof.
  unfold latest_weight, is_latest_weight. intros H.
  apply order_by_desc_head in H as [Hin Hall].
  unfold Sql.of_user in *. apply list_elem_of_filter in Hin as [Hu Hin].
  split; [exact Hin|]. split; [exact Hu|].
  intros w' Hw' Hu'. apply Hall. apply list_elem_of_filter. done.
Qed.

Lemma latest_weight_exists (st : store) (uid : Z) (w0 : WeightLog.t) :
  w0 ∈ rows (weight_logs st) → WeightLog.user_id w0 = uid →
  ∃ w, latest_weight st uid = Some w.
Proof.
  intros Hin Hu. unfold latest_weight.
  apply (order_by_desc_nonempty _ _ _ w0).
  unfold Sql.of_user. apply list_elem_of_filter. done.
Qed.

Lemma ensure_goals_row_present (st : store) (uid : Z) (now : string)
    (i : nat) (g : Goal.t) :
  list_find (λ g, Goal.user_id g = uid) (rows (goals st)) = Some (i, g) →
  ensure_goals_row st uid now = st.
Proof. intros H. unfold ensure_goals_row. rewrite H. reflexivity. Qed.


End Dashboard.

Lemma filter_iff_on {A} (P1 P2 : A → Prop)
    `{!∀ x, Decision (P1 x), !∀ x, Decision (P2 x)} (l : list A) :
  (∀ x, x ∈ l → (P1 x ↔ P2 x)) → filter P1 l = filter P2 l.
Proof.
  induction l as [|a l IH]; intros Hiff; [reflexivity|].
  rewrite !filter_cons.
  rewrite IH by (intros x Hx; apply Hiff; right; exact Hx).
  pose proof (Hiff a ltac:(left)) as Ha.
  destruct (decide (P1 a)), (decide (P2 a)); tauto || reflexivity.
Qed.

(** Without a record dated after today, the dashboard's average is the
    mean over the trailing week. *)
Lemma avg_sleep_without_future (sqlite_date : string → option date)
    (st : store) (uid : Z) (today : date) (now : string) :
  (∀ r d, r ∈ rows (sleep_logs st) → SleepLog.user_id r = uid →
          sql_DATE sqlite_date (SleepLog.sleep_end r) = Some d →
          String.leb d (SqliteDate.fmt_ymd today) = true) →
  avg_sleep (dashboard sqlite_date st uid today today now).2
  = trailing_week_mean sqlite_date st uid today.
Proof.
  intros Hpast. unfold dashboard, trailing_week_mean, sleep_in_trailing_week.
  cbv zeta. cbn [snd avg_sleep].
  match goal with
  | |- context [filter ?P (rows (sleep_logs st))] =>
      match P with
      | context [Agg.at_least] =>
          assert (filter P (rows (sleep_logs st))
                  = filter (λ r, SleepLog.user_id r = uid
                     ∧ Agg.between (sql_DATE sqlite_date (SleepLog.sleep_end r))
                         (SqliteDate.fmt_ymd (SqliteDate.days_before today 6))
                         (SqliteDate.fmt_ymd today) = true)
                      (rows (sleep_logs st))) as ->
      end
  end.
  { apply filter_iff_on. intros r Hr.
    unfold Agg.at_least, Agg.between.
    destruct (sql_DATE sqlite_date (SleepLog.sleep_end r)) as [d|] eqn:E;
      [|tauto].
    split; intros [Hu H]; (split; [exact Hu|]).
    - rewrite H, (Hpast r d Hr Hu E). reflexivity.
    - apply andb_prop in H as [H _]. exact H. }
  destruct (filter _ _); reflexivity.
Qed.



(** C7 on the code: a sleep record dated after today is averaged with
    the others.  With 8 hours ending yesterday and 2 hours ending a
    month ahead, both accepted by the sleep form, the dashboard shows
    5.00 where the mean over the trailing week is 8.00. *)
Theorem future_sleep_is_averaged :
  map (λ r, (SleepLog.sleep_end r, SleepLog.duration_hours r))
      (rows (sleep_logs two_nights))
  = [("2024-05-14 07:00:00", cents 800); ("2024-06-14 01:00:00", cents 200)]
  ∧ avg_sleep (dashboard SqliteDate.read_iso two_nights 1 (Date 2024 5 15)
                 (Date 2024 5 15) "2024-05-15T20:00:00").2 = cents 500
  ∧ trailing_week_mean SqliteDate.read_iso two_nights 1 (Date 2024 5 15)
    = cents 800
  ∧ cents 500 ≠ cents 800.
Proof.
  split; [vm_compute; reflexivity|].
  split; [vm_compute; reflexivity|].
  split; [vm_compute; reflexivity|].
  discriminate.
Qed.

End DashFacts.

(** ** Dates as text: order and round trip *)

Module DateTextFacts.
Import Calendar CalendarFacts PyDate PyDateFacts TextChecks.

Lemma compare_app (a b s t : string) :
  String.length a = String.length b →
  String.compare (a +:+ s) (b +:+ t)
  = match String.compare a b with
    | Eq => String.compare s t
    | c => c
    end.
Proof.
  revert b. induction a as [|c a IH]; intros [|c' b] Hl; try discriminate Hl.
  - reflexivity.
  - simpl in *. destruct (Ascii.compare c c'); try reflexivity.
    apply IH. congruence.
Qed.

Lemma append_assoc (a b c : string) : (a +:+ b) +:+ c = a +:+ (b +:+ c).
Proof.
  induction a as [|x a IH]; [reflexivity|].
  change (String x ((a +:+ b) +:+ c) = String x (a +:+ (b +:+ c))).
  f_equal. exact IH.
Qed.

Lemma pad2_compare (a b : Z) :
  0 ≤ a < 100 → 0 ≤ b < 100 →
  String.compare (Fmt.pad2 a) (Fmt.pad2 b) = (a ?= b).
Proof.
  intros Ha Hb.
  assert (pad2_table_ok = true) as H by (vm_compute; reflexivity).
  unfold pad2_table_ok in H. rewrite forallb_forall in H.
  specialize (H a). rewrite forallb_forall in H.
  eapply bool_decide_eq_true_1, H.
  - apply list_elem_of_In, elem_of_seqZ. lia.
  - apply list_elem_of_In, elem_of_seqZ. lia.
Qed.

Lemma pad4_split (y : Z) :
  Fmt.pad4 y = Fmt.pad2 (y / 100) +:+ Fmt.pad2 (y mod 100).
Proof.
  unfold Fmt.pad4, Fmt.pad2. simpl.
  repeat (apply (f_equal2 String); [apply StrptimeFacts.digit_eq|]);
    try reflexivity.
  - rewrite Z.div_div by lia. reflexivity.
  - Z.div_mod_to_equations; lia.
  - Z.div_mod_to_equations; lia.
Qed.

(** The rank of a date among dates written [YYYY-MM-DD]. *)
Lemma ymd_compare (a b : date) :
  valid a → valid b →
  String.compare (Fmt.ymd a) (Fmt.ymd b)
  = match year a ?= year b with
    | Eq => match month a ?= month b with
            | Eq => day a ?= day b
            | c => c
            end
    | c => c
    end.
Proof.
  intros (Hya & Hma & Hda) (Hyb & Hmb & Hdb). unfold MINYEAR, MAXYEAR in *.
  pose proof (days_in_month_range (year a) _ Hma).
  pose proof (days_in_month_range (year b) _ Hmb).
  unfold Fmt.ymd. rewrite !pad4_split, !append_assoc.
  rewrite compare_app, pad2_compare by (reflexivity || Z.div_mod_to_equations; lia).
  rewrite compare_app, pad2_compare by (reflexivity || Z.div_mod_to_equations; lia).
  rewrite (compare_app "-" "-") by reflexivity. simpl (String.compare "-" "-").
  rewrite compare_app, pad2_compare by (reflexivity || lia).
  rewrite (compare_app "-" "-") by reflexivity. simpl (String.compare "-" "-").
  rewrite pad2_compare by lia.
  destruct (Z.compare_spec (year a / 100) (year b / 100)),
    (Z.compare_spec (year a mod 100) (year b mod 100)),
    (Z.compare_spec (year a) (year b)); try reflexivity;
    exfalso; Z.div_mod_to_equations; lia.
Qed.

Lemma days_before_month_mono (y m m' : Z) :
  1 ≤ m → m < m' → m' ≤ 12 →
  days_before_month y m + days_in_month y m ≤ days_before_month y m'.
Proof.
  intros H1 H2 H3.
  assert (∃ k, 0 ≤ k ∧ m' = m + 1 + k) as (k & Hk & ->) by (exists (m' - m - 1); lia).
  revert H2 H3. pattern k. apply (natlike_ind _); [|intros j Hj IH|exact Hk].
  - intros _ H. rewrite Z.add_0_r, days_before_next_month by lia. lia.
  - intros _ H. replace (m + 1 + Z.succ j) with (m + 1 + j + 1) by lia.
    rewrite days_before_next_month by lia.
    pose proof (days_in_month_range y (m + 1 + j) ltac:(lia)). lia.
Qed.

Lemma toordinal_lt (a b : date) :
  valid a → valid b →
  year a < year b
  ∨ (year a = year b ∧ (month a < month b
                        ∨ (month a = month b ∧ day a < day b))) →
  toordinal a < toordinal b.
Proof.
  intros (Hya & Hma & Hda) (Hyb & Hmb & Hdb) H. unfold MINYEAR in *.
  pose proof (day_of_year_bounds _ _ _ Hma Hda) as Ba.
  pose proof (day_of_year_bounds _ _ _ Hmb Hdb) as Bb.
  unfold toordinal, ymd2ord.
  destruct H as [H|[Hy [H|[Hm H]]]].
  - pose proof (days_before_year_succ (year a)).
    pose proof (days_before_year_mono (year a + 1) (year b) ltac:(lia)). lia.
  - rewrite Hy in *.
    pose proof (days_before_month_mono (year b) _ _ (proj1 Hma) H (proj2 Hmb)). lia.
  - rewrite Hy, Hm. lia.
Qed.

Lemma ymd_leb (a b : date) :
  valid a → valid b →
  (String.leb (Fmt.ymd a) (Fmt.ymd b) = true ↔ le a b).
Proof.
  intros Ha Hb. unfold String.leb, le. rewrite (ymd_compare a b Ha Hb).
  destruct (Z.compare_spec (year a) (year b)) as [Hy|Hy|Hy];
    [destruct (Z.compare_spec (month a) (month b)) as [Hm|Hm|Hm];
       [destruct (Z.compare_spec (day a) (day b)) as [Hd|Hd|Hd]|..]|..].
  - destruct a, b; simpl in *; subst. split; [lia|reflexivity].
  - pose proof (toordinal_lt a b Ha Hb ltac:(lia)). split; [lia|reflexivity].
  - pose proof (toordinal_lt b a Hb Ha ltac:(lia)). split; [discriminate|lia].
  - pose proof (toordinal_lt a b Ha Hb ltac:(lia)). split; [lia|reflexivity].
  - pose proof (toordinal_lt b a Hb Ha ltac:(lia)). split; [discriminate|lia].
  - pose proof (toordinal_lt a b Ha Hb ltac:(lia)). split; [lia|reflexivity].
  - pose proof (toordinal_lt b a Hb Ha ltac:(lia)). split; [discriminate|lia].
Qed.

Lemma ymd_inj (a b : date) :
  valid a → valid b → Fmt.ymd a = Fmt.ymd b → a = b.
Proof.
  intros Ha Hb E. apply toordinal_inj; [assumption..|].
  pose proof (proj1 (ymd_leb a b Ha Hb)) as H1.
  pose proof (proj1 (ymd_leb b a Hb Ha)) as H2.
  rewrite E in H1. rewrite <- E in H2 at 1. unfold le in *.
  assert (String.leb (Fmt.ymd b) (Fmt.ymd b) = true) as R.
  { unfold String.leb. pose proof (String.compare_antisym (Fmt.ymd b) (Fmt.ymd b)) as C.
    destruct (String.compare (Fmt.ymd b) (Fmt.ymd b)); reflexivity || discriminate C. }
  specialize (H1 R). rewrite E in H2. specialize (H2 R). lia.
Qed.

Lemma pad2_texts (m d : Z) :
  Fmt.pad2 m ∈ RangeSpec.month_texts m ∧ Fmt.pad2 d ∈ RangeSpec.day_texts d.
Proof.
  unfold RangeSpec.month_texts, RangeSpec.day_texts.
  split; [destruct (m <? 10)|destruct (d <? 10)]; set_solver.
Qed.

(** X1.  [parse_date] reads back what [fmt_day] writes: for every date
    [d] from year 1000 on (where [%Y] writes four digits),
    [parse_date(fmt_day(d)) == d]. *)
Theorem parse_date_fmt_day (d : date) :
  valid d → 1000 ≤ year d → parse_date (fmt_day d) = Ok d.
Proof.
  intros Hv _. unfold fmt_day, Fmt.ymd.
  destruct (pad2_texts (month d) (day d)) as [Hm Hd].
  apply StrptimeFacts.parse_date_complete; assumption.
Qed.

Lemma parse_date_fmt_day_witness :
  parse_date (fmt_day (Date 2024 2 29)) = Ok (Date 2024 2 29).
Proof.
  apply (parse_date_fmt_day (Date 2024 2 29)).
  - unfold valid; simpl; vm_compute; intuition discriminate.
  - simpl; lia.
Defined.

(** X2.  The date filter of [aggregate_query] compares texts, and
    keeps the rows of the calendar range: with both bounds given (dates
    from year 1000 on), a row whose date column SQLite reads as the
    date [d] is kept exactly when it is the user's and
    [start <= d <= end]; a row whose date SQLite cannot read is
    dropped. *)
Theorem range_filter_keeps_calendar_range (sqlite_date : string → option date)
    (uid : Z) (s e : date) (c : cell) :
  valid s → valid e → 1000 ≤ year s → 1000 ≤ year e →
  (∀ d, sqlite_date (cell_date c) = Some d → valid d →
        (agg_keeps sqlite_date uid (Some s, Some e) c = true
         ↔ cell_user c = uid ∧ le s d ∧ le d e))
  ∧ (sqlite_date (cell_date c) = None →
     agg_keeps sqlite_date uid (Some s, Some e) c = false).
Proof.
  intros Hs He _ _. unfold agg_keeps, sql_DATE, Agg.between, fmt_day.
  split.
  - intros d -> Hd. simpl. unfold SqliteDate.fmt_ymd.
    rewrite andb_true_iff, bool_decide_eq_true, andb_true_iff.
    rewrite (ymd_leb s d Hs Hd), (ymd_leb d e Hd He). reflexivity.
  - intros ->. simpl. apply andb_false_r.
Qed.

Lemma range_filter_keeps_calendar_range_witness :
  agg_keeps SqliteDate.read_iso 1 (Some (Date 2024 5 1), Some (Date 2024 5 31))
    (Cell 1 "2024-05-31 07:00:00" (PyNum.of_Z 8)) = true
  ↔ 1 = 1 ∧ le (Date 2024 5 1) (Date 2024 5 31)
    ∧ le (Date 2024 5 31) (Date 2024 5 31).
Proof.
  apply (proj1 (range_filter_keeps_calendar_range SqliteDate.read_iso 1
                  (Date 2024 5 1) (Date 2024 5 31)
                  (Cell 1 "2024-05-31 07:00:00" (PyNum.of_Z 8))
                  ltac:(unfold valid; simpl; vm_compute; intuition discriminate)
                  ltac:(unfold valid; simpl; vm_compute; intuition discriminate)
                  ltac:(simpl; lia) ltac:(simpl; lia)) (Date 2024 5 31)).
  - vm_compute. reflexivity.
  - unfold valid; simpl; vm_compute; intuition discriminate.
Defined.

Lemma append_inj (a b s t : string) :
  String.length a = String.length b → a +:+ s = b +:+ t → a = b ∧ s = t.
Proof.
  revert b. induction a as [|c a IH]; intros [|c' b] Hl E; try discriminate Hl.
  - split; [reflexivity|exact E].
  - change (String c (a +:+ s) = String c' (b +:+ t)) in E.
    injection E as -> E. simpl in Hl.
    destruct (IH b ltac:(congruence) E) as [-> ->]. split; reflexivity.
Qed.

Lemma compare_refl (s : string) : String.compare s s = Eq.
Proof.
  pose proof (String.compare_antisym s s) as C.
  destruct (String.compare s s); reflexivity || discriminate C.
Qed.

Lemma pad2_inj (a b : Z) :
  0 ≤ a < 100 → 0 ≤ b < 100 → Fmt.pad2 a = Fmt.pad2 b → a = b.
Proof.
  intros Ha Hb E. apply Z.compare_eq. rewrite <- (pad2_compare a b Ha Hb), E.
  apply compare_refl.
Qed.

Lemma pad4_inj (a b : Z) :
  0 ≤ a < 10000 → 0 ≤ b < 10000 → Fmt.pad4 a = Fmt.pad4 b → a = b.
Proof.
  intros Ha Hb E. rewrite !pad4_split in E.
  apply append_inj in E as [E1 E2]; [|reflexivity].
  apply pad2_inj in E1; [|Z.div_mod_to_equations; lia..].
  apply pad2_inj in E2; [|Z.div_mod_to_equations; lia..].
  Z.div_mod_to_equations; lia.
Qed.

Lemma week_of_year_range (d : date) :
  valid d → 0 ≤ SqliteDate.week_of_year d < 54.
Proof.
  intros (Hy & Hm & Hd). unfold SqliteDate.week_of_year, weekday, toordinal.
  cbn [year month day]. unfold ymd2ord.
  pose proof (day_of_year_bounds _ _ _ Hm Hd) as B.
  assert (days_before_month (year d) 1 = 0) as E1 by reflexivity.
  rewrite E1.
  destruct (is_leap (year d)); Z.div_mod_to_equations; lia.
Qed.

(** The week of the year tells the Monday of the week, within a year. *)
Lemma week_of_year_monday (a b : date) :
  valid a → valid b → year a = year b →
  (SqliteDate.week_of_year a = SqliteDate.week_of_year b
   ↔ toordinal a - weekday a = toordinal b - weekday b).
Proof.
  intros _ _ Hy. unfold SqliteDate.week_of_year, weekday. rewrite Hy.
  set (J := toordinal (Date (year b) 1 1)).
  set (x := toordinal a). set (y := toordinal b).
  split; intros H; Z.div_mod_to_equations; lia.
Qed.

(** X3.  The group labels of the charts tell the calendar periods
    apart: for two rows whose dates SQLite reads, the day labels are
    equal exactly for the same date, the month labels for the same
    month of the same year, and the week labels for the same year and
    the same Monday-to-Sunday week (so a week across New Year has two
    labels). *)
Theorem group_labels_identify_periods (sqlite_date : string → option date)
    (x y : string) (a b : date) :
  sqlite_date x = Some a → sqlite_date y = Some b → valid a → valid b →
  (∀ g, g ≠ "month" → g ≠ "week" →
        (group_key sqlite_date g x = group_key sqlite_date g y ↔ a = b))
  ∧ (group_key sqlite_date "month" x = group_key sqlite_date "month" y
     ↔ year a = year b ∧ month a = month b)
  ∧ (group_key sqlite_date "week" x = group_key sqlite_date "week" y
     ↔ year a = year b
       ∧ toordinal a - weekday a = toordinal b - weekday b).
Proof.
  intros Ex Ey Ha Hb. unfold group_key. rewrite Ex, Ey.
  assert (0 ≤ year a < 10000 ∧ 0 ≤ year b < 10000) as [Ya Yb]
    by (destruct Ha as [? _], Hb as [? _]; unfold MINYEAR, MAXYEAR in *; lia).
  split; [|split].
  - intros g Hm Hw. apply String.eqb_neq in Hm, Hw. rewrite Hm, Hw. simpl.
    split; [|intros ->; reflexivity].
    intros E. apply (inj Some) in E. apply ymd_inj; assumption.
  - simpl. unfold SqliteDate.fmt_ym. split.
    + intros E. apply (inj Some) in E.
      apply append_inj in E as [E1 E2]; [|reflexivity].
      apply pad4_inj in E1; [|assumption..].
      apply (append_inj "-" "-") in E2 as [_ E2]; [|reflexivity].
      apply pad2_inj in E2; [tauto|destruct Ha as (_ & ? & _); lia
                             |destruct Hb as (_ & ? & _); lia].
    + intros [-> ->]. reflexivity.
  - simpl. unfold SqliteDate.fmt_yW.
    pose proof (week_of_year_range a Ha). pose proof (week_of_year_range b Hb).
    split.
    + intros E. apply (inj Some) in E.
      apply append_inj in E as [E1 E2]; [|reflexivity].
      apply pad4_inj in E1; [|assumption..].
      apply (append_inj "-W" "-W") in E2 as [_ E2]; [|reflexivity].
      apply pad2_inj in E2; [|lia..].
      split; [exact E1|]. apply week_of_year_monday; assumption.
    + intros [Hy Hw]. apply week_of_year_monday in Hw; [|assumption..].
      rewrite Hy, Hw. reflexivity.
Qed.

Lemma group_labels_identify_periods_witness :
  group_key SqliteDate.read_iso "week" "2024-12-30"
  = group_key SqliteDate.read_iso "week" "2025-01-01"
  ↔ year (Date 2024 12 30) = year (Date 2025 1 1)
    ∧ toordinal (Date 2024 12 30) - weekday (Date 2024 12 30)
      = toordinal (Date 2025 1 1) - weekday (Date 2025 1 1).
Proof.
  apply (group_labels_identify_periods SqliteDate.read_iso
           "2024-12-30" "2025-01-01" (Date 2024 12 30) (Date 2025 1 1)).
  - vm_compute. reflexivity.
  - vm_compute. reflexivity.
  - unfold valid; simpl; vm_compute; intuition discriminate.
  - unfold valid; simpl; vm_compute; intuition discriminate.
Defined.

Lemma add_days_inv (d r : date) (k : Z) :
  add_days d k = Ok r →
  1 ≤ toordinal d + k ≤ MAXORDINAL ∧ r = fromordinal (toordinal d + k).
Proof.
  unfold add_days.
  destruct (0 <? toordinal d + k) eqn:E1; [|discriminate].
  destruct (toordinal d + k <=? MAXORDINAL) eqn:E2; [|discriminate].
  simpl. intros [= <-]. split; [lia|reflexivity].
Qed.

(** X4.  A week has one range: when [start_end_from_range("week")]
    gives [(start, end)] today, it gives the same pair on every day
    from [start] to [end]. *)
Theorem week_range_shared (today d s e : date)
    (start_str end_str start_str' end_str' : option string) :
  valid today → valid d →
  start_end_from_range today "week" start_str end_str = Ok (Some s, Some e) →
  le s d → le d e →
  start_end_from_range d "week" start_str' end_str' = Ok (Some s, Some e).
Proof.
  intros Ht Hd. unfold start_end_from_range, sub_days.
  change (String.eqb "week" "today") with false.
  change (String.eqb "week" "week") with true. cbv iota.
  destruct (add_days today (- weekday today)) as [s0|] eqn:E1; [|discriminate].
  rewrite bind_Ok.
  destruct (add_days s0 6) as [e0|] eqn:E2; [|discriminate].
  rewrite bind_Ok. intros [= <- <-] Hs He.
  apply add_days_inv in E1 as [R1 ->].
  destruct (fromordinal_valid _ R1) as [_ O1].
  apply add_days_inv in E2 as [R2 ->]. rewrite O1 in R2.
  destruct (fromordinal_valid _ R2) as [_ O2].
  unfold le in Hs, He. rewrite O1 in *. rewrite O2 in He.
  unfold weekday in *.
  set (o := toordinal today) in *. set (x := toordinal d) in *.
  assert (x + - ((x + 6) mod 7) = o + - ((o + 6) mod 7)) as E
    by (Z.div_mod_to_equations; lia).
  rewrite add_days_ok by (fold x; rewrite E; lia).
  fold x. rewrite E, bind_Ok.
  rewrite add_days_ok by (rewrite O1; lia).
  rewrite O1, bind_Ok. reflexivity.
Qed.

Lemma week_range_shared_witness :
  start_end_from_range (Date 2024 5 19) "week" None None
  = Ok (Some (Date 2024 5 13), Some (Date 2024 5 19)).
Proof.
  apply (week_range_shared (Date 2024 5 15) (Date 2024 5 19)
           (Date 2024 5 13) (Date 2024 5 19) None None None None).
  - unfold valid; simpl; vm_compute; intuition discriminate.
  - unfold valid; simpl; vm_compute; intuition discriminate.
  - vm_compute. reflexivity.
  - vm_compute. discriminate.
  - vm_compute. discriminate.
Defined.
End DateTextFacts.

(** ** What [to_dt] reads *)

Module ToDtFacts.
Import PyStr Strptime FieldChecks SleepSpec StrptimeFacts.

Lemma match_classes_app (a : list (ascii → bool)) (p rest : list ascii) :
  match match_classes a p with
  | Some (m, q) => match_classes a (p ++ rest) = Some (m, q ++ rest)
  | None => (length a ≤ length p)%nat → match_classes a (p ++ rest) = None
  end.
Proof.
  revert p. induction a as [|c a IH]; intros p; simpl; [reflexivity|].
  destruct p as [|x p]; simpl; [lia|].
  destruct (c x); [|reflexivity].
  specialize (IH p). destruct (match_classes a p) as [[m q]|].
  - rewrite IH. reflexivity.
  - intros Hl. rewrite IH by lia. reflexivity.
Qed.

Lemma first_full_spec {R} alts (p rest : list ascii)
    (k : list ascii → list ascii → option R) (r : R) :
  first_full alts p = true → k p rest = Some r →
  first_alt alts (p ++ rest) k = Some r.
Proof.
  intros Hf Hk. induction alts as [|a alts IH]; [discriminate|].
  simpl in *. pose proof (match_classes_app a p rest) as Ha.
  destruct (match_classes a p) as [[m [|? ?]]|] eqn:E.
  - rewrite Ha. apply match_classes_inv in E as [E _].
    rewrite app_nil_r in E. subst m. simpl. rewrite Hk. reflexivity.
  - discriminate.
  - apply andb_true_iff in Hf as [Hl Hf]. apply Nat.leb_le in Hl.
    rewrite Ha by exact Hl. apply IH, Hf.
Qed.

Lemma run_padded (n : ascii) alts (lo hi v : Z) (r : list item)
    (rest : list ascii) (caps : captures) (e : list ascii) :
  padded_ok alts lo hi = true → lo ≤ v ≤ hi →
  run r rest = Some (caps, e) →
  run (Group n alts :: r) (chars (Fmt.pad2 v) ++ rest)
  = Some ((n, chars (Fmt.pad2 v)) :: caps, e)
  ∧ decimal (lstrip (chars (Fmt.pad2 v))) = v.
Proof.
  intros Hok Hv Hr. unfold padded_ok in Hok. rewrite forallb_forall in Hok.
  specialize (Hok v). rewrite andb_true_iff in Hok.
  destruct Hok as [Hf Hd]; [apply list_elem_of_In, elem_of_seqZ; lia|].
  split; [|lia].
  rewrite run_group. apply first_full_spec; [exact Hf|].
  rewrite Hr. reflexivity.
Qed.

Lemma padded_value alts (lo hi v : Z) :
  padded_ok alts lo hi = true → lo ≤ v ≤ hi →
  decimal (lstrip (chars (Fmt.pad2 v))) = v.
Proof.
  intros Hok Hv. unfold padded_ok in Hok. rewrite forallb_forall in Hok.
  specialize (Hok v). rewrite andb_true_iff in Hok.
  destruct Hok as [_ Hd]; [apply list_elem_of_In, elem_of_seqZ; lia|]. lia.
Qed.

Lemma months_padded :
  padded_ok [[is_char "1"; in_range "0" "2"]; [is_char "0"; in_range "1" "9"];
             [in_range "1" "9"]] 1 12 = true.
Proof. vm_compute. reflexivity. Qed.

Lemma days_padded :
  padded_ok [[is_char "3"; in_range "0" "1"]; [in_range "1" "2"; d09];
             [is_char "0"; in_range "1" "9"]; [in_range "1" "9"];
             [is_char " "; in_range "1" "9"]] 1 31 = true.
Proof. vm_compute. reflexivity. Qed.

Lemma hours_padded :
  padded_ok [[is_char "2"; in_range "0" "3"]; [in_range "0" "1"; d09]; [d09]]
    0 23 = true.
Proof. vm_compute. reflexivity. Qed.

Lemma minutes_padded :
  padded_ok [[in_range "0" "5"; d09]; [d09]] 0 59 = true.
Proof. vm_compute. reflexivity. Qed.

Lemma run_year_some (y : Z) (r : list item) (rest : list ascii)
    (caps : captures) (e : list ascii) :
  0 ≤ y ≤ 9999 → run r rest = Some (caps, e) →
  run (re_Y :: r) (chars (Fmt.pad4 y) ++ rest)
  = Some (("Y"%char, chars (Fmt.pad4 y)) :: caps, e).
Proof.
  intros Hy Hr. rewrite (proj1 (run_year y r rest Hy)), Hr. reflexivity.
Qed.

Lemma run_literal (x : ascii) (r : list item) (rest : list ascii) res :
  is_char (lower x) (lower x) = true →
  run r rest = res → run (Lit x :: r) (x :: rest) = res.
Proof. intros Hx <-. rewrite run_lit, Hx. reflexivity. Qed.

Lemma strip_id (s : string) :
  (∀ c, head (chars s) = Some c → is_space c = false) →
  (∀ c, last (chars s) = Some c → is_space c = false) →
  strip s = s.
Proof.
  intros Hh Hl. unfold strip.
  assert (∀ l, (∀ c, head l = Some c → is_space c = false) → lstrip l = l) as L.
  { intros [|c l] H; [reflexivity|]. simpl. rewrite (H c eq_refl). reflexivity. }
  rewrite (L _ Hh). unfold rstrip. rewrite L.
  - rewrite rev_involutive. apply text_chars.
  - intros c Hc. apply Hl. rewrite <- Hc, rev_alt. symmetry.
    exact (head_reverse (chars s)).
Qed.

Lemma digit_not_T (n : Z) : is_char "T" (Fmt.digit n) = false.
Proof.
  destruct (digit_is_digit n) as (Hd & _ & _).
  unfold is_char, is_digit in *. change (code "T") with 84. lia.
Qed.

(** The groups [strptime] finds in the text of a time. *)
Lemma run_time (t : datetime) (sep : item) (c : ascii) :
  valid_datetime t →
  (∀ r rest res, (∀ x l, rest = x :: l → is_space x = false) →
                 run r rest = res → run (sep :: r) (c :: rest) = res) →
  run (fmt_date ++ [sep; re_H; Lit ":"; re_M])
      (chars (local_text (String c EmptyString) t))
  = Some ([("Y"%char, chars (Fmt.pad4 (year (on t))));
           ("m"%char, chars (Fmt.pad2 (month (on t))));
           ("d"%char, chars (Fmt.pad2 (day (on t))));
           ("H"%char, chars (Fmt.pad2 (hour t)));
           ("M"%char, chars (Fmt.pad2 (minute t)))], []).
Proof.
  intros ((Hy & Hm & Hd) & Hh & Hmi) Hsep.
  unfold Calendar.MINYEAR, Calendar.MAXYEAR in Hy.
  pose proof (PyDateFacts.days_in_month_range (year (on t)) _ Hm) as Hdim.
  change (chars (local_text (String c EmptyString) t))
    with (chars (Fmt.pad4 (year (on t)))
          ++ "-"%char :: chars (Fmt.pad2 (month (on t)))
          ++ "-"%char :: chars (Fmt.pad2 (day (on t)))
          ++ c :: chars (Fmt.pad2 (hour t))
          ++ ":"%char :: chars (Fmt.pad2 (minute t)) ++ []).
  change (fmt_date ++ [sep; re_H; Lit ":"; re_M])
    with [re_Y; Lit "-"; re_m; Lit "-"; re_d; sep; re_H; Lit ":"; re_M].
  apply run_year_some; [lia|].
  apply run_literal; [reflexivity|].
  apply (run_padded "m" _ 1 12); [exact months_padded|lia|].
  apply run_literal; [reflexivity|].
  apply (run_padded "d" _ 1 31); [exact days_padded|lia|].
  apply Hsep.
  { intros x l [= <- _]. apply digit_is_digit. }
  apply (run_padded "H" _ 0 23); [exact hours_padded|lia|].
  apply run_literal; [reflexivity|].
  apply (run_padded "M" _ 0 59); [exact minutes_padded|lia|].
  reflexivity.
Qed.

Lemma to_dt_of_groups (t : datetime) (fmt : list item) (s : string) :
  valid_datetime t →
  run fmt (chars s)
  = Some ([("Y"%char, chars (Fmt.pad4 (year (on t))));
           ("m"%char, chars (Fmt.pad2 (month (on t))));
           ("d"%char, chars (Fmt.pad2 (day (on t))));
           ("H"%char, chars (Fmt.pad2 (hour t)));
           ("M"%char, chars (Fmt.pad2 (minute t)))], []) →
  (caps ← match_format fmt s;
   d ← PyDate.make (field caps "Y") (field caps "m") (field caps "d");
   Ok (DateTime d (field caps "H") (field caps "M"))) = Ok t.
Proof.
  intros ((Hy & Hm & Hd) & Hh & Hmi) Hrun.
  pose proof (PyDateFacts.days_in_month_range (year (on t)) _ Hm) as Hdim.
  unfold match_format. rewrite Hrun, bind_Ok.
  set (caps := [_; _; _; _; _]).
  assert (field caps "Y" = year (on t)) as ->.
  { change (field caps "Y") with (decimal (lstrip (chars (Fmt.pad4 (year (on t)))))).
    unfold Calendar.MINYEAR, Calendar.MAXYEAR in Hy.
    apply (run_year _ [] []). lia. }
  assert (field caps "m" = month (on t)) as ->.
  { change (field caps "m") with (decimal (lstrip (chars (Fmt.pad2 (month (on t)))))).
    apply (padded_value _ 1 12 _ months_padded). lia. }
  assert (field caps "d" = day (on t)) as ->.
  { change (field caps "d") with (decimal (lstrip (chars (Fmt.pad2 (day (on t)))))).
    apply (padded_value _ 1 31 _ days_padded). lia. }
  assert (field caps "H" = hour t) as ->.
  { change (field caps "H") with (decimal (lstrip (chars (Fmt.pad2 (hour t))))).
    apply (padded_value _ 0 23 _ hours_padded). lia. }
  assert (field caps "M" = minute t) as ->.
  { change (field caps "M") with (decimal (lstrip (chars (Fmt.pad2 (minute t))))).
    apply (padded_value _ 0 59 _ minutes_padded). lia. }
  rewrite PyDateFacts.make_ok by (destruct t as [[? ? ?] ? ?]; repeat split; simpl in *; lia).
  rewrite bind_Ok. destruct t as [[? ? ?] ? ?]. reflexivity.
Qed.

Lemma local_text_strip (c : ascii) (t : datetime) :
  strip (local_text (String c EmptyString) t)
  = local_text (String c EmptyString) t.
Proof.
  apply strip_id.
  - intros x [= <-]. apply digit_is_digit.
  - intros x [= <-]. apply digit_is_digit.
Qed.

(** X5.  [to_dt] reads both spellings it is written for: for every
    date with an hour and a minute, the text [YYYY-MM-DDTHH:MM] and
    the text [YYYY-MM-DD HH:MM] are both read as that moment. *)
Theorem to_dt_reads_both_spellings (t : datetime) :
  valid_datetime t →
  to_dt (local_text "T" t) = Ok t ∧ to_dt (local_text " " t) = Ok t.
Proof.
  intros Ht. unfold to_dt. rewrite !local_text_strip. split.
  - assert (contains "T" (local_text "T" t) = true) as ->.
    { unfold contains.
      change (chars (local_text "T" t))
        with (chars (Fmt.ymd (on t)) ++ "T"%char :: chars (Fmt.pad2 (hour t))
              ++ ":"%char :: chars (Fmt.pad2 (minute t))).
      rewrite existsb_app. simpl. apply orb_true_r. }
    apply to_dt_of_groups; [exact Ht|].
    apply (run_time t (Lit "T") "T" Ht).
    intros r rest res _. apply run_literal. reflexivity.
  - assert (contains "T" (local_text " " t) = false) as ->.
    { unfold contains.
      apply not_true_iff_false. rewrite existsb_exists.
      intros (x & Hin & Hx). unfold chars in Hin. simpl in Hin.
      repeat (destruct Hin as [<-|Hin];
              [first [rewrite digit_not_T in Hx; discriminate Hx
                     |discriminate Hx]|]).
      exact Hin. }
    apply to_dt_of_groups; [exact Ht|].
    apply (run_time t Spaces " " Ht).
    intros r rest res Hrest <-.
    destruct rest as [|x l]; [reflexivity|].
    change (run (Spaces :: r) (" "%char :: x :: l))
      with (many is_space (x :: l) (run r)).
    simpl. rewrite (Hrest x l eq_refl). reflexivity.
Qed.

Lemma to_dt_reads_both_spellings_witness :
  to_dt "2024-05-13T23:05" = Ok (DateTime (Date 2024 5 13) 23 5)
  ∧ to_dt "2024-05-13 23:05" = Ok (DateTime (Date 2024 5 13) 23 5).
Proof.
  apply (to_dt_reads_both_spellings (DateTime (Date 2024 5 13) 23 5)).
  unfold valid_datetime, PyDate.valid; simpl; vm_compute; intuition discriminate.
Defined.
End ToDtFacts.

(** ** The log forms, step by step *)

Module FormSteps.
Import PyStr Form FormSpec StoreSpec FormFacts.

Lemma get_or_filled (form : gmap string string) (k d : string) :
  d ≠ EmptyString → get_or form k d ≠ EmptyString.
Proof.
  intros Hd. unfold get_or.
  destruct (form !! k) as [[|c s]|]; simpl; [exact Hd|discriminate|exact Hd].
Qed.

Lemma blank_false (s : string) : blank s = false → s ≠ EmptyString.
Proof. destruct s; [discriminate|discriminate]. Qed.

(** A POST to the meal form changes nothing or adds one meal of the
    user which passed the checks. *)
Lemma meals_post_inv (st st' : store) (uid : Z) (now : string)
    (form : gmap string string) (r : response) :
  meals st uid now (POST form) = Ok (st', r) →
  (st' = st
   ∧ r = flash_redirect "Please provide a valid meal entry." "error" "meals")
  ∨ (∃ t', st' = with_meal_logs st t'
           ∧ gains MealLog.id MealLog.user_id meal_ok uid (meal_logs st) t'
           ∧ r = flash_redirect "Meal log added." "success" "meals").
Proof.
  unfold meals. destruct (get_int form "calories") as [n|] eqn:En; [|discriminate].
  rewrite bind_Ok.
  destruct (negb (truthy (form !! "date"))) eqn:E1; simpl;
    [intros [= <- <-]; left; split; reflexivity|].
  destruct (blank (strip (get_str form "food"))) eqn:E2; simpl;
    [intros [= <- <-]; left; split; reflexivity|].
  destruct (n <=? 0) eqn:E3; intros [= <- <-]; [left; split; reflexivity|].
  right. eexists. split; [reflexivity|]. split; [|reflexivity].
  eexists. split; [reflexivity|]. intros k.
  unfold meal_ok, fitness_ok, sleep_ok, weight_ok. simpl.
  apply negb_false_iff, truthy_some in E1 as (dt & -> & Hdt).
  repeat split; try lia; [exact Hdt|apply get_or_filled; discriminate
                         |apply blank_false, E2].
Qed.

Lemma fitness_post_inv (st st' : store) (uid : Z) (now : string)
    (form : gmap string string) (r : response) :
  fitness st uid now (POST form) = Ok (st', r) →
  (st' = st
   ∧ r = flash_redirect "Please provide a valid fitness entry." "error"
           "fitness")
  ∨ (∃ t', st' = with_fitness_logs st t'
           ∧ gains FitnessLog.id FitnessLog.user_id fitness_ok uid
               (fitness_logs st) t'
           ∧ r = flash_redirect "Fitness log added." "success" "fitness").
Proof.
  unfold fitness.
  destruct (get_int form "duration_min") as [d|] eqn:Ed; [|discriminate].
  rewrite bind_Ok.
  destruct (get_int form "calories_burned") as [b|] eqn:Eb; [|discriminate].
  rewrite bind_Ok.
  destruct (negb (truthy (form !! "date"))) eqn:E1; simpl;
    [intros [= <- <-]; left; split; reflexivity|].
  destruct (blank (strip (get_str form "activity_type"))) eqn:E2; simpl;
    [intros [= <- <-]; left; split; reflexivity|].
  destruct (d <=? 0) eqn:E3; simpl;
    [intros [= <- <-]; left; split; reflexivity|].
  destruct (b <? 0) eqn:E4; intros [= <- <-]; [left; split; reflexivity|].
  right. eexists. split; [reflexivity|]. split; [|reflexivity].
  eexists. split; [reflexivity|]. intros k.
  unfold meal_ok, fitness_ok, sleep_ok, weight_ok. simpl.
  apply negb_false_iff, truthy_some in E1 as (dt & -> & Hdt).
  repeat split; try lia; [exact Hdt|apply blank_false, E2].
Qed.

Lemma sleep_post_inv (st st' : store) (uid : Z) (now : string)
    (form : gmap string string) (r : response) :
  sleep st uid now (POST form) = Ok (st', r) →
  (st' = st ∧ ∃ msg, r = flash_redirect msg "error" "sleep")
  ∨ (∃ t', st' = with_sleep_logs st t'
           ∧ gains SleepLog.id SleepLog.user_id sleep_ok uid (sleep_logs st) t'
           ∧ r = flash_redirect "Sleep log added." "success" "sleep").
Proof.
  unfold sleep.
  destruct (negb (truthy (form !! "sleep_start"))
            || negb (truthy (form !! "sleep_end")));
    [intros [= <- <-]; left; split; [reflexivity|eexists; reflexivity]|].
  destruct (sleep_times _ _) as [[[s_dt e_dt] d]|] eqn:E; intros [= <- <-];
    [|left; split; [reflexivity|eexists; reflexivity]].
  apply sleep_times_inv in E as (e0 & _ & _ & _ & -> & Hpos).
  right. eexists. split; [reflexivity|]. split; [|reflexivity].
  eexists. split; [reflexivity|]. intros k.
  unfold meal_ok, fitness_ok, sleep_ok, weight_ok. simpl.
  repeat split. exact Hpos.
Qed.

Lemma weight_post_inv (st st' : store) (uid : Z) (now : string)
    (form : gmap string string) (r : response) :
  weight st uid now (POST form) = Ok (st', r) →
  (st' = st
   ∧ r = flash_redirect "Please provide valid weight/height." "error" "weight")
  ∨ (∃ t', st' = with_weight_logs st t'
           ∧ gains WeightLog.id WeightLog.user_id weight_ok uid
               (weight_logs st) t'
           ∧ r = flash_redirect "Weight log added." "success" "weight").
Proof.
  unfold weight.
  destruct (get_float form "weight_kg") as [w|] eqn:Ew; [|discriminate].
  rewrite bind_Ok.
  destruct (get_float form "height_cm") as [h|] eqn:Eh; [|discriminate].
  rewrite bind_Ok.
  destruct (negb (truthy (form !! "date"))) eqn:E1; simpl;
    [intros [= <- <-]; left; split; reflexivity|].
  destruct (PyNum.leb w (PyNum.of_Z 0)) eqn:E2; simpl;
    [intros [= <- <-]; left; split; reflexivity|].
  destruct (PyNum.leb h (PyNum.of_Z 0)) eqn:E3; simpl;
    [intros [= <- <-]; left; split; reflexivity|].
  apply PyNumFacts.leb_false in E2, E3.
  rewrite (bmi_of_ok w h E3), bind_Ok. intros [= <- <-].
  right. eexists. split; [reflexivity|]. split; [|reflexivity].
  eexists. split; [reflexivity|]. intros k.
  unfold meal_ok, fitness_ok, sleep_ok, weight_ok. simpl.
  apply negb_false_iff, truthy_some in E1 as (dt & -> & Hdt).
  repeat split; assumption.
Qed.
End FormSteps.

(** ** The log pages and the delete views *)

Module LogFacts.
Import PyStr Form FormSpec StoreSpec FormFacts FormSteps DashFacts.

Lemma order_by_desc_spec {A} (k : A → string) (id : A → Z) (l : list A) :
  Sql.order_by_desc k id l ≡ₚ l
  ∧ StronglySorted (Sql.newer_first k id) (Sql.order_by_desc k id l).
Proof.
  split; [apply merge_sort_Permutation|].
  apply (StronglySorted_merge_sort _).
Qed.


Lemma own_insert {A} (user : A → Z) (uid : Z) (mk : Z → A) (t : table A) :
  user (mk (seq t + 1)) = uid →
  own user uid (insert mk t) = own user uid t ++ [mk (seq t + 1)].
Proof.
  intros Hu. unfold own, insert. simpl. rewrite filter_app. f_equal.
  rewrite filter_cons, decide_True by exact Hu. reflexivity.
Qed.

(** X7.  A meal that the form accepts is on the page afterwards: the
    next page of the user lists the rows listed before and one more,
    which carries the next key of the table, the date as posted and
    the calories as read from the form. *)
Theorem posted_meal_is_listed (st st' : store) (uid : Z) (now now' : string)
    (form : gmap string string) (msg : string) :
  meals st uid now (POST form) = Ok (st', flash_redirect msg "success" "meals") →
  ∃ row l,
    meals st' uid now' GET = Ok (st', Response [] (Render (MealPage l)))
    ∧ l ≡ₚ row :: own MealLog.user_id uid (meal_logs st)
    ∧ MealLog.id row = seq (meal_logs st) + 1
    ∧ MealLog.user_id row = uid
    ∧ form !! "date" = Some (MealLog.date row)
    ∧ get_int form "calories" = Ok (MealLog.calories row)
    ∧ 0 < MealLog.calories row.
Proof.
  unfold meals at 1.
  destruct (get_int form "calories") as [n|] eqn:En; [|discriminate].
  rewrite bind_Ok.
  destruct (negb (truthy (form !! "date"))) eqn:E1; simpl; [discriminate|].
  destruct (blank (strip (get_str form "food"))) eqn:E2; simpl; [discriminate|].
  destruct (n <=? 0) eqn:E3; [discriminate|]. intros [= <- _].
  apply negb_false_iff, truthy_some in E1 as (dt & Edt & Hdt). rewrite Edt.
  eexists _, _. split; [reflexivity|]. split.
  - rewrite (proj1 (order_by_desc_spec _ _ _)). unfold Sql.of_user. simpl.
    rewrite filter_app, filter_cons, decide_True by reflexivity.
    rewrite <- Permutation_cons_append. reflexivity.
  - simpl. repeat split. lia.
Qed.

Lemma posted_meal_is_listed_witness :
  ∃ row l,
    meals (with_meal_logs empty_store
             (Table [MealLog.Row 1 1 "2024-05-15" "Dinner" "rice" 250
                       "2024-05-15T08:00:00"] 1))
          1 "2024-05-15T09:00:00" GET
    = Ok (with_meal_logs empty_store
            (Table [MealLog.Row 1 1 "2024-05-15" "Dinner" "rice" 250
                      "2024-05-15T08:00:00"] 1),
          Response [] (Render (MealPage l)))
    ∧ l ≡ₚ row :: own MealLog.user_id 1 (meal_logs empty_store)
    ∧ MealLog.id row = seq (meal_logs empty_store) + 1
    ∧ MealLog.user_id row = 1
    ∧ ({[ "date" := "2024-05-15"; "meal_type" := "Dinner"; "food" := "rice";
          "calories" := "250" ]} : gmap string string) !! "date"
      = Some (MealLog.date row)
    ∧ get_int {[ "date" := "2024-05-15"; "meal_type" := "Dinner";
                 "food" := "rice"; "calories" := "250" ]} "calories"
      = Ok (MealLog.calories row)
    ∧ 0 < MealLog.calories row.
Proof.
  apply (posted_meal_is_listed empty_store _ 1 "2024-05-15T08:00:00"
           "2024-05-15T09:00:00"
           {[ "date" := "2024-05-15"; "meal_type" := "Dinner"; "food" := "rice";
              "calories" := "250" ]} "Meal log added.").
  vm_compute. reflexivity.
Defined.

Lemma bind_int_ok (n : Z) : - 2 ^ 63 ≤ n < 2 ^ 63 → Sqlite.bind_int n = Ok n.
Proof.
  intros H. unfold Sqlite.bind_int.
  replace (- 2 ^ 63 <=? n) with true by lia.
  replace (n <? 2 ^ 63) with true by lia. reflexivity.
Qed.

Lemma bind_int_overflow (n : Z) :
  2 ^ 63 ≤ n → Sqlite.bind_int n = Raise OverflowError.
Proof.
  intros H. unfold Sqlite.bind_int.
  replace (n <? 2 ^ 63) with false by lia. rewrite andb_false_r. reflexivity.
Qed.

Lemma bind_int_inv (n m : Z) :
  Sqlite.bind_int n = Ok m → m = n ∧ - 2 ^ 63 ≤ n < 2 ^ 63.
Proof.
  unfold Sqlite.bind_int.
  destruct (- 2 ^ 63 <=? n) eqn:E1; [|discriminate].
  destruct (n <? 2 ^ 63) eqn:E2; [|discriminate].
  intros [= <-]. lia.
Qed.

Lemma delete_where_unmatched {A} (id user : A → Z) (rid uid : Z) (t : table A) :
  (∀ r, r ∈ rows t → ¬ (id r = rid ∧ user r = uid)) →
  Sqlite.delete_where id user rid uid t = t.
Proof.
  intros H. unfold Sqlite.delete_where. destruct t as [l n]. simpl in *.
  f_equal. induction l as [|x l IH]; [reflexivity|].
  rewrite filter_cons, decide_True by (apply H; left).
  f_equal. apply IH. intros r Hr. apply H. right. exact Hr.
Qed.

(** X8.  A delete view answers "deleted" whether or not it deleted:
    for a key within 64 bits that matches no row of the user (no such
    row, or a row of somebody else) the store stays as it is and the
    success message is flashed all the same; a key from 2^63 on cannot
    be bound and the view fails with [OverflowError]. *)
Theorem delete_answers_deleted_anyway (st : store) (uid rid : Z) :
  (- 2 ^ 63 ≤ rid < 2 ^ 63 →
   ((∀ r, r ∈ rows (meal_logs st) →
          ¬ (MealLog.id r = rid ∧ MealLog.user_id r = uid)) →
    meals_delete st uid rid
    = Ok (st, flash_redirect "Meal log deleted." "success" "meals"))
   ∧ ((∀ r, r ∈ rows (fitness_logs st) →
            ¬ (FitnessLog.id r = rid ∧ FitnessLog.user_id r = uid)) →
      fitness_delete st uid rid
      = Ok (st, flash_redirect "Fitness log deleted." "success" "fitness"))
   ∧ ((∀ r, r ∈ rows (sleep_logs st) →
            ¬ (SleepLog.id r = rid ∧ SleepLog.user_id r = uid)) →
      sleep_delete st uid rid
      = Ok (st, flash_redirect "Sleep log deleted." "success" "sleep"))
   ∧ ((∀ r, r ∈ rows (weight_logs st) →
            ¬ (WeightLog.id r = rid ∧ WeightLog.user_id r = uid)) →
      weight_delete st uid rid
      = Ok (st, flash_redirect "Weight log deleted." "success" "weight")))
  ∧ (2 ^ 63 ≤ rid →
     meals_delete st uid rid = Raise OverflowError
     ∧ fitness_delete st uid rid = Raise OverflowError
     ∧ sleep_delete st uid rid = Raise OverflowError
     ∧ weight_delete st uid rid = Raise OverflowError).
Proof.
  split.
  - intros Hr. unfold meals_delete, fitness_delete, sleep_delete, weight_delete.
    rewrite (bind_int_ok rid Hr), !bind_Ok.
    repeat split; intros H; rewrite (delete_where_unmatched _ _ _ _ _ H);
      destruct st; reflexivity.
  - intros Hr. unfold meals_delete, fitness_delete, sleep_delete, weight_delete.
    rewrite (bind_int_overflow rid Hr). repeat split.
Qed.

Lemma filter_all {A} (P : A → Prop) `{∀ x, Decision (P x)} (l : list A) :
  Forall P l → filter P l = l.
Proof.
  induction 1 as [|x l Hx _ IH]; [reflexivity|].
  rewrite filter_cons, decide_True, IH by exact Hx. reflexivity.
Qed.

Lemma delete_where_insert {A} (id user : A → Z) (uid : Z) (mk : Z → A)
    (t : table A) :
  keys_ok id t → id (mk (seq t + 1)) = seq t + 1 → user (mk (seq t + 1)) = uid →
  Sqlite.delete_where id user (seq t + 1) uid (insert mk t)
  = Table (rows t) (seq t + 1).
Proof.
  intros (_ & Hle & _) Hid Hu. unfold Sqlite.delete_where, insert. simpl.
  f_equal. rewrite filter_app, filter_cons, decide_False, filter_nil, app_nil_r
    by (intros H; apply H; split; assumption).
  apply filter_all. eapply Forall_impl; [exact Hle|].
  intros r Hr [E _]. simpl in Hr. lia.
Qed.

(** X9.  Deleting undoes posting, but the key is spent: after a meal
    is accepted and then deleted by its key, the table has the rows it
    had before, the other tables are untouched, and the counter of the
    table stays one higher, so that key is not given out again. *)
Theorem delete_undoes_post (st st' : store) (uid : Z) (now : string)
    (form : gmap string string) (msg : string) :
  keys_ok MealLog.id (meal_logs st) → seq (meal_logs st) + 1 < 2 ^ 63 →
  meals st uid now (POST form) = Ok (st', flash_redirect msg "success" "meals") →
  meals_delete st' uid (seq (meal_logs st) + 1)
  = Ok (with_meal_logs st (Table (rows (meal_logs st)) (seq (meal_logs st) + 1)),
        flash_redirect "Meal log deleted." "success" "meals").
Proof.
  intros Hk Hs Hpost. pose proof Hk as (_ & _ & H0).
  apply meals_post_inv in Hpost as [[_ [=]]|(t' & -> & (mk & -> & Hmk) & _)].
  unfold meals_delete. rewrite bind_int_ok, bind_Ok by lia.
  destruct (Hmk (seq (meal_logs st) + 1)) as (Hid & Hu & _).
  destruct st. simpl in *.
  rewrite (delete_where_insert _ _ _ _ _ Hk Hid Hu). reflexivity.
Qed.

Lemma delete_undoes_post_witness :
  meals_delete
    (with_meal_logs empty_store
       (Table [MealLog.Row 1 1 "2024-05-15" "Dinner" "rice" 250
                 "2024-05-15T08:00:00"] 1))
    1 (seq (meal_logs empty_store) + 1)
  = Ok (with_meal_logs empty_store
          (Table (rows (meal_logs empty_store)) (seq (meal_logs empty_store) + 1)),
        flash_redirect "Meal log deleted." "success" "meals").
Proof.
  apply (delete_undoes_post empty_store _ 1 "2024-05-15T08:00:00"
           {[ "date" := "2024-05-15"; "meal_type" := "Dinner"; "food" := "rice";
              "calories" := "250" ]} "Meal log added.").
  - repeat split; [constructor|constructor|simpl; lia].
  - simpl; lia.
  - vm_compute. reflexivity.
Defined.
End LogFacts.

(** ** Properties of the goals view *)

Module GoalsFacts.
Import PyStr Form FormSpec StoreSpec GoalsSpec LogFacts.

Lemma bind_opt_ok (v : option Z) : fits v → Sqlite.bind_opt v = Ok v.
Proof.
  intros H. destruct v as [n|]; [|reflexivity]. simpl.
  rewrite (bind_int_ok n (H n eq_refl)). reflexivity.
Qed.

Lemma bind_opt_fail (v : option Z) :
  ¬ fits v → Sqlite.bind_opt v = Raise OverflowError.
Proof.
  intros H. destruct v as [n|]; [|destruct H; intros ? [=]]. simpl.
  unfold Sqlite.bind_int.
  destruct ((- 2 ^ 63 <=? n) && (n <? 2 ^ 63)) eqn:E; [|reflexivity].
  destruct H. intros ? [= <-]. lia.
Qed.

Lemma bind_opt_inv (v w : option Z) : Sqlite.bind_opt v = Ok w → w = v ∧ fits v.
Proof.
  destruct v as [n|]; simpl.
  - destruct (Sqlite.bind_int n) as [m|] eqn:E; [|discriminate].
    apply bind_int_inv in E as [-> E]. intros [= <-].
    split; [reflexivity|]. intros ? [= <-]. exact E.
  - intros [= <-]. split; [reflexivity|]. intros ? [=].
Qed.

Lemma ensure_goals_row_has (st : store) (uid : Z) (created : string) :
  ∃ row, goals_row (ensure_goals_row st uid created) uid = Some row
         ∧ Goal.user_id row = uid.
Proof.
  unfold goals_row, ensure_goals_row.
  destruct (list_find _ (rows (goals st))) as [[i g]|] eqn:E.
  - rewrite E. exists g. split; [reflexivity|].
    apply list_find_Some in E as (_ & E & _). exact E.
  - simpl. rewrite list_find_app_r by exact E. simpl.
    rewrite decide_True by reflexivity. eexists. split; reflexivity.
Qed.

Lemma ensure_goals_row_again (st : store) (uid : Z) (created created' : string) :
  ensure_goals_row (ensure_goals_row st uid created) uid created'
  = ensure_goals_row st uid created.
Proof.
  destruct (ensure_goals_row_has st uid created) as (row & H & _).
  unfold goals_row in H. unfold ensure_goals_row at 1.
  destruct (list_find _ _) as [[i g]|]; [reflexivity|discriminate H].
Qed.

Lemma goals_row_updated (st : store) (uid : Z) (w : option Qc) (c m : option Z)
    (now : string) (g : Goal.t) :
  goals_row st uid = Some g →
  goals_row (with_goals st (update_goals uid w c m now (goals st))) uid
  = Some (Goal.Row (Goal.id g) uid w c m now).
Proof.
  unfold goals_row, update_goals. simpl.
  induction (rows (goals st)) as [|x l IH]; [discriminate|].
  simpl. destruct (decide (Goal.user_id x = uid)) as [Hx|Hx].
  - simpl. rewrite decide_True by reflexivity. simpl. intros [= ->]. reflexivity.
  - rewrite decide_False by exact Hx.
    destruct (list_find _ l) as [[i y]|]; [|discriminate].
    simpl. intros [= ->].
    destruct (list_find _ (map _ l)) as [[j z]|]; simpl in *;
      [|discriminate (IH eq_refl)].
    specialize (IH eq_refl). injection IH as ->. reflexivity.
Qed.

Lemma ensure_goals_row_kept (st : store) (uid : Z) (created : string)
    (g : Goal.t) :
  goals_row st uid = Some g → ensure_goals_row st uid created = st.
Proof.
  unfold goals_row, ensure_goals_row.
  destruct (list_find _ _) as [[i x]|]; [reflexivity|discriminate].
Qed.




End GoalsFacts.

(** ** The dashboard next to the forms *)

Module DashboardFacts.
Import PyStr Form FormSpec StoreSpec GoalsSpec DashSpec LogFacts GoalsFacts
  FormSteps.

Lemma ensure_goals_row_logs (st : store) (uid : Z) (now : string) :
  meal_logs (ensure_goals_row st uid now) = meal_logs st
  ∧ fitness_logs (ensure_goals_row st uid now) = fitness_logs st
  ∧ sleep_logs (ensure_goals_row st uid now) = sleep_logs st
  ∧ weight_logs (ensure_goals_row st uid now) = weight_logs st.
Proof.
  unfold ensure_goals_row. destruct (list_find _ _); repeat split.
Qed.

Lemma latest_weight_ensure (st : store) (uid : Z) (now : string) :
  latest_weight (ensure_goals_row st uid now) uid = latest_weight st uid.
Proof.
  unfold latest_weight.
  rewrite (proj2 (proj2 (proj2 (ensure_goals_row_logs st uid now)))).
  reflexivity.
Qed.

(** The dashboard writes nothing but the goals row it makes sure of. *)
Lemma dashboard_store (sqlite_date : string → option date) (st : store)
    (uid : Z) (today utc_today : date) (now : string) :
  (dashboard sqlite_date st uid today utc_today now).1
  = ensure_goals_row st uid now.
Proof. reflexivity. Qed.

(** What the dashboard shows is read from the logs and from the goals
    row of the user. *)
Lemma dashboard_reads (sqlite_date : string → option date) (st st2 : store)
    (uid : Z) (today utc_today : date) (now now2 : string) :
  meal_logs st2 = meal_logs st → fitness_logs st2 = fitness_logs st →
  sleep_logs st2 = sleep_logs st → weight_logs st2 = weight_logs st →
  goals_row (ensure_goals_row st2 uid now2) uid
  = goals_row (ensure_goals_row st uid now) uid →
  (dashboard sqlite_date st2 uid today utc_today now2).2
  = (dashboard sqlite_date st uid today utc_today now).2.
Proof.
  intros Hm Hf Hs Hw Hg. unfold dashboard. cbv zeta. cbn [snd].
  rewrite !latest_weight_ensure.
  unfold goals_row in Hg. rewrite Hg.
  unfold latest_weight. rewrite Hm, Hf, Hs, Hw. reflexivity.
Qed.


Lemma filter_none {A} (P : A → Prop) `{∀ x, Decision (P x)} (l : list A) :
  (∀ x, x ∈ l → ¬ P x) → filter P l = [].
Proof.
  induction l as [|x l IH]; intros Hn; [reflexivity|].
  rewrite filter_cons, decide_False by (apply Hn; left).
  apply IH. intros y Hy. apply Hn. right. exact Hy.
Qed.

Lemma round2_zero : PyNum.round2 (PyNum.of_Z 0) = PyNum.of_Z 0.
Proof. apply Qc_is_canon. vm_compute. reflexivity. Qed.

(** X13.  A user with nothing on record sees an empty dashboard: no
    calories in or out, an average sleep of 0, no BMI, no deltas and no
    advice; and the visit creates the goals row of the user, with no
    target set. *)
Theorem dashboard_of_new_user (sqlite_date : string → option date) (st : store)
    (uid : Z) (today utc_today : date) (now : string) :
  own MealLog.user_id uid (meal_logs st) = [] →
  own FitnessLog.user_id uid (fitness_logs st) = [] →
  own SleepLog.user_id uid (sleep_logs st) = [] →
  own WeightLog.user_id uid (weight_logs st) = [] →
  own Goal.user_id uid (goals st) = [] →
  dashboard sqlite_date st uid today utc_today now
  = (with_goals st (insert (λ id, Goal.Row id uid None None None now) (goals st)),
     DashboardView 0 0 (PyNum.of_Z 0) None (Diffs None None None)
       (Some (Goal.Row (seq (goals st) + 1) uid None None None now)) []).
Proof.
  unfold own. intros Hm Hf Hs Hw Hg.
  assert (∀ {A} (user : A → Z) (l : list A),
            filter (λ r, user r = uid) l = [] → ∀ x, x ∈ l → user x ≠ uid) as Hno.
  { intros A user l E x Hx Hu.
    assert (x ∈ filter (λ r, user r = uid) l) as Hin
      by (apply list_elem_of_filter; split; assumption).
    rewrite E in Hin. inversion Hin. }
  assert (list_find (λ g, Goal.user_id g = uid) (rows (goals st)) = None) as Eg.
  { apply list_find_None, Forall_forall. intros x Hx. apply (Hno _ _ _ Hg x Hx). }
  unfold dashboard. cbv zeta.
  unfold latest_weight, Sql.of_user, ensure_goals_row. rewrite Eg.
  cbn [weight_logs with_goals goals rows insert].
  rewrite Hw.
  rewrite (filter_none (λ r, MealLog.user_id r = uid ∧ _))
    by (intros x Hx [Hu _]; exact (Hno _ _ _ Hm x Hx Hu)).
  rewrite (filter_none (λ r, FitnessLog.user_id r = uid ∧ _))
    by (intros x Hx [Hu _]; exact (Hno _ _ _ Hf x Hx Hu)).
  rewrite (filter_none (λ r, SleepLog.user_id r = uid ∧ _))
    by (intros x Hx [Hu _]; exact (Hno _ _ _ Hs x Hx Hu)).
  rewrite list_find_app_r by exact Eg.
  cbn [list_find]. rewrite decide_True by reflexivity.
  unfold Sql.order_by_desc. cbn. rewrite round2_zero. reflexivity.
Qed.

Lemma dashboard_of_new_user_witness :
  dashboard SqliteDate.read_iso Samples.may_and_june 7 (Date 2024 5 15)
    (Date 2024 5 15) "2024-05-15T08:00:00"
  = (with_goals Samples.may_and_june
       (insert (λ id, Goal.Row id 7 None None None "2024-05-15T08:00:00")
          (goals Samples.may_and_june)),
     DashboardView 0 0 (PyNum.of_Z 0) None (Diffs None None None)
       (Some (Goal.Row (seq (goals Samples.may_and_june) + 1) 7 None None None
                "2024-05-15T08:00:00")) []).
Proof.
  apply (dashboard_of_new_user SqliteDate.read_iso Samples.may_and_june 7
           (Date 2024 5 15) (Date 2024 5 15) "2024-05-15T08:00:00");
    reflexivity.
Defined.

Lemma sum_Z_app (a b : list Z) : Agg.sum_Z (a ++ b) = Agg.sum_Z a + Agg.sum_Z b.
Proof.
  unfold Agg.sum_Z. induction a as [|x a IH]; simpl; [reflexivity|]. lia.
Qed.

Lemma total_in_spec (sqlite_date : string → option date) (st : store) (uid : Z)
    (today utc_today : date) (now : string) :
  total_in (dashboard sqlite_date st uid today utc_today now).2
  = intake_today st uid today.
Proof. reflexivity. Qed.

(** X14.  A meal counts on the dashboard of its day: after the form
    accepts a meal, today's intake on the user's dashboard is higher by
    the calories posted when the date posted is today's date as
    [fmt_day] writes it, and unchanged when it is any other text;
    nobody else's intake moves. *)
Theorem posted_meal_counts_today (sqlite_date : string → option date)
    (st st' : store) (uid : Z) (now now' : string) (form : gmap string string)
    (msg dt : string) (n : Z) (today utc_today : date) :
  meals st uid now (POST form) = Ok (st', flash_redirect msg "success" "meals") →
  form !! "date" = Some dt → get_int form "calories" = Ok n →
  total_in (dashboard sqlite_date st' uid today utc_today now').2
  = total_in (dashboard sqlite_date st uid today utc_today now').2
    + (if decide (dt = fmt_day today) then n else 0)
  ∧ ∀ uid', uid' ≠ uid →
      total_in (dashboard sqlite_date st' uid' today utc_today now').2
      = total_in (dashboard sqlite_date st uid' today utc_today now').2.
Proof.
  intros Hpost Hdt Hn. rewrite !total_in_spec.
  unfold meals in Hpost. rewrite Hn, bind_Ok, Hdt in Hpost.
  destruct (negb _ || _ || _); [discriminate|]. injection Hpost as <- _.
  unfold intake_today. simpl. split.
  - rewrite filter_app, map_app, sum_Z_app. f_equal.
    rewrite filter_cons. simpl.
    destruct (decide (dt = fmt_day today)) as [->|Hne].
    + rewrite decide_True by (split; reflexivity). simpl. lia.
    + rewrite decide_False by (intros [_ H]; exact (Hne H)). reflexivity.
  - intros uid' Hu. intros. rewrite filter_app, map_app, sum_Z_app.
    rewrite filter_cons, decide_False by (simpl; intros [H _]; congruence).
    simpl. lia.
Qed.

Lemma posted_meal_counts_today_witness :
  total_in (dashboard SqliteDate.read_iso
              (with_meal_logs empty_store
                 (Table [MealLog.Row 1 1 "2024-5-15" "Dinner" "rice" 250
                           "2024-05-15T08:00:00"] 1))
              1 (Date 2024 5 15) (Date 2024 5 15) "2024-05-15T09:00:00").2
  = total_in (dashboard SqliteDate.read_iso empty_store 1 (Date 2024 5 15)
                (Date 2024 5 15) "2024-05-15T09:00:00").2
    + (if decide ("2024-5-15" = fmt_day (Date 2024 5 15)) then 250 else 0).
Proof.
  pose proof (posted_meal_counts_today SqliteDate.read_iso empty_store
           (with_meal_logs empty_store
              (Table [MealLog.Row 1 1 "2024-5-15" "Dinner" "rice" 250
                        "2024-05-15T08:00:00"] 1))
           1 "2024-05-15T08:00:00" "2024-05-15T09:00:00"
           {[ "date" := "2024-5-15"; "meal_type" := "Dinner"; "food" := "rice";
              "calories" := "250" ]} "Meal log added." "2024-5-15" 250
           (Date 2024 5 15) (Date 2024 5 15)) as H.
  destruct H as [H _]; [vm_compute; reflexivity|reflexivity
                       |vm_compute; reflexivity|exact H].
Defined.

Lemma goals_view_post_inv (st st' : store) (uid : Z) (created now : string)
    (form : gmap string string) (o : outcome) :
  goals_view st uid created now (POST form) = (st', Ok o) →
  st' = with_goals (ensure_goals_row st uid created)
          (update_goals uid
             (conv PyNum.py_float (form !! "target_weight_kg"))
             (conv py_int (form !! "daily_calorie_intake_target"))
             (conv py_int (form !! "daily_exercise_minutes_target"))
             now (goals (ensure_goals_row st uid created)))
  ∧ fits (conv py_int (form !! "daily_calorie_intake_target"))
  ∧ fits (conv py_int (form !! "daily_exercise_minutes_target"))
  ∧ o = Answered (flash_redirect "Goals updated." "success" "goals").
Proof.
  unfold goals_view.
  destruct (Sqlite.bind_opt (conv py_int (form !! "daily_calorie_intake_target")))
    as [c|] eqn:Ec; [|discriminate].
  rewrite bind_Ok.
  destruct (Sqlite.bind_opt (conv py_int (form !! "daily_exercise_minutes_target")))
    as [m|] eqn:Em; [|discriminate].
  rewrite bind_Ok. apply bind_opt_inv in Ec as [-> Hc], Em as [-> Hm].
  intros [= <- <-].
  split; [reflexivity|]. split; [exact Hc|]. split; [exact Hm|reflexivity].
Qed.


End DashboardFacts.

(** ** Properties of the charts *)

Module ChartFacts.
Import Agg AggSpec StoreSpec ChartSpec AggFacts DashFacts DateTextFacts.

Lemma leb_spec (a b : string) :
  String.leb a b = true ↔ OrderedTypeEx.String_as_OT.lt a b ∨ a = b.
Proof.
  rewrite <- ltb_lt. unfold String.leb, String.ltb.
  destruct (String.compare a b) eqn:E.
  - apply String.compare_eq_iff in E. tauto.
  - tauto.
  - split; [discriminate|]. intros [H| ->]; [discriminate|].
    rewrite compare_refl in E. discriminate.
Qed.

Global Instance key_le_total : Total key_le.
Proof.
  intros [a|] [b|]; simpl; try tauto. apply String.leb_total.
Qed.

Global Instance key_le_trans : Transitive key_le.
Proof.
  intros [a|] [b|] [c|]; simpl; try tauto. rewrite !leb_spec.
  intros [H1| ->] [H2| ->]; try tauto.
  left. eapply OrderedTypeEx.String_as_OT.lt_trans; eassumption.
Qed.

Lemma strictly_sorted (l : list (option string)) :
  StronglySorted key_le l → NoDup l → StronglySorted key_lt l.
Proof.
  induction 1 as [|x l _ IH Hall]; intros Hnd; constructor.
  - apply IH. apply NoDup_cons in Hnd as [_ Hnd]. exact Hnd.
  - apply NoDup_cons in Hnd as [Hx _]. rewrite Forall_forall in *.
    intros y Hy. split; [apply Hall, Hy|]. intros ->. exact (Hx Hy).
Qed.

Section Labels.
Variable sqlite_date : string → option date.

Lemma labels_sorted (all : list cell) (uid : Z) (start end_ : option date)
    (group_by : string) :
  StronglySorted key_le
    (aggregate_query sqlite_date all uid start end_ group_by).1
  ∧ NoDup (aggregate_query sqlite_date all uid start end_ group_by).1.
Proof.
  unfold aggregate_query. cbn [fst]. split.
  - apply (StronglySorted_merge_sort _).
  - rewrite merge_sort_Permutation. apply NoDup_remove_dups.
Qed.

Lemma labels_elem (all : list cell) (uid : Z) (start end_ : option date)
    (group_by : string) (g : option string) :
  g ∈ (aggregate_query sqlite_date all uid start end_ group_by).1
  ↔ ∃ c, c ∈ all ∧ agg_keeps sqlite_date uid (start, end_) c = true
         ∧ group_key sqlite_date group_by (cell_date c) = g.
Proof.
  unfold aggregate_query. cbn [fst].
  rewrite merge_sort_Permutation, elem_of_remove_dups.
  change (map ?f ?l) with (f <$> l). rewrite list_elem_of_fmap.
  unfold agg_where. split.
  - intros (c & -> & Hc). apply list_elem_of_filter in Hc as [Hk Hc].
    exists c. auto.
  - intros (c & Hc & Hk & <-). exists c. split; [reflexivity|].
    apply list_elem_of_filter. auto.
Qed.

(** X16.  The labels of a chart come in ascending order and none
    twice: each label is strictly before every later one, NULL before
    any text and text in the order of its characters. *)
Theorem chart_labels_ascend (all : list cell) (uid : Z)
    (start end_ : option date) (group_by : string) :
  StronglySorted key_lt
    (aggregate_query sqlite_date all uid start end_ group_by).1.
Proof.
  destruct (labels_sorted all uid start end_ group_by) as [Hs Hn].
  apply strictly_sorted; assumption.
Qed.

(** X17.  The NULL label belongs to the unbounded chart: with both
    bounds of the range given no label is NULL, since a row whose date
    SQLite cannot read is filtered out; without a bound such a row of
    the user is grouped under NULL, and that label comes first. *)
Theorem null_label_only_without_range (all : list cell) (uid : Z)
    (group_by : string) :
  (∀ s e, None ∉ (aggregate_query sqlite_date all uid (Some s) (Some e)
                    group_by).1)
  ∧ (∀ start end_, start = None ∨ end_ = None →
       (∃ c, c ∈ all ∧ cell_user c = uid ∧ sqlite_date (cell_date c) = None) →
       head (aggregate_query sqlite_date all uid start end_ group_by).1
       = Some None).
Proof.
  split.
  - intros s e H. apply labels_elem in H as (c & _ & Hk & Hg).
    unfold agg_keeps, sql_DATE, between in Hk. unfold group_key in Hg.
    destruct (sqlite_date (cell_date c)) as [d|].
    + destruct (String.eqb group_by "month"), (String.eqb group_by "week");
        discriminate Hg.
    + simpl in Hk. rewrite andb_false_r in Hk. discriminate Hk.
  - intros start end_ Hopen (c & Hc & Hu & Hd).
    assert (None ∈ (aggregate_query sqlite_date all uid start end_ group_by).1)
      as Hin.
    { apply labels_elem. exists c. split; [exact Hc|]. split.
      - unfold agg_keeps. rewrite bool_decide_eq_true_2 by exact Hu.
        destruct Hopen as [-> | ->]; [|destruct start]; reflexivity.
      - unfold group_key. rewrite Hd.
        destruct (String.eqb group_by "month"), (String.eqb group_by "week");
          reflexivity. }
    destruct (labels_sorted all uid start end_ group_by) as [Hs _].
    destruct (aggregate_query sqlite_date all uid start end_ group_by).1
      as [|x l]; [inversion Hin|].
    apply elem_of_cons in Hin as [<-|Hin]; [reflexivity|].
    inversion Hs as [|? ? _ Hall]; subst. rewrite Forall_forall in Hall.
    specialize (Hall None Hin). destruct x; [destruct Hall|reflexivity].
Qed.

Lemma agg_where_own (uid : Z) (bounds : option date * option date)
    (all : list cell) :
  agg_where sqlite_date uid bounds all
  = agg_where sqlite_date uid bounds (of_user uid all).
Proof.
  unfold agg_where, of_user. induction all as [|c all IH]; [reflexivity|].
  rewrite !filter_cons.
  destruct (decide (cell_user c = uid)) as [Hu|Hu].
  - rewrite filter_cons, IH. reflexivity.
  - rewrite decide_False; [exact IH|].
    unfold agg_keeps. rewrite bool_decide_eq_false_2 by exact Hu. discriminate.
Qed.

Lemma aggregate_query_own (all1 all2 : list cell) (uid : Z)
    (start end_ : option date) (group_by : string) :
  of_user uid all1 = of_user uid all2 →
  aggregate_query sqlite_date all1 uid start end_ group_by
  = aggregate_query sqlite_date all2 uid start end_ group_by.
Proof.
  intros H. unfold aggregate_query.
  rewrite (agg_where_own uid _ all1), (agg_where_own uid _ all2), H.
  reflexivity.
Qed.

Lemma of_user_cells {A} (user : A → Z) (f : A → cell) (uid : Z) (l : list A) :
  (∀ r, cell_user (f r) = user r) →
  of_user uid (map f l) = map f (filter (λ r, user r = uid) l).
Proof.
  intros Hf. unfold of_user. induction l as [|x l IH]; [reflexivity|].
  simpl map. rewrite !filter_cons, IH, Hf.
  destruct (decide (user x = uid)); reflexivity.
Qed.

Lemma weight_query_own (st1 st2 : store) (uid : Z) (start end_ : option date)
    (group_by : string) :
  own WeightLog.user_id uid (weight_logs st1)
  = own WeightLog.user_id uid (weight_logs st2) →
  weight_query sqlite_date st1 uid start end_ group_by
  = weight_query sqlite_date st2 uid start end_ group_by.
Proof.
  unfold own. intros H. unfold weight_query.
  assert (∀ l : list WeightLog.t,
            filter (λ r, agg_keeps sqlite_date uid (start, end_)
                     (Cell (WeightLog.user_id r) (WeightLog.date r)
                        (WeightLog.weight_kg r)) = true) l
               = filter (λ r, agg_keeps sqlite_date uid (start, end_)
                     (Cell (WeightLog.user_id r) (WeightLog.date r)
                        (WeightLog.weight_kg r)) = true)
                   (filter (λ r, WeightLog.user_id r = uid) l)) as Hown.
  { induction l as [|x l IH]; [reflexivity|]. rewrite !filter_cons.
    destruct (decide (WeightLog.user_id x = uid)) as [Hu|Hu].
    - rewrite filter_cons, IH. reflexivity.
    - rewrite decide_False; [exact IH|]. unfold agg_keeps. simpl.
      rewrite bool_decide_eq_false_2 by exact Hu. discriminate. }
  rewrite (Hown (rows (weight_logs st1))), (Hown (rows (weight_logs st2))), H.
  reflexivity.
Qed.

(** X18.  The chart API shows a user nothing of anybody else: two
    stores that hold the same rows of the user in the four logs give
    the same answer, whatever the kind and the query string. *)
Theorem charts_show_own_rows_only (st1 st2 : store) (uid : Z) (today : date)
    (kind : string) (args : gmap string string) :
  same_logs_of uid st1 st2 →
  api_charts sqlite_date st1 uid today kind args
  = api_charts sqlite_date st2 uid today kind args.
Proof.
  intros (Hm & Hf & Hs & Hw). unfold api_charts.
  destruct (start_end_from_range _ _ _ _) as [[start end_]|]; [|reflexivity].
  rewrite !bind_Ok.
  rewrite (weight_query_own st1 st2 uid start end_ _ Hw).
  unfold own in Hm, Hf, Hs.
  rewrite (aggregate_query_own (meal_calories st1) (meal_calories st2));
    [|unfold meal_calories;
      rewrite !(of_user_cells MealLog.user_id) by reflexivity;
      rewrite Hm; reflexivity].
  rewrite (aggregate_query_own (sleep_hours st1) (sleep_hours st2));
    [|unfold sleep_hours;
      rewrite !(of_user_cells SleepLog.user_id) by reflexivity;
      rewrite Hs; reflexivity].
  rewrite (aggregate_query_own
             (if String.eqb (default "calories" (args !! "metric")) "calories"
              then fitness_calories st1 else fitness_duration st1)
             (if String.eqb (default "calories" (args !! "metric")) "calories"
              then fitness_calories st2 else fitness_duration st2));
    [reflexivity|].
  destruct (String.eqb _ "calories"); unfold fitness_calories, fitness_duration;
    rewrite !(of_user_cells FitnessLog.user_id) by reflexivity; rewrite Hf;
    reflexivity.
Qed.


Lemma of_Z_plus (a b : Z) :
  PyNum.of_Z (a + b) = (PyNum.of_Z a + PyNum.of_Z b)%Qc.
Proof.
  unfold PyNum.of_Z. apply Qc_is_canon. simpl. rewrite !Qred_correct.
  unfold Qeq. simpl. lia.
Qed.

Lemma total_of_Z {A} (f : A → Z) (user : A → Z) (date : A → string)
    (l : list A) :
  total (map (λ r, Cell (user r) (date r) (PyNum.of_Z (f r))) l)
  = PyNum.of_Z (sum_Z (map f l)).
Proof.
  unfold total. induction l as [|x l IH]; [reflexivity|].
  simpl map. rewrite sum_Q_cons, IH. unfold sum_Z. simpl.
  rewrite of_Z_plus. reflexivity.
Qed.

Lemma values_sum (all : list cell) (uid : Z) (start end_ : option date)
    (group_by : string) :
  sum_Q (aggregate_query sqlite_date all uid start end_ group_by).2
  = total (agg_where sqlite_date uid (start, end_) all).
Proof.
  unfold aggregate_query. cbn [snd].
  set (kept := agg_where sqlite_date uid (start, end_) all).
  set (key := λ c, group_key sqlite_date group_by (cell_date c)).
  apply (groups_partition key kept).
  - rewrite merge_sort_Permutation. apply NoDup_remove_dups.
  - intros c Hc. rewrite merge_sort_Permutation, elem_of_remove_dups.
    change (map key kept) with (key <$> kept). apply list_elem_of_fmap.
    exists c. split; [reflexivity|exact Hc].
Qed.

Lemma leb_refl (a : string) : String.leb a a = true.
Proof. unfold String.leb. rewrite compare_refl. reflexivity. Qed.

(** X20.  The chart of today and the dashboard agree on the calories
    eaten: when the meal dates on record are written as the date input
    posts them (whenever SQLite reads a date from one, it is that date
    as [YYYY-MM-DD]), the values of the "meals" chart for the range
    "today" add up to today's intake on the dashboard. *)
Theorem today_chart_is_dashboard_intake (st : store) (uid : Z)
    (today utc_today : date) (now : string) (args : gmap string string) :
  PyDate.valid today → 1000 ≤ year today →
  sqlite_date (fmt_day today) = Some today →
  (∀ r d, r ∈ rows (meal_logs st) → MealLog.user_id r = uid →
          sqlite_date (MealLog.date r) = Some d → MealLog.date r = fmt_day d) →
  args !! "range" = Some "today" →
  ∃ c values,
    api_charts sqlite_date st uid today "meals" args = Ok (Json c)
    ∧ chart_series c = [("Calories In", values)]
    ∧ sum_Q values
      = PyNum.of_Z (total_in (dashboard sqlite_date st uid today utc_today
                                now).2).
Proof.
  intros _ _ Htoday Hcanon Hrange. unfold api_charts. rewrite Hrange.
  change (default "all" (Some "today")) with "today".
  unfold start_end_from_range.
  change (String.eqb "today" "today") with true. cbv iota. rewrite bind_Ok.
  change (String.eqb "meals" "weight") with false.
  change (String.eqb "meals" "meals") with true. cbv iota.
  pose proof (values_sum (meal_calories st) uid (Some today) (Some today)
                (default "day" (args !! "group_by"))) as Hsum.
  destruct (aggregate_query _ _ _ _ _ _) as [labels values].
  eexists _, values. split; [reflexivity|]. split; [reflexivity|].
  cbn [snd] in Hsum. rewrite Hsum. clear Hsum.
  change (total_in (dashboard sqlite_date st uid today utc_today now).2)
    with (DashSpec.intake_today st uid today).
  unfold DashSpec.intake_today, meal_calories.
  rewrite <- (total_of_Z MealLog.calories MealLog.user_id MealLog.date).
  f_equal. unfold agg_where.
  induction (rows (meal_logs st)) as [|r l IH]; [reflexivity|].
  simpl map. rewrite !filter_cons.
  rewrite IH by (intros r' d Hr'; apply Hcanon; right; exact Hr').
  assert (agg_keeps sqlite_date uid (Some today, Some today)
            (Cell (MealLog.user_id r) (MealLog.date r)
               (PyNum.of_Z (MealLog.calories r))) = true
          ↔ MealLog.user_id r = uid ∧ MealLog.date r = fmt_day today) as Hiff.
  { unfold agg_keeps, sql_DATE, between. cbn [cell_user cell_date].
    rewrite andb_true_iff, bool_decide_eq_true. split.
    - intros [Hu Hb]. split; [exact Hu|].
      destruct (sqlite_date (MealLog.date r)) as [d|] eqn:Ed; [|discriminate].
      simpl in Hb. apply andb_true_iff in Hb as [H1 H2].
      rewrite (Hcanon r d ltac:(left) Hu Ed).
      apply String.leb_antisym; assumption.
    - intros [Hu Hd]. split; [exact Hu|]. rewrite Hd, Htoday. simpl.
      unfold SqliteDate.fmt_ymd, fmt_day. rewrite leb_refl. reflexivity. }
  destruct (decide (agg_keeps _ _ _ _ = true)) as [Hk|Hk];
    destruct (decide (MealLog.user_id r = uid ∧ _)) as [Hd|Hd];
    try reflexivity; tauto.
Qed.
End Labels.

Lemma charts_show_own_rows_only_witness :
  api_charts SqliteDate.read_iso Samples.may_and_june 1 (Date 2024 5 15) "meals"
    {[ "range" := "all"; "group_by" := "month" ]}
  = api_charts SqliteDate.read_iso
      (with_meal_logs Samples.may_and_june
         (Table (own MealLog.user_id 1 (meal_logs Samples.may_and_june)) 4))
      1 (Date 2024 5 15) "meals" {[ "range" := "all"; "group_by" := "month" ]}.
Proof.
  apply (charts_show_own_rows_only SqliteDate.read_iso Samples.may_and_june
           (with_meal_logs Samples.may_and_june
              (Table (own MealLog.user_id 1 (meal_logs Samples.may_and_june)) 4))
           1 (Date 2024 5 15) "meals").
  repeat split.
Defined.

Lemma today_chart_is_dashboard_intake_witness :
  ∃ c values,
    api_charts SqliteDate.read_iso Samples.on_2024_05_15 1 (Date 2024 5 15)
      "meals" {[ "range" := "today" ]} = Ok (Json c)
    ∧ chart_series c = [("Calories In", values)]
    ∧ sum_Q values
      = PyNum.of_Z (total_in (dashboard SqliteDate.read_iso Samples.on_2024_05_15
                                1 (Date 2024 5 15) (Date 2024 5 15)
                                "2024-05-15T20:00:00").2).
Proof.
  apply (today_chart_is_dashboard_intake SqliteDate.read_iso
           Samples.on_2024_05_15 1 (Date 2024 5 15) (Date 2024 5 15)
           "2024-05-15T20:00:00" {[ "range" := "today" ]}).
  - unfold PyDate.valid; simpl; vm_compute; intuition discriminate.
  - simpl; lia.
  - vm_compute. reflexivity.
  - intros r d Hr _. simpl in Hr.
    repeat (apply elem_of_cons in Hr as [->|Hr];
            [vm_compute; intros [= <-]; reflexivity|]).
    inversion Hr.
  - reflexivity.
Defined.
End ChartFacts.

(** ** Properties of the accounts *)

Module AuthFacts.
Import PyStr Form FormSpec StoreSpec FormSteps.

Section Bcrypt.
Variable generate_password_hash : string → string → result string.
Variable check_password_hash : string → string → result bool.

(** A registration changes nothing or adds one account, with the next
    key, a username and an email nobody has, and a hash of the
    password. *)
Lemma register_inv (users users' : table User.t) (salt now : string)
    (form : gmap string string) (r : response) :
  register generate_password_hash users salt now form = Ok (users', r) →
  (users' = users ∧ ∃ msg, r = flash_redirect msg "error" "auth")
  ∨ (∃ h, generate_password_hash salt (strip (get_str form "password")) = Ok h
          ∧ users' = insert (λ id, User.Row id (strip (get_str form "username"))
                                     (strip (get_str form "email")) h now) users
          ∧ r = flash_redirect "Registration successful. Please log in."
                  "success" "auth"
          ∧ strip (get_str form "username") ≠ EmptyString
          ∧ strip (get_str form "email") ≠ EmptyString
          ∧ (8 ≤ String.length (strip (get_str form "password")))%nat
          ∧ ∀ u, u ∈ rows users →
                 User.username u ≠ strip (get_str form "username")
                 ∧ User.email u ≠ strip (get_str form "email")).
Proof.
  unfold register.
  destruct (blank (strip (get_str form "username"))) eqn:E1; simpl;
    [intros [= <- <-]; left; split; [reflexivity|eexists; reflexivity]|].
  destruct (blank (strip (get_str form "email"))) eqn:E2; simpl;
    [intros [= <- <-]; left; split; [reflexivity|eexists; reflexivity]|].
  destruct (blank (strip (get_str form "password"))) eqn:E3; simpl;
    [intros [= <- <-]; left; split; [reflexivity|eexists; reflexivity]|].
  destruct (String.length (strip (get_str form "password")) <? 8)%nat eqn:E4;
    [intros [= <- <-]; left; split; [reflexivity|eexists; reflexivity]|].
  destruct (generate_password_hash salt _) as [h|] eqn:Eh; [|discriminate].
  rewrite bind_Ok.
  destruct (taken users _ _) eqn:E5; intros [= <- <-];
    [left; split; [reflexivity|eexists; reflexivity]|].
  right. exists h. split; [reflexivity|]. split; [reflexivity|].
  split; [reflexivity|].
  split; [apply blank_false, E1|]. split; [apply blank_false, E2|].
  split; [apply Nat.ltb_ge, E4|].
  intros u Hu. unfold taken in E5.
  assert (existsb (λ u, String.eqb (User.username u) (strip (get_str form "username"))
                        || String.eqb (User.email u) (strip (get_str form "email")))
                  (rows users) = false → 
          String.eqb (User.username u) (strip (get_str form "username"))
          || String.eqb (User.email u) (strip (get_str form "email")) = false) as H.
  { intros H. apply not_true_iff_false. intros Ht.
    apply not_true_iff_false in H. apply H, existsb_exists.
    exists u. split; [apply list_elem_of_In, Hu|exact Ht]. }
  specialize (H E5). apply orb_false_iff in H as [H1 H2].
  apply String.eqb_neq in H1, H2. split; assumption.
Qed.

Lemma list_find_unique {A} (key : A → string) (e : string) (l : list A) (u : A) :
  NoDup (map key l) → u ∈ l → key u = e →
  ∃ i, list_find (λ x, key x = e) l = Some (i, u).
Proof.
  induction l as [|x l IH]; intros Hnd Hu He; [inversion Hu|].
  simpl in Hnd. apply NoDup_cons in Hnd as [Hx Hnd]. cbn [list_find].
  apply elem_of_cons in Hu as [<-|Hu].
  - rewrite decide_True by exact He. eexists. reflexivity.
  - rewrite decide_False.
    + destruct (IH Hnd Hu He) as [i ->]. eexists. reflexivity.
    + intros Hxe. apply Hx. rewrite Hxe, <- He.
      apply list_elem_of_fmap. exists u. split; [reflexivity|exact Hu].
Qed.

(** The session after a login is the one before, or the key of an
    account with the email given whose hash accepts the password. *)
Lemma login_inv (users : table User.t) (s s' : session)
    (form : gmap string string) (r : response) :
  login check_password_hash users s form = Ok (s', r) →
  (s' = s ∧ r = flash_redirect "Invalid email or password." "error" "auth")
  ∨ (∃ u, u ∈ rows users ∧ s' = Some (User.id u)
          ∧ User.email u = strip (get_str form "email")
          ∧ check_password_hash (User.password_hash u)
              (strip (get_str form "password")) = Ok true
          ∧ r = flash_redirect "Welcome back!" "success" "dashboard").
Proof.
  unfold login.
  destruct (list_find _ (rows users)) as [[i u]|] eqn:E;
    [|intros [= <- <-]; left; split; reflexivity].
  apply list_find_Some in E as (Hi & He & _).
  destruct (check_password_hash _ _) as [[|]|] eqn:Ec; [| |discriminate];
    rewrite bind_Ok; intros [= <- <-].
  - right. exists u. split; [eapply list_elem_of_lookup_2, Hi|].
    repeat split; assumption.
  - left. split; reflexivity.
Qed.

(** X21.  A login that fails tells nothing about the accounts: an
    email nobody registered and a wrong password for a registered
    email get the same answer, the same message and redirect, and the
    session stays as it was. *)
Theorem failed_login_tells_nothing (users : table User.t) (s : session)
    (form : gmap string string) :
  NoDup (map User.email (rows users)) →
  (∀ u, u ∈ rows users → User.email u ≠ strip (get_str form "email"))
  ∨ (∃ u, u ∈ rows users ∧ User.email u = strip (get_str form "email")
          ∧ check_password_hash (User.password_hash u)
              (strip (get_str form "password")) = Ok false) →
  login check_password_hash users s form
  = Ok (s, flash_redirect "Invalid email or password." "error" "auth").
Proof.
  intros Hnd [Hno|(u & Hu & He & Hc)]; unfold login.
  - assert (list_find (λ u, User.email u = strip (get_str form "email"))
              (rows users) = None) as ->; [|reflexivity].
    apply list_find_None, Forall_forall. exact Hno.
  - destruct (list_find_unique User.email _ _ u Hnd Hu He) as [i ->].
    rewrite Hc, bind_Ok. reflexivity.
Qed.

Hypothesis bcrypt_checks :
  ∀ salt password h,
    generate_password_hash salt password = Ok h →
    check_password_hash h password = Ok true.

(** X22.  Who registers can log in: after a registration that
    succeeds, a login with the same email and the same password, each
    up to white space around it, is welcomed and puts the key of the
    new account into the session, given that bcrypt accepts a password
    against its own hash. *)
Theorem register_then_login (users users' : table User.t) (s : session)
    (salt now msg : string) (form form' : gmap string string) :
  register generate_password_hash users salt now form
  = Ok (users', flash_redirect msg "success" "auth") →
  strip (get_str form' "email") = strip (get_str form "email") →
  strip (get_str form' "password") = strip (get_str form "password") →
  login check_password_hash users' s form'
  = Ok (Some (seq users + 1),
        flash_redirect "Welcome back!" "success" "dashboard")
  ∧ ∃ u, u ∈ rows users' ∧ User.id u = seq users + 1
         ∧ User.username u = strip (get_str form "username")
         ∧ User.email u = strip (get_str form "email").
Proof.
  intros Hreg He Hp.
  apply register_inv in Hreg
    as [[_ [m [=]]]|(h & Hh & -> & _ & _ & _ & _ & Hfree)].
  split.
  - unfold login. rewrite He, Hp. unfold insert. cbn [rows].
    rewrite list_find_app_r.
    + cbn [list_find]. rewrite decide_True by reflexivity.
      cbn [fmap option_fmap option_map prod_map fst snd id
           User.password_hash User.id].
      rewrite (bcrypt_checks _ _ _ Hh), bind_Ok. reflexivity.
    + apply list_find_None, Forall_forall. intros u Hu.
      apply (Hfree u Hu).
  - eexists. split; [apply elem_of_app; right; left|]. repeat split.
Qed.
End Bcrypt.

Lemma register_then_login_witness :
  login PlainHash.check
    (Table [User.Row 1 "ann" "ann@example.org" "correct horse"
              "2024-05-15T08:00:00"] 1)
    None {[ "email" := "ann@example.org "; "password" := " correct horse" ]}
  = Ok (Some (seq (Table ([] : list User.t) 0) + 1),
        flash_redirect "Welcome back!" "success" "dashboard")
  ∧ ∃ u, u ∈ rows (Table [User.Row 1 "ann" "ann@example.org" "correct horse"
                            "2024-05-15T08:00:00"] 1)
         ∧ User.id u = seq (Table ([] : list User.t) 0) + 1
         ∧ User.username u
           = strip (get_str {[ "username" := "ann"; "email" := "ann@example.org";
                               "password" := "correct horse";
                               "action" := "register" ]} "username")
         ∧ User.email u
           = strip (get_str {[ "username" := "ann"; "email" := "ann@example.org";
                               "password" := "correct horse";
                               "action" := "register" ]} "email").
Proof.
  apply (register_then_login PlainHash.generate PlainHash.check
           ltac:(intros salt password h [= <-]; unfold PlainHash.check;
                 f_equal; apply String.eqb_refl)
           (Table [] 0) _ None "salt" "2024-05-15T08:00:00"
           "Registration successful. Please log in."
           {[ "username" := "ann"; "email" := "ann@example.org";
              "password" := "correct horse"; "action" := "register" ]}).
  - vm_compute. reflexivity.
  - vm_compute. reflexivity.
  - vm_compute. reflexivity.
Defined.

Lemma failed_login_tells_nothing_witness :
  login PlainHash.check
    (Table [User.Row 1 "ann" "ann@example.org" "correct horse"
              "2024-05-15T08:00:00"] 1)
    None {[ "email" := "ann@example.org"; "password" := "battery staple" ]}
  = Ok (None, flash_redirect "Invalid email or password." "error" "auth").
Proof.
  apply (failed_login_tells_nothing PlainHash.check).
  - repeat constructor. intros H. inversion H.
  - right. eexists. split; [left|]. split; vm_compute; reflexivity.
Defined.
End AuthFacts.

(** ** The application over its runs *)

Module WorldFacts.
Import PyStr Form FormSpec StoreSpec WorldSpec FormSteps LogFacts GoalsFacts
  DashboardFacts AuthFacts.

(** *** What one step of a table keeps *)

Lemma keys_ok_insert {A} (id : A → Z) (mk : Z → A) (t : table A) :
  (∀ k, id (mk k) = k) → keys_ok id t → keys_ok id (insert mk t).
Proof.
  intros Hid (Hnd & Hle & H0). unfold keys_ok, insert. cbn [rows seq].
  split; [|split].
  - rewrite map_app. apply NoDup_app. split; [exact Hnd|]. split.
    + intros x Hx Hx'. simpl in Hx'. apply list_elem_of_singleton in Hx'.
      rewrite Hid in Hx'. subst x.
      apply list_elem_of_fmap in Hx as (r & Hr & Hin).
      rewrite Forall_forall in Hle. specialize (Hle r Hin). lia.
    + simpl. apply NoDup_singleton.
  - apply Forall_app. split.
    + eapply Forall_impl; [exact Hle|]. intros r Hr. simpl in Hr. lia.
    + apply Forall_singleton. rewrite Hid. lia.
  - lia.
Qed.

Lemma NoDup_map_filter {A B} (f : A → B) (P : A → Prop)
    `{∀ x, Decision (P x)} (l : list A) :
  NoDup (map f l) → NoDup (map f (filter P l)).
Proof.
  induction l as [|x l IH]; [intros; constructor|].
  simpl map. intros Hnd. apply NoDup_cons in Hnd as [Hx Hnd].
  rewrite filter_cons. destruct (decide (P x)); [|exact (IH Hnd)].
  simpl map. apply NoDup_cons. split; [|exact (IH Hnd)].
  intros Hin. apply Hx.
  change (map f ?l) with (f <$> l) in *.
  apply list_elem_of_fmap in Hin as (y & Hy & Hin).
  apply list_elem_of_filter in Hin as [_ Hin].
  apply list_elem_of_fmap. exists y. split; assumption.
Qed.

Lemma Forall_filter {A} (Q P : A → Prop) `{∀ x, Decision (P x)} (l : list A) :
  Forall Q l → Forall Q (filter P l).
Proof.
  rewrite !Forall_forall. intros HQ x Hx.
  apply list_elem_of_filter in Hx as [_ Hx]. exact (HQ x Hx).
Qed.

Lemma keys_ok_delete {A} (id user : A → Z) (rid uid : Z) (t : table A) :
  keys_ok id t → keys_ok id (Sqlite.delete_where id user rid uid t).
Proof.
  intros (Hnd & Hle & H0). unfold keys_ok, Sqlite.delete_where. cbn [rows seq].
  split; [apply NoDup_map_filter, Hnd|].
  split; [apply Forall_filter, Hle|exact H0].
Qed.

Lemma keys_ok_step {A} (id user : A → Z) (ok : A → Prop) (uid : Z)
    (t t' : table A) :
  table_step id user ok uid t t' → keys_ok id t → keys_ok id t'.
Proof.
  intros Hs Hk.
  destruct Hs as [|t2 (mk & -> & Hmk)|rid]; [exact Hk| |apply keys_ok_delete, Hk].
  apply keys_ok_insert; [|exact Hk]. intros k. apply Hmk.
Qed.

Lemma Forall_step {A} (id user : A → Z) (ok : A → Prop) (Q : A → Prop)
    (uid : Z) (t t' : table A) :
  (∀ r, user r = uid → ok r → Q r) →
  table_step id user ok uid t t' → Forall Q (rows t) → Forall Q (rows t').
Proof.
  intros HQ Hs H.
  destruct Hs as [|t2 (mk & -> & Hmk)|rid]; [exact H| |apply Forall_filter, H].
  unfold insert. cbn [rows]. apply Forall_app. split; [exact H|].
  apply Forall_singleton. destruct (Hmk (seq t + 1)) as (_ & Hu & Hok).
  apply HQ; assumption.
Qed.

Lemma own_step {A} (id user : A → Z) (ok : A → Prop) (uid uid' : Z)
    (t t' : table A) :
  uid' ≠ uid → table_step id user ok uid t t' → own user uid' t' = own user uid' t.
Proof.
  intros Hne Hs. destruct Hs as [|t2 (mk & -> & Hmk)|rid]; [reflexivity| |].
  - unfold own, insert. cbn [rows]. rewrite filter_app, filter_cons.
    destruct (Hmk (seq t + 1)) as (_ & Hu & _).
    rewrite decide_False by congruence. rewrite filter_nil. apply app_nil_r.
  - unfold own, Sqlite.delete_where. cbn [rows].
    induction (rows t) as [|x l IH]; [reflexivity|].
    rewrite !filter_cons.
    destruct (decide (¬ (id x = rid ∧ user x = uid))) as [Hk|Hk].
    + rewrite filter_cons. destruct (decide (user x = uid')); rewrite IH;
        reflexivity.
    + rewrite decide_False; [exact IH|]. intros Hu. apply Hk. intros [_ H].
      congruence.
Qed.

(** *** What one step of the goals keeps *)

Lemma update_goals_ids (uid : Z) (w : option Qc) (c m : option Z) (now : string)
    (t : table Goal.t) :
  map Goal.id (rows (update_goals uid w c m now t)) = map Goal.id (rows t)
  ∧ map Goal.user_id (rows (update_goals uid w c m now t))
    = map Goal.user_id (rows t)
  ∧ seq (update_goals uid w c m now t) = seq t.
Proof.
  unfold update_goals. cbn [rows seq]. split; [|split; [|reflexivity]].
  - induction (rows t) as [|g l IH]; [reflexivity|]. simpl. rewrite IH.
    destruct (decide (Goal.user_id g = uid)); reflexivity.
  - induction (rows t) as [|g l IH]; [reflexivity|]. simpl. rewrite IH.
    destruct (decide (Goal.user_id g = uid)) as [<-|]; reflexivity.
Qed.

Lemma Forall_map_eq {A B} (f : A → B) (Q : B → Prop) (l l' : list A) :
  map f l' = map f l → Forall (λ r, Q (f r)) l → Forall (λ r, Q (f r)) l'.
Proof.
  intros E H. apply Forall_fmap in H. apply Forall_fmap.
  change (f <$> l') with (map f l'). rewrite E. exact H.
Qed.

Lemma keys_ok_goals_step (uid : Z) (t t' : table Goal.t) :
  goals_step uid t t' → keys_ok Goal.id t → keys_ok Goal.id t'.
Proof.
  intros (t0 & Hmade & Hupd) Hk.
  assert (keys_ok Goal.id t0) as Hk0.
  { destruct Hmade as [->|[_ [now ->]]]; [exact Hk|].
    apply keys_ok_insert; [reflexivity|exact Hk]. }
  destruct Hupd as [->|(w & c & m & now & ->)]; [exact Hk0|].
  destruct Hk0 as (Hnd & Hle & H0).
  destruct (update_goals_ids uid w c m now t0) as (Ei & _ & Es).
  unfold keys_ok. rewrite Ei, Es. split; [exact Hnd|]. split; [|exact H0].
  exact (Forall_map_eq Goal.id (λ k, 1 ≤ k ≤ seq t0) _ _ Ei Hle).
Qed.

Lemma unique_goals_step (uid : Z) (t t' : table Goal.t) :
  goals_step uid t t' →
  NoDup (map Goal.user_id (rows t)) → NoDup (map Goal.user_id (rows t')).
Proof.
  intros (t0 & Hmade & Hupd) Hnd.
  assert (NoDup (map Goal.user_id (rows t0))) as Hnd0.
  { destruct Hmade as [->|[Hfree [now ->]]]; [exact Hnd|].
    unfold insert. cbn [rows]. rewrite map_app. apply NoDup_app.
    split; [exact Hnd|]. split; [|apply NoDup_singleton].
    intros x Hx Hx'. simpl in Hx'. apply list_elem_of_singleton in Hx'. subst x.
    apply list_elem_of_fmap in Hx as (g & Hg & Hin).
    exact (Hfree g Hin (eq_sym Hg)). }
  destruct Hupd as [->|(w & c & m & now & ->)]; [exact Hnd0|].
  destruct (update_goals_ids uid w c m now t0) as (_ & Eu & _).
  rewrite Eu. exact Hnd0.
Qed.

Lemma owners_goals_step (Q : Z → Prop) (uid : Z) (t t' : table Goal.t) :
  Q uid → goals_step uid t t' →
  Forall (λ r, Q (Goal.user_id r)) (rows t) →
  Forall (λ r, Q (Goal.user_id r)) (rows t').
Proof.
  intros Hu (t0 & Hmade & Hupd) H.
  assert (Forall (λ r, Q (Goal.user_id r)) (rows t0)) as H0.
  { destruct Hmade as [->|[_ [now ->]]]; [exact H|].
    unfold insert. cbn [rows]. apply Forall_app. split; [exact H|].
    apply Forall_singleton. exact Hu. }
  destruct Hupd as [->|(w & c & m & now & ->)]; [exact H0|].
  destruct (update_goals_ids uid w c m now t0) as (_ & Eu & _).
  exact (Forall_map_eq Goal.user_id Q _ _ Eu H0).
Qed.

Lemma own_goals_step (uid uid' : Z) (t t' : table Goal.t) :
  uid' ≠ uid → goals_step uid t t' →
  own Goal.user_id uid' t' = own Goal.user_id uid' t.
Proof.
  intros Hne (t0 & Hmade & Hupd).
  assert (own Goal.user_id uid' t0 = own Goal.user_id uid' t) as E0.
  { destruct Hmade as [->|[_ [now ->]]]; [reflexivity|].
    unfold own, insert. cbn [rows]. rewrite filter_app, filter_cons.
    rewrite decide_False by (simpl; congruence).
    rewrite filter_nil. apply app_nil_r. }
  rewrite <- E0. destruct Hupd as [->|(w & c & m & now & ->)]; [reflexivity|].
  unfold own, update_goals. cbn [rows].
  induction (rows t0) as [|g l IH]; [reflexivity|].
  simpl map. rewrite !filter_cons, IH.
  destruct (decide (Goal.user_id g = uid)) as [Hg|Hg]; [|reflexivity].
  cbn [Goal.user_id]. rewrite !decide_False by congruence. reflexivity.
Qed.

(** *** The steps of the views *)

Lemma store_step_same (uid : Z) (st : store) : store_step uid st st.
Proof.
  repeat split; try apply table_same.
  exists (goals st). split; [left; reflexivity|left; reflexivity].
Qed.

Lemma goals_step_same (uid : Z) (t : table Goal.t) : goals_step uid t t.
Proof. exists t. split; left; reflexivity. Qed.

Lemma meals_step (st st' : store) (uid : Z) (now : string) (req : request)
    (r : response) :
  meals st uid now req = Ok (st', r) → store_step uid st st'.
Proof.
  destruct req as [|form].
  - intros [= <- _]. apply store_step_same.
  - intros H. apply meals_post_inv in H as [[-> _]|(t' & -> & Hg & _)];
      [apply store_step_same|].
    split; [apply table_gain, Hg|].
    repeat split; try apply table_same. apply goals_step_same.
Qed.

Lemma fitness_step (st st' : store) (uid : Z) (now : string) (req : request)
    (r : response) :
  fitness st uid now req = Ok (st', r) → store_step uid st st'.
Proof.
  destruct req as [|form].
  - intros [= <- _]. apply store_step_same.
  - intros H. apply fitness_post_inv in H as [[-> _]|(t' & -> & Hg & _)];
      [apply store_step_same|].
    split; [apply table_same|]. split; [apply table_gain, Hg|].
    repeat split; try apply table_same. apply goals_step_same.
Qed.

Lemma sleep_step (st st' : store) (uid : Z) (now : string) (req : request)
    (r : response) :
  sleep st uid now req = Ok (st', r) → store_step uid st st'.
Proof.
  destruct req as [|form].
  - intros [= <- _]. apply store_step_same.
  - intros H. apply sleep_post_inv in H as [[-> _]|(t' & -> & Hg & _)];
      [apply store_step_same|].
    split; [apply table_same|]. split; [apply table_same|].
    split; [apply table_gain, Hg|].
    repeat split; try apply table_same. apply goals_step_same.
Qed.

Lemma weight_step (st st' : store) (uid : Z) (now : string) (req : request)
    (r : response) :
  weight st uid now req = Ok (st', r) → store_step uid st st'.
Proof.
  destruct req as [|form].
  - intros [= <- _]. apply store_step_same.
  - intros H. apply weight_post_inv in H as [[-> _]|(t' & -> & Hg & _)];
      [apply store_step_same|].
    split; [apply table_same|]. split; [apply table_same|].
    split; [apply table_same|].
    split; [apply table_gain, Hg|apply goals_step_same].
Qed.

Lemma delete_steps (st st' : store) (uid rid : Z) (r : response) :
  meals_delete st uid rid = Ok (st', r) ∨ fitness_delete st uid rid = Ok (st', r)
  ∨ sleep_delete st uid rid = Ok (st', r) ∨ weight_delete st uid rid = Ok (st', r) →
  store_step uid st st'.
Proof.
  unfold meals_delete, fitness_delete, sleep_delete, weight_delete.
  destruct (Sqlite.bind_int rid) as [k|]; [rewrite !bind_Ok|].
  - intros [H|[H|[H|H]]]; injection H as <- _;
      repeat split; try apply table_same; try apply table_lose;
      apply goals_step_same.
  - intros [H|[H|[H|H]]]; discriminate H.
Qed.

Lemma ensure_goals_row_made (st : store) (uid : Z) (now : string) :
  goal_made uid (goals st) (goals (ensure_goals_row st uid now)).
Proof.
  unfold ensure_goals_row.
  destruct (list_find _ _) as [[i g]|] eqn:E; [left; reflexivity|].
  right. split; [|eexists; reflexivity].
  apply list_find_None in E. rewrite Forall_forall in E. exact E.
Qed.

Lemma ensure_goals_row_step (st : store) (uid : Z) (now : string) :
  store_step uid st (ensure_goals_row st uid now).
Proof.
  destruct (ensure_goals_row_logs st uid now) as (Hm & Hf & Hs & Hw).
  unfold store_step. rewrite Hm, Hf, Hs, Hw.
  repeat split; try apply table_same.
  eexists. split; [apply ensure_goals_row_made|left; reflexivity].
Qed.

Lemma goals_view_step (st : store) (uid : Z) (created now : string)
    (req : request) :
  store_step uid st (goals_view st uid created now req).1.
Proof.
  destruct (ensure_goals_row_logs st uid created) as (Hm & Hf & Hs & Hw).
  unfold goals_view. destruct req as [|form]; [apply ensure_goals_row_step|].
  destruct (_ ≫= _) as [[c m]|]; [|apply ensure_goals_row_step].
  cbn [fst]. unfold store_step. cbn. rewrite Hm, Hf, Hs, Hw.
  repeat split; try apply table_same.
  eexists. split; [apply ensure_goals_row_made|].
  right. eexists _, _, _, _. reflexivity.
Qed.

(** *** One request *)

Lemma lookup_set_session (b b' : nat) (s : session) (c : gmap nat Z) :
  set_session b s c !! b' = if decide (b = b') then s else c !! b'.
Proof.
  unfold set_session. destruct s as [uid|].
  - rewrite lookup_insert. reflexivity.
  - rewrite lookup_delete. reflexivity.
Qed.

Lemma same_session (b : nat) (c : gmap nat Z) (b' : nat) :
  c !! b' = if decide (b = b') then c !! b else c !! b'.
Proof. destruct (decide (b = b')) as [->|]; reflexivity. Qed.

Lemma moves_same (b : nat) (w : world) : moves b w w.
Proof.
  split; [left; reflexivity|]. split; [left; reflexivity|].
  exists (cookies w !! b). split; [apply same_session|left; reflexivity].
Qed.

Lemma moves_records (b : nat) (w : world) (uid : Z) (st' : store) :
  cookies w !! b = Some uid → store_step uid (records w) st' →
  moves b w (World (accounts w) st' (cookies w)).
Proof.
  intros Hb Hs. split; [left; reflexivity|].
  split; [right; exists uid; split; assumption|].
  exists (cookies w !! b). split; [apply same_session|left; reflexivity].
Qed.

Lemma moves_log_view (b : nat) (w : world) (uid : Z)
    (r : result (store * response)) :
  cookies w !! b = Some uid →
  (∀ st' a, r = Ok (st', a) → store_step uid (records w) st') →
  moves b w
    (match r with
     | Ok (st, a) => (World (accounts w) st (cookies w), Served (Answered a))
     | Raise x => (w, Failed (Exn x))
     end).1.
Proof.
  intros Hb Hr. destruct r as [[st a]|x]; [|apply moves_same].
  apply (moves_records b w uid); [exact Hb|]. apply (Hr st a). reflexivity.
Qed.

Lemma current_user_id (users : table User.t) (uid : Z) (user : User.t) :
  current_user users (Some uid) = Some user →
  User.id user = uid ∧ user ∈ rows users.
Proof.
  unfold current_user. cbn [mbind option_bind].
  destruct (list_find _ _) as [[i u]|] eqn:E; [|discriminate].
  intros [= <-]. apply list_find_Some in E as (Hi & Hu & _).
  split; [exact Hu|]. eapply list_elem_of_lookup_2, Hi.
Qed.

Section Runs.
Variable sqlite_date : string → option date.
Variable generate_password_hash : string → string → result string.
Variable check_password_hash : string → string → result bool.

Lemma auth_inv (users users' : table User.t) (s s' : session)
    (salt now : string) (req : request) (o : outcome) :
  auth generate_password_hash check_password_hash users s salt now req
  = Ok (users', s', o) →
  accounts_step users users'
  ∧ (s' = s ∨ ∃ u, u ∈ rows users ∧ s' = Some (User.id u)).
Proof.
  unfold auth. destruct req as [|form];
    [intros [= <- <- _]; split; left; reflexivity|].
  destruct (bool_decide (form !! "action" = Some "register")).
  - destruct (register _ _ _ _ _) as [[u1 r]|] eqn:E; [|discriminate].
    rewrite bind_Ok. intros [= <- <- _]. split; [|left; reflexivity].
    apply register_inv in E
      as [[-> _]|(h & _ & -> & _ & Hu & He & _ & Hfree)]; [left; reflexivity|].
    right. eexists. split; [reflexivity|]. split.
    + intros k. split; [reflexivity|split; assumption].
    + intros k u Hin. apply (Hfree u Hin).
  - destruct (bool_decide (form !! "action" = Some "login")).
    + destruct (login _ _ _ _) as [[s1 r]|] eqn:E; [|discriminate].
      rewrite bind_Ok. intros [= <- <- _]. split; [left; reflexivity|].
      apply login_inv in E as [[-> _]|(u & Hu & -> & _)]; [left; reflexivity|].
      right. exists u. split; [exact Hu|reflexivity].
    + intros [= <- <- _]. split; left; reflexivity.
Qed.

(** Every request moves the state as [moves] says. *)
Lemma handle_moves (e : env) (w : world) (b : nat) (q : call) :
  moves b w
    (handle sqlite_date generate_password_hash check_password_hash e w b q).1.
Proof.
  unfold handle. destruct q; cbv zeta.
  - (* auth *)
    destruct (auth _ _ _ _ _ _ _) as [[[users s'] o]|] eqn:E; [|apply moves_same].
    apply auth_inv in E as [Ha Hs]. cbn [fst].
    split; [exact Ha|]. split; [left; reflexivity|].
    exists s'. split; [intros b'; apply lookup_set_session|].
    destruct Hs as [->|Hs]; [left; reflexivity|right; right; exact Hs].
  - (* logout *)
    cbn. split; [left; reflexivity|]. split; [left; reflexivity|].
    exists None. split; [|right; left; reflexivity].
    intros b'. simpl. rewrite lookup_delete. reflexivity.
  - (* dashboard *)
    destruct (cookies w !! b) as [uid|] eqn:Hb; cbn [login_required];
      [|apply moves_same].
    destruct (current_user _ _) as [user|] eqn:Eu; [|apply moves_same].
    apply current_user_id in Eu as [-> _].
    destruct (dashboard _ _ _ _ _ _) as [st v] eqn:Ed. cbn [fst].
    apply (moves_records b w _ st Hb).
    apply (f_equal fst) in Ed. rewrite dashboard_store in Ed. cbn in Ed.
    subst st. apply ensure_goals_row_step.
  - (* goals *)
    destruct (cookies w !! b) as [uid|] eqn:Hb; cbn [login_required];
      [|apply moves_same].
    destruct (current_user _ _) as [user|] eqn:Eu; [|apply moves_same].
    apply current_user_id in Eu as [-> _].
    pose proof (goals_view_step (records w) uid (env_now e)
                  (env_later e) req) as Hg.
    destruct (goals_view _ _ _ _ _) as [st r]. cbn [fst] in *.
    apply (moves_records b w _ st Hb Hg).
  - destruct (cookies w !! b) as [uid|] eqn:Hb; cbn [login_required];
      [|apply moves_same].
    apply (moves_log_view b w uid _ Hb). intros st' a. apply meals_step.
  - destruct (cookies w !! b) as [uid|] eqn:Hb; cbn [login_required];
      [|apply moves_same].
    apply (moves_log_view b w uid _ Hb). intros st' a H.
    apply (delete_steps _ _ uid rid a). auto.
  - destruct (cookies w !! b) as [uid|] eqn:Hb; cbn [login_required];
      [|apply moves_same].
    apply (moves_log_view b w uid _ Hb). intros st' a. apply fitness_step.
  - destruct (cookies w !! b) as [uid|] eqn:Hb; cbn [login_required];
      [|apply moves_same].
    apply (moves_log_view b w uid _ Hb). intros st' a H.
    apply (delete_steps _ _ uid rid a). auto.
  - destruct (cookies w !! b) as [uid|] eqn:Hb; cbn [login_required];
      [|apply moves_same].
    apply (moves_log_view b w uid _ Hb). intros st' a. apply sleep_step.
  - destruct (cookies w !! b) as [uid|] eqn:Hb; cbn [login_required];
      [|apply moves_same].
    apply (moves_log_view b w uid _ Hb). intros st' a H.
    apply (delete_steps _ _ uid rid a). auto.
  - destruct (cookies w !! b) as [uid|] eqn:Hb; cbn [login_required];
      [|apply moves_same].
    apply (moves_log_view b w uid _ Hb). intros st' a. apply weight_step.
  - destruct (cookies w !! b) as [uid|] eqn:Hb; cbn [login_required];
      [|apply moves_same].
    apply (moves_log_view b w uid _ Hb). intros st' a H.
    apply (delete_steps _ _ uid rid a). auto.
  - destruct (cookies w !! b); apply moves_same.
  - destruct (cookies w !! b) as [uid|]; cbn [login_required];
      [|apply moves_same].
    destruct (api_charts _ _ _ _ _ _); apply moves_same.
  - apply moves_same.
Qed.

(** *** What every request keeps *)

Lemma registered_step (t t' : table User.t) (uid : Z) :
  accounts_step t t' → registered t uid → registered t' uid.
Proof.
  intros [->|(mk & -> & _)] (u & Hu & Hid); [exists u; auto|].
  exists u. split; [|exact Hid]. unfold insert. cbn [rows].
  apply elem_of_app. left. exact Hu.
Qed.

Lemma moves_keys (b : nat) (w w' : world) :
  moves b w w' → keys_sound w → keys_sound w'.
Proof.
  intros (Ha & Hr & _) (Ku & Km & Kf & Ks & Kw & Kg). unfold keys_sound.
  split.
  { destruct Ha as [->|(mk & -> & Hmk & _)]; [exact Ku|].
    apply keys_ok_insert; [|exact Ku]. intros k. apply Hmk. }
  destruct Hr as [->|(uid & _ & Hm & Hf & Hs & Hw & Hg)];
    [split; [exact Km|]; split; [exact Kf|]; split; [exact Ks|];
     split; [exact Kw|exact Kg]|].
  split; [eapply keys_ok_step; eassumption|].
  split; [eapply keys_ok_step; eassumption|].
  split; [eapply keys_ok_step; eassumption|].
  split; [eapply keys_ok_step; eassumption|].
  eapply keys_ok_goals_step; eassumption.
Qed.

Lemma NoDup_map_snoc {A B} (f : A → B) (l : list A) (x : A) :
  NoDup (map f l) → (∀ y, y ∈ l → f y ≠ f x) → NoDup (map f (l ++ [x])).
Proof.
  intros Hnd Hx. rewrite map_app. apply NoDup_app. split; [exact Hnd|].
  split; [|apply NoDup_singleton].
  intros z Hz Hz'. simpl in Hz'. apply list_elem_of_singleton in Hz'. subst z.
  change (map f l) with (f <$> l) in Hz.
  apply list_elem_of_fmap in Hz as (y & Hy & Hin). exact (Hx y Hin (eq_sym Hy)).
Qed.

Lemma moves_unique (b : nat) (w w' : world) :
  moves b w w' → unique_sound w → unique_sound w'.
Proof.
  intros (Ha & Hr & _) (Un & Ue & Ug). unfold unique_sound.
  assert (NoDup (map User.username (rows (accounts w')))
          ∧ NoDup (map User.email (rows (accounts w')))) as [Un' Ue'].
  { destruct Ha as [->|(mk & -> & _ & Hfree)]; [split; assumption|].
    unfold insert. cbn [rows].
    split; apply NoDup_map_snoc; try assumption; intros y Hy;
      apply (Hfree _ y Hy). }
  split; [exact Un'|]. split; [exact Ue'|].
  destruct Hr as [->|(uid & _ & _ & _ & _ & _ & Hg)]; [exact Ug|].
  eapply unique_goals_step; eassumption.
Qed.

Lemma moves_owners (b : nat) (w w' : world) :
  moves b w w' → owners_sound w → owners_sound w'.
Proof.
  intros (Ha & Hr & (s' & Hc & Hs')) (Oc & Om & Of & Os & Ow & Og).
  assert (∀ uid, registered (accounts w) uid → registered (accounts w') uid)
    as Hreg by (intros uid; apply registered_step, Ha).
  unfold owners_sound. split.
  { intros b' uid. rewrite Hc. destruct (decide (b = b')) as [<-|_].
    - destruct Hs' as [->|[->|(u & Hu & ->)]].
      + intros H. apply Hreg, (Oc b uid H).
      + discriminate.
      + intros [= <-]. apply Hreg. exists u. split; [exact Hu|reflexivity].
    - intros H. apply Hreg, (Oc b' uid H). }
  assert (∀ {A} (user : A → Z) (l : list A),
            Forall (λ r, registered (accounts w) (user r)) l →
            Forall (λ r, registered (accounts w') (user r)) l) as Hmono.
  { intros A user l H. eapply Forall_impl; [exact H|].
    intros r Hx. apply Hreg, Hx. }
  destruct Hr as [->|(uid & Hb & Hm & Hf & Hsl & Hw & Hg)];
    [repeat split; apply Hmono; assumption|].
  pose proof (Hreg uid (Oc b uid Hb)) as Hu.
  split; [eapply (Forall_step MealLog.id MealLog.user_id); [|exact Hm|apply Hmono, Om];
          intros r <- _; exact Hu|].
  split; [eapply (Forall_step FitnessLog.id FitnessLog.user_id);
          [|exact Hf|apply Hmono, Of]; intros r <- _; exact Hu|].
  split; [eapply (Forall_step SleepLog.id SleepLog.user_id);
          [|exact Hsl|apply Hmono, Os]; intros r <- _; exact Hu|].
  split; [eapply (Forall_step WeightLog.id WeightLog.user_id);
          [|exact Hw|apply Hmono, Ow]; intros r <- _; exact Hu|].
  apply (owners_goals_step (registered (accounts w')) uid _ _ Hu Hg).
  apply Hmono, Og.
Qed.

Lemma moves_rows (b : nat) (w w' : world) :
  moves b w w' → rows_sound w → rows_sound w'.
Proof.
  intros (Ha & Hr & _) (Ra & Rm & Rf & Rs & Rw). unfold rows_sound. split.
  { destruct Ha as [->|(mk & -> & Hmk & _)]; [exact Ra|].
    unfold insert. cbn [rows]. apply Forall_app. split; [exact Ra|].
    apply Forall_singleton, Hmk. }
  destruct Hr as [->|(uid & _ & Hm & Hf & Hs & Hw & _)];
    [repeat split; assumption|].
  split; [eapply Forall_step; [|exact Hm|exact Rm]; auto|].
  split; [eapply Forall_step; [|exact Hf|exact Rf]; auto|].
  split; [eapply Forall_step; [|exact Hs|exact Rs]; auto|].
  eapply Forall_step; [|exact Hw|exact Rw]; auto.
Qed.

(** Every state the application gets to is sound in the four ways. *)
Lemma reachable_sound (w : world) :
  reachable sqlite_date generate_password_hash check_password_hash w →
  keys_sound w ∧ unique_sound w ∧ owners_sound w ∧ rows_sound w.
Proof.
  induction 1 as [|e w b q _ (Hk & Hu & Ho & Hr)].
  - split; [|split; [|split]].
    + repeat split; try constructor; simpl; lia.
    + repeat split; constructor.
    + split; [intros b uid H; cbn in H; rewrite lookup_empty in H;
              discriminate H|].
      repeat split; constructor.
    + repeat split; constructor.
  - pose proof (handle_moves e w b q) as Hm.
    split; [exact (moves_keys _ _ _ Hm Hk)|].
    split; [exact (moves_unique _ _ _ Hm Hu)|].
    split; [exact (moves_owners _ _ _ Hm Ho)|exact (moves_rows _ _ _ Hm Hr)].
Qed.

(** X23.  Keys are never shared and never given out twice: in every
    state the application gets to from a new database, the keys of
    each of the six tables are pairwise distinct, positive and not
    above the AUTOINCREMENT counter of the table, whatever was posted
    and deleted on the way. *)
Theorem keys_stay_sound (w : world) :
  reachable sqlite_date generate_password_hash check_password_hash w →
  keys_sound w.
Proof. intros H. apply (reachable_sound w H). Qed.

(** X24.  The UNIQUE columns hold without the database having to
    refuse anything but a registration: in every state the application
    gets to, no two accounts share a username or an email, and no user
    has two goals rows ([ensure_goals_row] inserts only when the row is
    missing). *)
Theorem unique_columns_stay_unique (w : world) :
  reachable sqlite_date generate_password_hash check_password_hash w →
  unique_sound w.
Proof. intros H. apply (reachable_sound w H). Qed.

(** X25.  Every row has its owner: in every state the application
    gets to, the user of every session and the [user_id] of every row
    of the logs and of the goals is the key of an account, though the
    foreign keys are declared only. *)
Theorem every_row_has_its_owner (w : world) :
  reachable sqlite_date generate_password_hash check_password_hash w →
  owners_sound w.
Proof. intros H. apply (reachable_sound w H). Qed.


Lemma registered_current_user (users : table User.t) (uid : Z) :
  registered users uid → ∃ user, current_user users (Some uid) = Some user.
Proof.
  intros (u & Hu & Hid). unfold current_user. cbn [mbind option_bind].
  destruct (list_find_elem_of (λ u, User.id u = uid) (rows users) u Hu Hid)
    as [[i x] E].
  rewrite E. exists x. reflexivity.
Qed.


Lemma visitor_sent_away (w : world) (e : env) (b : nat) (q : call) :
  cookies w !! b = None → protected q = true →
  handle sqlite_date generate_password_hash check_password_hash e w b q
  = (w, Served (Answered (Response [] (Redirect "auth")))).
Proof.
  intros Hb. unfold handle. cbv zeta. rewrite Hb.
  destruct q; try discriminate; intros _; reflexivity.
Qed.

(** X28.  Nothing is recorded without a session: a request of a
    browser that is not logged in leaves the logs and the goals as they
    are, and on every route behind [login_required] it changes nothing
    at all and is sent to the login page. *)
Theorem visitors_change_no_record (w : world) (e : env) (b : nat) (q : call) :
  cookies w !! b = None →
  records (handle sqlite_date generate_password_hash check_password_hash
             e w b q).1 = records w
  ∧ (protected q = true →
     handle sqlite_date generate_password_hash check_password_hash e w b q
     = (w, Served (Answered (Response [] (Redirect "auth"))))).
Proof.
  intros Hb. split; [|apply visitor_sent_away, Hb].
  destruct (handle_moves e w b q) as (_ & [E|(uid & Hu & _)] & _);
    [exact E|congruence].
Qed.

Lemma rows_of_step (uid uid' : Z) (st st' : store) :
  uid' ≠ uid → store_step uid st st' → rows_of uid' st' = rows_of uid' st.
Proof.
  intros Hne (Hm & Hf & Hs & Hw & Hg). unfold rows_of.
  rewrite (own_step _ _ _ _ _ _ _ Hne Hm), (own_step _ _ _ _ _ _ _ Hne Hf),
    (own_step _ _ _ _ _ _ _ Hne Hs), (own_step _ _ _ _ _ _ _ Hne Hw),
    (own_goals_step _ _ _ _ Hne Hg).
  reflexivity.
Qed.

(** X29.  A request touches the rows of its own user only: whatever
    the route and whatever is posted, the rows of every other user in
    the four logs and in the goals are after the request what they
    were before; no key in a delete URL reaches a row of somebody
    else. *)
Theorem requests_touch_own_rows_only (w : world) (e : env) (b : nat) (q : call)
    (uid' : Z) :
  cookies w !! b ≠ Some uid' →
  rows_of uid' (records (handle sqlite_date generate_password_hash
                           check_password_hash e w b q).1)
  = rows_of uid' (records w).
Proof.
  intros Hb.
  destruct (handle_moves e w b q) as (_ & [->|(uid & Hu & Hs)] & _);
    [reflexivity|].
  apply (rows_of_step uid); [congruence|exact Hs].
Qed.

(** X30.  Logging out ends the session of that browser and nothing
    else: afterwards the browser has no session, whatever it had, the
    sessions of the other browsers, the accounts and the records are as
    before, and every route behind [login_required] sends the browser
    to the login page without changing anything. *)
Theorem logout_ends_the_session (w : world) (e e' : env) (b : nat) (q : call) :
  let w' := (handle sqlite_date generate_password_hash check_password_hash
               e w b CallLogout).1 in
  cookies w' !! b = None
  ∧ (∀ b', b' ≠ b → cookies w' !! b' = cookies w !! b')
  ∧ accounts w' = accounts w ∧ records w' = records w
  ∧ (protected q = true →
     handle sqlite_date generate_password_hash check_password_hash e' w' b q
     = (w', Served (Answered (Response [] (Redirect "auth"))))).
Proof.
  intros w'. subst w'. cbn [handle logout fst].
  assert (cookies (World (accounts w) (records w)
                     (set_session b None (cookies w))) !! b = None) as Hb
    by (cbn; apply lookup_delete_eq).
  split; [exact Hb|].
  split; [intros b' Hne; cbn; apply lookup_delete_ne; congruence|].
  split; [reflexivity|]. split; [reflexivity|].
  apply visitor_sent_away. exact Hb.
Qed.
End Runs.

Lemma journey_reachable :
  reachable SqliteDate.read_iso PlainHash.generate PlainHash.check
    Journey.with_meal.
Proof.
  unfold Journey.with_meal, Journey.logged_in, Journey.signed_up, Journey.step.
  repeat apply reachable_step. apply reachable_fresh.
Qed.

Lemma keys_stay_sound_witness : keys_sound Journey.with_meal.
Proof.
  apply (keys_stay_sound SqliteDate.read_iso PlainHash.generate PlainHash.check).
  exact journey_reachable.
Defined.

Lemma unique_columns_stay_unique_witness : unique_sound Journey.with_meal.
Proof.
  apply (unique_columns_stay_unique SqliteDate.read_iso PlainHash.generate
           PlainHash.check).
  exact journey_reachable.
Defined.

Lemma every_row_has_its_owner_witness : owners_sound Journey.with_meal.
Proof.
  apply (every_row_has_its_owner SqliteDate.read_iso PlainHash.generate
           PlainHash.check).
  exact journey_reachable.
Defined.



Lemma visitors_change_no_record_witness :
  records (Journey.step Journey.signed_up 0 (CallMealsDelete 1)).1
  = records Journey.signed_up
  ∧ (protected (CallMealsDelete 1) = true →
     Journey.step Journey.signed_up 0 (CallMealsDelete 1)
     = (Journey.signed_up, Served (Answered (Response [] (Redirect "auth"))))).
Proof.
  apply (visitors_change_no_record SqliteDate.read_iso PlainHash.generate
           PlainHash.check Journey.signed_up Journey.clock 0 (CallMealsDelete 1)).
  vm_compute. reflexivity.
Defined.

Lemma requests_touch_own_rows_only_witness :
  rows_of 2 (records (Journey.step Journey.with_meal 0 (CallMealsDelete 1)).1)
  = rows_of 2 (records Journey.with_meal).
Proof.
  apply (requests_touch_own_rows_only SqliteDate.read_iso PlainHash.generate
           PlainHash.check Journey.with_meal Journey.clock 0 (CallMealsDelete 1) 2).
  vm_compute. discriminate.
Defined.
End WorldFacts.
